(** * Task tracker bot: task lifecycle, notification engine and statistics

    A shallow embedding of the parts of the bot that decide its task
    lifecycle (database.py, the status handlers of bot.py, auth.py), its
    notification loop (notifications.py) and its statistics (reports.py and
    the statistics queries of database.py).

    Conventions of the embedding.
    - An instant (a [datetime], an SQLite TIMESTAMP) is an integer number of
      seconds since the epoch, UTC.  Every function that reads the clock
      ([datetime.utcnow()], SQL [datetime('now')], [CURRENT_TIMESTAMP])
      takes the reading as a parameter [now].
    - A table is the list of its rows in insertion order; a row is a record
      whose field types are the column types.  A column with a CHECK
      constraint over a fixed set of strings is an enumeration.
    - What a query returns to Python ([dict(row)]) is a [Row]: an association
      list from column names to Python values, in SELECT order.  [row['k']]
      is [get], which raises [KeyError] when the key is absent.
    - A Python function that may raise returns a [result]; a method that
      also touches the database or the Telegram API runs in the monad [M],
      whose state survives an exception (a committed transaction stays
      committed).
    - One phase of the notification loop runs at one clock reading.
    - Telegram is an oracle: its answer to the [i]-th [send_message] call.
      The texts of utils.py ([format_task], [format_datetime]) are
      parameters; the message templates of the notifications are the
      source's.
    - The quotient of two ints ([/]) is the exact rational, not its float. *)

From Stdlib Require Import ZArith List String Ascii Bool Lia QArith.
From Stdlib Require Import Permutation Sorted.
From Stdlib Require DecimalString DecimalZ DecimalPos.
Import ListNotations.

Local Open Scope string_scope.
Local Open Scope list_scope.
Local Open Scope Z_scope.

(* ===================================================================== *)
(** ** Python values, exceptions and dictionaries *)
(* ===================================================================== *)

Module Py.

(** The exceptions the modelled code can raise. *)
Inductive exn : Type :=
| KeyError (key : string)
| IndexError
| ValueError
| TypeError
| ZeroDivisionError
| IntegrityError
| TelegramError.

Inductive result (A : Type) : Type :=
| Ok (a : A)
| Raise (e : exn).
Arguments Ok {A} a.
Arguments Raise {A} e.

Definition rbind {A B} (r : result A) (k : A -> result B) : result B :=
  match r with
  | Ok a => k a
  | Raise e => Raise e
  end.

(** The values that travel between SQLite and Python. *)
Inductive value : Type :=
| VNone
| VInt (z : Z)
| VStr (s : string)
| VTime (t : Z).

(** [bool(v)], as in [if v:] and [v or default].  A timestamp is a non-empty
    string (or a datetime) on the Python side, hence true. *)
Definition truthy (v : value) : bool :=
  match v with
  | VNone => false
  | VInt z => negb (z =? 0)
  | VStr s => negb (String.eqb s "")
  | VTime _ => true
  end.

(** [a == b]. *)
Definition value_eqb (a b : value) : bool :=
  match a, b with
  | VNone, VNone => true
  | VInt x, VInt y => x =? y
  | VStr x, VStr y => String.eqb x y
  | VTime x, VTime y => x =? y
  | _, _ => false
  end.

(** [str(n)] for an int. *)
Definition str_of_int (z : Z) : string :=
  DecimalString.NilZero.string_of_int (Z.to_int z).

Definition Row : Type := list (string * value).

(** [row[key]]. *)
Fixpoint get (key : string) (row : Row) : result value :=
  match row with
  | [] => Raise (KeyError key)
  | (k, v) :: rest => if String.eqb k key then Ok v else get key rest
  end.

(** The embedding types ids, instants and texts; a row value read where the
    code relies on an int, a datetime or a str is unwrapped by these.  The
    typed columns always hold the right kind, so the [TypeError] is never
    reached on rows that come out of the database. *)
Definition as_int (v : value) : result Z :=
  match v with
  | VInt z => Ok z
  | _ => Raise TypeError
  end.

Definition as_str (v : value) : result string :=
  match v with
  | VStr s => Ok s
  | _ => Raise TypeError
  end.

Definition as_time (v : value) : result Z :=
  match v with
  | VTime t => Ok t
  | _ => Raise TypeError
  end.

(** A line feed, [\n] in the source's literals. *)
Definition nl : string := String (ascii_of_nat 10) EmptyString.

(** [s.split(c)] for a one-character separator. *)
Fixpoint split (c : ascii) (s : string) : list string :=
  match s with
  | EmptyString => [EmptyString]
  | String a rest =>
      if Ascii.eqb a c then EmptyString :: split c rest
      else match split c rest with
           | p :: ps => String a p :: ps
           | [] => [String a EmptyString]
           end
  end.

(** [parts[i]]. *)
Definition index {A} (l : list A) (i : nat) : result A :=
  match nth_error l i with
  | Some a => Ok a
  | None => Raise IndexError
  end.

Definition digit_of (a : ascii) : option Z :=
  let n := Z.of_nat (nat_of_ascii a) in
  if (48 <=? n) && (n <=? 57) then Some (n - 48) else None.

Fixpoint digits_value (acc : Z) (s : string) : option Z :=
  match s with
  | EmptyString => Some acc
  | String a rest =>
      match digit_of a with
      | Some d => digits_value (10 * acc + d) rest
      | None => None
      end
  end.

(** [int(s)] on a decimal literal: an optional sign and at least one ASCII
    digit; anything else is a [ValueError].  (Python also strips blanks,
    reads non-ASCII digits and allows underscores between digits; no part of
    a callback data the bot issues has any of these, and the properties that
    range over arbitrary data say so.) *)
Definition int_of_str (s : string) : result Z :=
  let digits (r : string) : option Z :=
    match r with
    | EmptyString => None
    | _ => digits_value 0 r
    end in
  let parsed :=
    match s with
    | String "-"%char r => option_map Z.opp (digits r)
    | String "+"%char r => digits r
    | _ => digits s
    end in
  match parsed with
  | Some z => Ok z
  | None => Raise ValueError
  end.

(** [sub in s]. *)
Fixpoint contains (sub s : string) : bool :=
  String.prefix sub s ||
  match s with
  | EmptyString => false
  | String _ rest => contains sub rest
  end.

(** [a / b] on ints, with the float quotient taken as the exact rational.
    [None / n] is a [TypeError]. *)
Definition truediv (a b : value) : result Q :=
  match a, b with
  | VInt x, VInt y =>
      if y =? 0 then Raise ZeroDivisionError else Ok (inject_Z x / inject_Z y)%Q
  | _, _ => Raise TypeError
  end.

(** [max(v, 1)]. *)
Definition max_with_1 (v : value) : result value :=
  match v with
  | VInt x => Ok (VInt (Z.max x 1))
  | _ => Raise TypeError
  end.

(** [int(q)]: truncation towards zero. *)
Definition int_of_Q (q : Q) : Z := Z.quot (Qnum q) (Zpos (Qden q)).

End Py.
Import Py.

(* ===================================================================== *)
(** ** The schema (database.py, init_database) *)
(* ===================================================================== *)

(** [CHECK (status IN ('new','in_progress','completed','overdue','cancelled'))] *)
Inductive Status : Type := New | InProgress | Completed | Overdue | Cancelled.

(** [CHECK (priority IN ('low','medium','high'))] *)
Inductive Priority : Type := Low | Medium | High.

(** [CHECK (role IN ('admin','user'))] *)
Inductive Role : Type := Admin | Worker.

(** [CHECK (type IN ('reminder','assignment','deadline','completed'))] *)
Inductive NotifType : Type := Reminder | Assignment | Deadline | CompletedNotif.

Definition status_str (s : Status) : string :=
  match s with
  | New => "new"
  | InProgress => "in_progress"
  | Completed => "completed"
  | Overdue => "overdue"
  | Cancelled => "cancelled"
  end.

(** The value a [status] column accepts: [None] is a CHECK violation. *)
Definition status_of_str (s : string) : option Status :=
  if String.eqb s "new" then Some New
  else if String.eqb s "in_progress" then Some InProgress
  else if String.eqb s "completed" then Some Completed
  else if String.eqb s "overdue" then Some Overdue
  else if String.eqb s "cancelled" then Some Cancelled
  else None.

Definition status_eqb (a b : Status) : bool :=
  match a, b with
  | New, New | InProgress, InProgress | Completed, Completed
  | Overdue, Overdue | Cancelled, Cancelled => true
  | _, _ => false
  end.

Definition priority_str (p : Priority) : string :=
  match p with
  | Low => "low"
  | Medium => "medium"
  | High => "high"
  end.

Definition role_str (r : Role) : string :=
  match r with
  | Admin => "admin"
  | Worker => "user"
  end.

Definition notif_type_str (t : NotifType) : string :=
  match t with
  | Reminder => "reminder"
  | Assignment => "assignment"
  | Deadline => "deadline"
  | CompletedNotif => "completed"
  end.

Definition notif_type_of_str (s : string) : option NotifType :=
  if String.eqb s "reminder" then Some Reminder
  else if String.eqb s "assignment" then Some Assignment
  else if String.eqb s "deadline" then Some Deadline
  else if String.eqb s "completed" then Some CompletedNotif
  else None.

Definition notif_type_eqb (a b : NotifType) : bool :=
  match a, b with
  | Reminder, Reminder | Assignment, Assignment
  | Deadline, Deadline | CompletedNotif, CompletedNotif => true
  | _, _ => false
  end.

Record User : Type := mkUser {
  u_id : Z;
  u_telegram_id : Z;
  u_username : option string;
  u_first_name : option string;
  u_last_name : option string;
  u_role : Role;
  u_is_active : bool;
  u_registered_at : Z;
  u_last_activity : Z
}.

Record Task : Type := mkTask {
  t_id : Z;
  t_title : string;
  t_description : option string;
  t_creator_id : Z;
  t_assignee_id : option Z;
  t_status : Status;
  t_priority : Priority;
  t_deadline : option Z;
  t_created_at : Z;
  t_updated_at : Z;
  t_completed_at : option Z
}.

Record Notification : Type := mkNotification {
  n_id : Z;
  n_user_id : Z;
  n_task_id : Z;
  n_type : NotifType;
  n_message : string;
  n_is_sent : bool;
  n_scheduled_at : Z;
  n_sent_at : option Z;
  n_created_at : Z
}.

Record HistoryEntry : Type := mkHistory {
  h_id : Z;
  h_task_id : Z;
  h_user_id : Z;
  h_action : string;
  h_old_value : option string;
  h_new_value : option string;
  h_created_at : Z
}.

Record DB : Type := mkDB {
  users : list User;
  tasks : list Task;
  notifications : list Notification;
  task_history : list HistoryEntry
}.

(** [INTEGER PRIMARY KEY AUTOINCREMENT]: one more than the largest id the
    table holds (no modelled operation deletes a row). *)
Definition next_id {A} (id : A -> Z) (table : list A) : Z :=
  1 + fold_right (fun r m => Z.max (id r) m) 0 table.

(** SQL values of nullable columns. *)
Definition opt_int (o : option Z) : value :=
  match o with Some z => VInt z | None => VNone end.
Definition opt_str (o : option string) : value :=
  match o with Some s => VStr s | None => VNone end.
Definition opt_time (o : option Z) : value :=
  match o with Some t => VTime t | None => VNone end.
Definition sql_bool (b : bool) : value := VInt (if b then 1 else 0).

(** [a || ' ' || b]: NULL as soon as one operand is NULL. *)
Definition sql_full_name (u : option User) : value :=
  match u with
  | Some u =>
      match u_first_name u, u_last_name u with
      | Some f, Some l => VStr (f ++ " " ++ l)%string
      | _, _ => VNone
      end
  | None => VNone
  end.

(** [SELECT * FROM users]. *)
Definition user_row (u : User) : Row :=
  [ ("id", VInt (u_id u));
    ("telegram_id", VInt (u_telegram_id u));
    ("username", opt_str (u_username u));
    ("first_name", opt_str (u_first_name u));
    ("last_name", opt_str (u_last_name u));
    ("role", VStr (role_str (u_role u)));
    ("is_active", sql_bool (u_is_active u));
    ("registered_at", VTime (u_registered_at u));
    ("last_activity", VTime (u_last_activity u)) ].

(** The columns of [t.*]. *)
Definition task_columns (t : Task) : Row :=
  [ ("id", VInt (t_id t));
    ("title", VStr (t_title t));
    ("description", opt_str (t_description t));
    ("creator_id", VInt (t_creator_id t));
    ("assignee_id", opt_int (t_assignee_id t));
    ("status", VStr (status_str (t_status t)));
    ("priority", VStr (priority_str (t_priority t)));
    ("deadline", opt_time (t_deadline t));
    ("created_at", VTime (t_created_at t));
    ("updated_at", VTime (t_updated_at t));
    ("completed_at", opt_time (t_completed_at t)) ].

(** [SELECT n.* FROM notifications n]. *)
Definition notification_columns (n : Notification) : Row :=
  [ ("id", VInt (n_id n));
    ("user_id", VInt (n_user_id n));
    ("task_id", VInt (n_task_id n));
    ("type", VStr (notif_type_str (n_type n)));
    ("message", VStr (n_message n));
    ("is_sent", sql_bool (n_is_sent n));
    ("scheduled_at", VTime (n_scheduled_at n));
    ("sent_at", opt_time (n_sent_at n));
    ("created_at", VTime (n_created_at n)) ].

(* ===================================================================== *)
(** ** database.py: class DatabaseManager *)
(* ===================================================================== *)

Module Database.

(** [ORDER BY]: rows are put in order by a stable insertion sort; where SQL
    leaves the order of equal keys open, the table order is kept. *)
Fixpoint insert_by {A} (le : A -> A -> bool) (x : A) (l : list A) : list A :=
  match l with
  | [] => [x]
  | y :: rest => if le x y then x :: l else y :: insert_by le x rest
  end.

Definition order_by {A} (le : A -> A -> bool) (l : list A) : list A :=
  fold_right (insert_by le) [] l.

(** [LIMIT l OFFSET o] (a negative limit is no limit, a negative offset is
    none). *)
Definition limit_offset {A} (l o : Z) (rows : list A) : list A :=
  let rest := skipn (Z.to_nat o) rows in
  if l <? 0 then rest else firstn (Z.to_nat l) rest.

(** The row a [LEFT JOIN users x ON ... = x.id] finds: [users.id] is the
    primary key, so at most one row matches. *)
Definition user_by_id (d : DB) (id : Z) : option User :=
  find (fun u => u_id u =? id) (users d).

Definition joined_user (d : DB) (id : option Z) : option User :=
  match id with
  | Some i => user_by_id d i
  | None => None
  end.

(** [WHERE telegram_id = ?]; the parameter is whatever Python passes, and a
    NULL parameter matches no row. *)
Definition get_user_by_telegram_id (d : DB) (telegram_id : value) : option Row :=
  option_map user_row
    (find (fun u => value_eqb (VInt (u_telegram_id u)) telegram_id) (users d)).

Definition get_user_by_id (d : DB) (user_id : Z) : option Row :=
  option_map user_row (user_by_id d user_id).

(** [SELECT * FROM users WHERE is_active = 1 ORDER BY first_name]
    (NULL names first, then byte order). *)
Definition first_name_le (a b : User) : bool :=
  match u_first_name a, u_first_name b with
  | None, _ => true
  | Some _, None => false
  | Some x, Some y => String.leb x y
  end.

Definition get_all_users (d : DB) : list Row :=
  map user_row (order_by first_name_le (filter u_is_active (users d))).

(** [t.*, creator_name, assignee_name]: what [get_tasks_by_user],
    [get_all_tasks] and [search_tasks] select. *)
Definition task_row (d : DB) (t : Task) : Row :=
  task_columns t ++
  [ ("creator_name", sql_full_name (user_by_id d (t_creator_id t)));
    ("assignee_name", sql_full_name (joined_user d (t_assignee_id t))) ].

(** The same with [a.telegram_id as assignee_telegram_id]: what
    [get_task_by_id] and [get_overdue_tasks] select. *)
Definition task_row_tg (d : DB) (t : Task) : Row :=
  task_row d t ++
  [ ("assignee_telegram_id",
     opt_int (option_map u_telegram_id (joined_user d (t_assignee_id t)))) ].

Definition add_task_history (now task_id user_id : Z) (action : string)
    (old_value new_value : option string) (d : DB) : DB :=
  {| users := users d;
     tasks := tasks d;
     notifications := notifications d;
     task_history := task_history d ++
       [ {| h_id := next_id h_id (task_history d);
            h_task_id := task_id;
            h_user_id := user_id;
            h_action := action;
            h_old_value := old_value;
            h_new_value := new_value;
            h_created_at := now |} ] |}.

Definition set_tasks (ts : list Task) (d : DB) : DB :=
  {| users := users d;
     tasks := ts;
     notifications := notifications d;
     task_history := task_history d |}.

Definition set_notifications (ns : list Notification) (d : DB) : DB :=
  {| users := users d;
     tasks := tasks d;
     notifications := ns;
     task_history := task_history d |}.

(** [UPDATE tasks SET ... WHERE id = ?]. *)
Definition update_task (task_id : Z) (f : Task -> Task) (d : DB) : DB :=
  set_tasks (map (fun t => if t_id t =? task_id then f t else t) (tasks d)) d.

Definition create_task (now : Z) (title : string) (description : option string)
    (creator_id : Z) (assignee_id : option Z) (priority : Priority)
    (deadline : option Z) (d : DB) : Z * DB :=
  let task_id := next_id t_id (tasks d) in
  let t := {| t_id := task_id;
              t_title := title;
              t_description := description;
              t_creator_id := creator_id;
              t_assignee_id := assignee_id;
              t_status := New;
              t_priority := priority;
              t_deadline := deadline;
              t_created_at := now;
              t_updated_at := now;
              t_completed_at := None |} in
  (task_id,
   add_task_history now task_id creator_id "created" None
     (Some "Задача создана") (set_tasks (tasks d ++ [t]) d)).

Definition get_task_by_id (d : DB) (task_id : Z) : option Row :=
  option_map (task_row_tg d) (find (fun t => t_id t =? task_id) (tasks d)).

(** [ORDER BY t.deadline ASC, t.created_at DESC]; NULL deadlines first. *)
Definition deadline_created_le (a b : Task) : bool :=
  match t_deadline a, t_deadline b with
  | None, None => t_created_at b <=? t_created_at a
  | None, Some _ => true
  | Some _, None => false
  | Some x, Some y =>
      (x <? y) || ((x =? y) && (t_created_at b <=? t_created_at a))
  end.

(** [if status:] - the filter is applied for a non-empty string. *)
Definition status_filter (status : option string) (t : Task) : bool :=
  match status with
  | Some s => if String.eqb s "" then true else String.eqb (status_str (t_status t)) s
  | None => true
  end.

Definition get_all_tasks (d : DB) (status : option string) (limit : option Z)
    (offset : Z) : list Row :=
  let rows := order_by deadline_created_le (filter (status_filter status) (tasks d)) in
  let page :=
    match limit with
    | Some l => if l =? 0 then rows else limit_offset l offset rows
    | None => rows
    end in
  map (task_row d) page.

Definition get_tasks_by_user (d : DB) (user_id : Z) (status : option string)
    : list Row :=
  map (task_row d)
    (order_by deadline_created_le
       (filter (fun t => match t_assignee_id t with
                         | Some a => (a =? user_id) && status_filter status t
                         | None => false
                         end) (tasks d))).

(** Returns [False] when the task is absent; the status write leaves
    [completed_at] as it is. *)
Definition cancel_task (now task_id user_id : Z) (d : DB) : bool * DB :=
  match find (fun t => t_id t =? task_id) (tasks d) with
  | None => (false, d)
  | Some row =>
      let old_status := status_str (t_status row) in
      let d1 := update_task task_id
        (fun t => {| t_id := t_id t;
                     t_title := t_title t;
                     t_description := t_description t;
                     t_creator_id := t_creator_id t;
                     t_assignee_id := t_assignee_id t;
                     t_status := Cancelled;
                     t_priority := t_priority t;
                     t_deadline := t_deadline t;
                     t_created_at := t_created_at t;
                     t_updated_at := now;
                     t_completed_at := t_completed_at t |}) d in
      (true, add_task_history now task_id user_id "status_changed"
               (Some old_status) (Some "cancelled") d1)
  end.

(** A [status] outside the CHECK list makes the UPDATE raise
    [sqlite3.IntegrityError]; the [except Exception] turns it into [False]
    and nothing is committed. *)
Definition update_task_status (now task_id : Z) (status : string) (user_id : Z)
    (d : DB) : bool * DB :=
  match find (fun t => t_id t =? task_id) (tasks d) with
  | None => (false, d)
  | Some row =>
      let old_status := status_str (t_status row) in
      let completed_at := if String.eqb status "completed" then Some now else None in
      match status_of_str status with
      | None => (false, d)
      | Some s =>
          let d1 := update_task task_id
            (fun t => {| t_id := t_id t;
                         t_title := t_title t;
                         t_description := t_description t;
                         t_creator_id := t_creator_id t;
                         t_assignee_id := t_assignee_id t;
                         t_status := s;
                         t_priority := t_priority t;
                         t_deadline := t_deadline t;
                         t_created_at := t_created_at t;
                         t_updated_at := now;
                         t_completed_at := completed_at |}) d in
          (true, add_task_history now task_id user_id "status_changed"
                   (Some old_status) (Some status) d1)
      end
  end.

(** [deadline < datetime('now')]; a NULL deadline never compares. *)
Definition past_deadline (now : Z) (t : Task) : bool :=
  match t_deadline t with
  | Some dl => dl <? now
  | None => false
  end.

(** [WHERE t.deadline < datetime('now')
     AND t.status NOT IN ('completed', 'cancelled')]. *)
Definition is_overdue (now : Z) (t : Task) : bool :=
  past_deadline now t &&
  negb (status_eqb (t_status t) Completed || status_eqb (t_status t) Cancelled).

Definition get_overdue_tasks (now : Z) (d : DB) : list Row :=
  map (task_row_tg d) (filter (is_overdue now) (tasks d)).

(** [UPDATE tasks SET status = 'overdue', updated_at = CURRENT_TIMESTAMP
     WHERE deadline < datetime('now')
     AND status NOT IN ('completed', 'cancelled', 'overdue')]. *)
Definition becomes_overdue (now : Z) (t : Task) : bool :=
  is_overdue now t && negb (status_eqb (t_status t) Overdue).

Definition update_overdue_tasks (now : Z) (d : DB) : DB :=
  set_tasks
    (map (fun t =>
            if becomes_overdue now t then
              {| t_id := t_id t;
                 t_title := t_title t;
                 t_description := t_description t;
                 t_creator_id := t_creator_id t;
                 t_assignee_id := t_assignee_id t;
                 t_status := Overdue;
                 t_priority := t_priority t;
                 t_deadline := t_deadline t;
                 t_created_at := t_created_at t;
                 t_updated_at := now;
                 t_completed_at := t_completed_at t |}
            else t) (tasks d)) d.

(** A [notification_type] outside the CHECK list raises
    [sqlite3.IntegrityError] and inserts nothing. *)
Definition create_notification (now user_id task_id : Z)
    (notification_type message : string) (scheduled_at : Z) (d : DB)
    : result Z * DB :=
  match notif_type_of_str notification_type with
  | None => (Raise IntegrityError, d)
  | Some ty =>
      let notification_id := next_id n_id (notifications d) in
      (Ok notification_id,
       set_notifications
         (notifications d ++
          [ {| n_id := notification_id;
               n_user_id := user_id;
               n_task_id := task_id;
               n_type := ty;
               n_message := message;
               n_is_sent := false;
               n_scheduled_at := scheduled_at;
               n_sent_at := None;
               n_created_at := now |} ]) d)
  end.

(** [SELECT n.*, u.telegram_id, t.title as task_title]. *)
Definition pending_row (n : Notification) (u : User) (t : Task) : Row :=
  notification_columns n ++
  [ ("telegram_id", VInt (u_telegram_id u));
    ("task_title", VStr (t_title t)) ].

(** [WHERE n.is_sent = 0 AND n.scheduled_at <= datetime('now')]. *)
Definition is_pending (now : Z) (n : Notification) : bool :=
  negb (n_is_sent n) && (n_scheduled_at n <=? now).

(** The two inner joins keep a notification whose user and task exist. *)
Definition pending_join (d : DB) (n : Notification) : option Row :=
  match user_by_id d (n_user_id n),
        find (fun t => t_id t =? n_task_id n) (tasks d) with
  | Some u, Some t => Some (pending_row n u t)
  | _, _ => None
  end.

Definition scheduled_le (a b : Notification) : bool :=
  n_scheduled_at a <=? n_scheduled_at b.

Fixpoint filter_map {A B} (f : A -> option B) (l : list A) : list B :=
  match l with
  | [] => []
  | x :: rest =>
      match f x with
      | Some y => y :: filter_map f rest
      | None => filter_map f rest
      end
  end.

Definition get_pending_notifications (now : Z) (d : DB) : list Row :=
  filter_map (pending_join d)
    (order_by scheduled_le (filter (is_pending now) (notifications d))).

Definition get_unsent_notifications_by_task_type (d : DB) (task_id : Z)
    (notif_type : string) : list Row :=
  map notification_columns
    (filter (fun n => negb (n_is_sent n) && (n_task_id n =? task_id)
                      && String.eqb (notif_type_str (n_type n)) notif_type)
            (notifications d)).

Definition exists_notification_by_task_type (d : DB) (task_id : Z)
    (notif_type : string) : bool :=
  existsb (fun n => (n_task_id n =? task_id)
                    && String.eqb (notif_type_str (n_type n)) notif_type)
          (notifications d).

Definition mark_sent (now : Z) (n : Notification) : Notification :=
  {| n_id := n_id n;
     n_user_id := n_user_id n;
     n_task_id := n_task_id n;
     n_type := n_type n;
     n_message := n_message n;
     n_is_sent := true;
     n_scheduled_at := n_scheduled_at n;
     n_sent_at := Some now;
     n_created_at := n_created_at n |}.

Definition mark_notification_sent (now notification_id : Z) (d : DB) : DB :=
  set_notifications
    (map (fun n => if n_id n =? notification_id then mark_sent now n else n)
         (notifications d)) d.

(** [SUM(CASE WHEN c THEN 1 ELSE 0 END)]: NULL over no rows. *)
Definition sql_sum_case {A} (c : A -> bool) (rows : list A) : value :=
  match rows with
  | [] => VNone
  | _ => VInt (Z.of_nat (List.length (filter c rows)))
  end.

Definition is_active_status (s : Status) : bool :=
  status_eqb s New || status_eqb s InProgress.

Definition stats_columns (rows : list Task) : Row :=
  [ ("total_tasks", VInt (Z.of_nat (List.length rows)));
    ("completed_tasks", sql_sum_case (fun t => status_eqb (t_status t) Completed) rows);
    ("overdue_tasks", sql_sum_case (fun t => status_eqb (t_status t) Overdue) rows);
    ("active_tasks", sql_sum_case (fun t => is_active_status (t_status t)) rows) ].

Definition assigned_to (user_id : Z) (t : Task) : bool :=
  match t_assignee_id t with
  | Some a => a =? user_id
  | None => false
  end.

Definition get_user_stats (d : DB) (user_id : Z) : Row :=
  stats_columns (filter (assigned_to user_id) (tasks d)).

(** [COUNT(DISTINCT assignee_id)] skips NULL. *)
Definition distinct_assignees (rows : list Task) : Z :=
  Z.of_nat (List.length (nodup Z.eq_dec
    (filter_map t_assignee_id rows))).

Definition get_general_stats (d : DB) : Row :=
  stats_columns (tasks d) ++
  [ ("active_users", VInt (distinct_assignees (tasks d)));
    ("total_users", VInt (Z.of_nat (List.length (filter u_is_active (users d))))) ].

(** The value a [role] column accepts: [None] is a CHECK violation. *)
Definition role_of_str (s : string) : option Role :=
  if String.eqb s "admin" then Some Admin
  else if String.eqb s "user" then Some Worker
  else None.

(** [create_user]: a second row for a [telegram_id] (UNIQUE) or a [role]
    outside the CHECK list raises [sqlite3.IntegrityError], which the method
    turns into [False]; nothing is inserted then. *)
Definition create_user (now telegram_id : Z) (username first_name last_name : option string)
    (role : string) (d : DB) : bool * DB :=
  match role_of_str role with
  | None => (false, d)
  | Some r =>
      if existsb (fun u => u_telegram_id u =? telegram_id) (users d) then (false, d)
      else
        (true,
         {| users := users d ++
              [ {| u_id := next_id u_id (users d);
                   u_telegram_id := telegram_id;
                   u_username := username;
                   u_first_name := first_name;
                   u_last_name := last_name;
                   u_role := r;
                   u_is_active := true;
                   u_registered_at := now;
                   u_last_activity := now |} ];
            tasks := tasks d;
            notifications := notifications d;
            task_history := task_history d |})
  end.

(** [str(old_assignee) if old_assignee else None]. *)
Definition old_assignee_text (old_assignee : option Z) : option string :=
  match old_assignee with
  | Some a => if a =? 0 then None else Some (str_of_int a)
  | None => None
  end.

(** [assign_task]: [False] when the task is absent. *)
Definition assign_task (now task_id assignee_id user_id : Z) (d : DB) : bool * DB :=
  match find (fun t => t_id t =? task_id) (tasks d) with
  | None => (false, d)
  | Some row =>
      let old_assignee := t_assignee_id row in
      let d1 := update_task task_id
        (fun t => {| t_id := t_id t;
                     t_title := t_title t;
                     t_description := t_description t;
                     t_creator_id := t_creator_id t;
                     t_assignee_id := Some assignee_id;
                     t_status := t_status t;
                     t_priority := t_priority t;
                     t_deadline := t_deadline t;
                     t_created_at := t_created_at t;
                     t_updated_at := now;
                     t_completed_at := t_completed_at t |}) d in
      (true, add_task_history now task_id user_id "assigned"
               (old_assignee_text old_assignee) (Some (str_of_int assignee_id)) d1)
  end.

End Database.

(* ===================================================================== *)
(** ** config.py *)
(* ===================================================================== *)

Record BotConfig : Type := mkConfig {
  NOTIFICATION_CHECK_INTERVAL : Z;
  REMINDER_HOURS_BEFORE : list Z;
  MAX_TASKS_PER_PAGE : Z;
  DISPLAY_TZ_OFFSET_HOURS : Z
}.

Definition default_config : BotConfig :=
  {| NOTIFICATION_CHECK_INTERVAL := 300;
     REMINDER_HOURS_BEFORE := [24; 6; 1];
     MAX_TASKS_PER_PAGE := 5;
     DISPLAY_TZ_OFFSET_HOURS := 5 |}.

(** [TASK_STATUS[key]]. *)
Definition TASK_STATUS (key : string) : result string :=
  if String.eqb key "new" then Ok "Новая"
  else if String.eqb key "in_progress" then Ok "В работе"
  else if String.eqb key "completed" then Ok "Выполнена"
  else if String.eqb key "overdue" then Ok "Просрочена"
  else if String.eqb key "cancelled" then Ok "Отменена"
  else Raise (KeyError key).

(* ===================================================================== *)
(** ** auth.py: class AuthManager *)
(* ===================================================================== *)

Module Auth.

Definition is_admin (user_role : string) : bool := String.eqb user_role "admin".

Definition can_modify_task (user_role : string) (user_id : value)
    (task_creator_id task_assignee_id : value) : bool :=
  if String.eqb user_role "admin" then true
  else if value_eqb user_id task_assignee_id then true
  else false.

End Auth.

(* ===================================================================== *)
(** ** The world the bot runs in, and the monad of its methods *)
(* ===================================================================== *)

(** One [bot.send_message] call: the chat, the text and whether Telegram
    accepted it. *)
Record Delivery : Type := mkDelivery {
  d_chat : Z;
  d_text : string;
  d_ok : bool
}.

(** The database, whether [NotificationManager.bot] is set, and the calls
    made to Telegram so far. *)
Record World : Type := mkWorld {
  w_db : DB;
  w_bot : bool;
  w_log : list Delivery
}.

(** What lies outside the program: Telegram's answer to the [i]-th
    [send_message] call, the configuration, and the two text renderers of
    utils.py, which read only columns every task query selects. *)
Record Env : Type := mkEnv {
  telegram : nat -> bool;
  config : BotConfig;
  format_task : Row -> string;
  format_datetime : Z -> string
}.

Definition M (A : Type) : Type := World -> result A * World.

Definition ret {A} (a : A) : M A := fun w => (Ok a, w).

Definition bind {A B} (c : M A) (k : A -> M B) : M B :=
  fun w =>
    match c w with
    | (Ok a, w1) => k a w1
    | (Raise e, w1) => (Raise e, w1)
    end.

Declare Scope m_scope.
Delimit Scope m_scope with M.
Notation "x <- c ;; k" := (bind c (fun x => k))
  (at level 61, c at next level, right associativity) : m_scope.
Notation "c ;;; k" := (bind c (fun _ => k))
  (at level 61, right associativity) : m_scope.
Local Open Scope m_scope.

(** A pure Python expression that may raise. *)
Definition lift {A} (r : result A) : M A := fun w => (r, w).

(** A query: reads the database. *)
Definition query {A} (q : DB -> A) : M A := fun w => (Ok (q (w_db w)), w).

(** A committed write. *)
Definition write (f : DB -> DB) : M unit :=
  fun w => (Ok tt, {| w_db := f (w_db w); w_bot := w_bot w; w_log := w_log w |}).

(** A write that also returns a value. *)
Definition write_ret {A} (f : DB -> A * DB) : M A :=
  fun w => let (a, d) := f (w_db w) in
           (Ok a, {| w_db := d; w_bot := w_bot w; w_log := w_log w |}).

(** [for x in xs: body(x)]; an exception leaves the loop. *)
Fixpoint for_each {A} (body : A -> M unit) (xs : list A) : M unit :=
  match xs with
  | [] => ret tt
  | x :: rest => body x ;;; for_each body rest
  end.

(** [try: c  except Exception as e: logger.error(...)]. *)
Definition try_except (c : M unit) : M unit :=
  fun w =>
    match c w with
    | (Raise _, w1) => (Ok tt, w1)
    | r => r
    end.

(** [any(p(x) for x in xs)], left to right, stopping at the first hit. *)
Fixpoint any_of {A} (p : A -> result bool) (xs : list A) : result bool :=
  match xs with
  | [] => Ok false
  | x :: rest =>
      match p x with
      | Ok true => Ok true
      | Ok false => any_of p rest
      | Raise e => Raise e
      end
  end.

(** [utils.get_current_tashkent_time()]. *)
Definition get_current_tashkent_time (cfg : BotConfig) (now : Z) : Z :=
  now + DISPLAY_TZ_OFFSET_HOURS cfg * 3600.

(* ===================================================================== *)
(** ** notifications.py: class NotificationManager *)
(* ===================================================================== *)

Module Notifications.
Import Database.

Section Manager.

Variable env : Env.

(** [start_notification_loop] sets [self.bot] before its first pass. *)
Definition set_bot (w : World) : World :=
  {| w_db := w_db w; w_bot := true; w_log := w_log w |}.

(** Without a bot the call logs an error and returns; otherwise the message
    goes to Telegram, and a [TelegramError] is logged and raised again. *)
Definition send_notification (telegram_id : Z) (message : string) : M unit :=
  fun w =>
    if negb (w_bot w) then (Ok tt, w)
    else
      let ok := telegram env (List.length (w_log w)) in
      (if ok then Ok tt else Raise TelegramError,
       {| w_db := w_db w;
          w_bot := w_bot w;
          w_log := w_log w ++
            [ {| d_chat := telegram_id; d_text := message; d_ok := ok |} ] |}).

(** The body of the [try] in [check_and_send_notifications]. *)
Definition send_pending (now : Z) (notification : Row) : M unit :=
  telegram_id <- lift (rbind (get "telegram_id" notification) as_int) ;;
  message <- lift (rbind (get "message" notification) as_str) ;;
  _task_id <- lift (get "task_id" notification) ;;
  send_notification telegram_id message ;;;
  id <- lift (rbind (get "id" notification) as_int) ;;
  write (mark_notification_sent now id).

Definition check_and_send_notifications (now : Z) : M unit :=
  notifications <- query (get_pending_notifications now) ;;
  for_each (fun notification => try_except (send_pending now notification))
           notifications.

Definition deadline_message (task : Row) : string :=
  ("⚠️" ++ " **ЗАДАЧА ПРОСРОЧЕНА!**" ++ nl ++ nl ++
   format_task env task ++ nl ++ nl ++
   "Пожалуйста, обновите статус задачи или свяжитесь с руководителем.")%string.

(** The body of the loop of [check_overdue_tasks]. *)
Definition alert_overdue (now : Z) (task : Row) : M unit :=
  task_id <- lift (rbind (get "id" task) as_int) ;;
  seen <- query (fun d => exists_notification_by_task_type d task_id "deadline") ;;
  if seen then ret tt
  else
    assignee_telegram_id <- lift (get "assignee_telegram_id" task) ;;
    if truthy assignee_telegram_id then
      assignee <- query (fun d => get_user_by_telegram_id d assignee_telegram_id) ;;
      match assignee with
      | Some assignee =>
          let message := deadline_message task in
          user_id <- lift (rbind (get "id" assignee) as_int) ;;
          created <- write_ret (create_notification now user_id task_id "deadline"
                                  message (get_current_tashkent_time (config env) now)) ;;
          notif_id <- lift created ;;
          chat <- lift (as_int assignee_telegram_id) ;;
          send_notification chat message ;;;
          write (mark_notification_sent now notif_id)
      | None => ret tt
      end
    else ret tt.

Definition check_overdue_tasks (now : Z) : M unit :=
  write (update_overdue_tasks now) ;;;
  overdue_tasks <- query (get_overdue_tasks now) ;;
  for_each (alert_overdue now) overdue_tasks.

(** [f"{hours_before} часов"], the text looked for in older reminders. *)
Definition reminder_key (hours_before : Z) : string :=
  (str_of_int hours_before ++ " часов")%string.

Definition reminder_message (task : Row) (hours_before : Z) : string :=
  ("⏰" ++ " **НАПОМИНАНИЕ О ДЕДЛАЙНЕ**" ++ nl ++ nl ++
   "⏰ До завершения задачи осталось **" ++ reminder_key hours_before ++
   "**!" ++ nl ++ nl ++ format_task env task)%string.

Definition create_deadline_reminder (now : Z) (task : Row) (hours_before : Z)
    (reminder_time : Z) : M unit :=
  assignee_telegram_id <- lift (get "assignee_telegram_id" task) ;;
  assignee <- query (fun d => get_user_by_telegram_id d assignee_telegram_id) ;;
  match assignee with
  | None => ret tt
  | Some assignee =>
      task_id <- lift (rbind (get "id" task) as_int) ;;
      existing_notifications <-
        query (fun d => get_unsent_notifications_by_task_type d task_id "reminder") ;;
      found <- lift (any_of (fun notif =>
                               rbind (rbind (get "message" notif) as_str)
                                 (fun m => Ok (contains (reminder_key hours_before) m)))
                            existing_notifications) ;;
      if (found : bool) then ret tt
      else
        let message := reminder_message task hours_before in
        user_id <- lift (rbind (get "id" assignee) as_int) ;;
        created <- write_ret (create_notification now user_id task_id "reminder"
                                message reminder_time) ;;
        _id <- lift created ;;
        ret tt
  end.

(** The body of the outer loop of [schedule_deadline_reminders]. *)
Definition remind_task (now : Z) (task : Row) : M unit :=
  deadline_v <- lift (get "deadline" task) ;;
  if negb (truthy deadline_v) then ret tt
  else
    assignee_id <- lift (get "assignee_id" task) ;;
    if negb (truthy assignee_id) then ret tt
    else
      deadline <- lift (as_time deadline_v) ;;
      for_each (fun hours_before =>
                  let reminder_time := deadline - hours_before * 3600 in
                  if (now <? reminder_time) && (reminder_time <=? now + 3600)
                  then create_deadline_reminder now task hours_before reminder_time
                  else ret tt)
               (REMINDER_HOURS_BEFORE (config env)).

Definition schedule_deadline_reminders (now : Z) : M unit :=
  fresh <- query (fun d => get_all_tasks d (Some "new") None 0) ;;
  in_progress <- query (fun d => get_all_tasks d (Some "in_progress") None 0) ;;
  let active_tasks := fresh ++ in_progress in
  for_each (remind_task now) active_tasks.

(** One pass of the [while self.is_running] loop: the three phases, and the
    [except Exception] around them that logs and goes on. *)
Definition loop_pass (now : Z) : M unit :=
  try_except
    (check_and_send_notifications now ;;;
     check_overdue_tasks now ;;;
     schedule_deadline_reminders now).

(** [int(user_stats['completed_tasks'] / max(user_stats['total_tasks'], 1) * 100)],
    with the quotient and the product taken exactly.  The code rounds both
    to floats, so on integer columns its figure can be one less (57, not
    58, for 29 of 50); what is proved of this function is only where it
    raises. *)
Definition weekly_productivity (user_stats : Row) : result Z :=
  rbind (get "completed_tasks" user_stats) (fun completed =>
  rbind (get "total_tasks" user_stats) (fun total =>
  rbind (max_with_1 total) (fun floor =>
  rbind (truediv completed floor) (fun ratio =>
  Ok (int_of_Q (ratio * 100)%Q))))).

(** [send_weekly_report] up to the text it sends: the statistics query and
    the productivity figure; the message goes out only if the figure could
    be computed. *)
Definition send_weekly_report (now : Z) (user_telegram_id user_id : Z)
    (render : Row -> Z -> string) : M unit :=
  user_stats <- query (fun d => get_user_stats d user_id) ;;
  productivity <- lift (weekly_productivity user_stats) ;;
  send_notification user_telegram_id (render user_stats productivity).

End Manager.
End Notifications.

(* ===================================================================== *)
(** ** bot.py: class TaskManagerBot (status keyboards and handlers) *)
(* ===================================================================== *)

Module Bot.
Import Database.

(** An inline button is its [callback_data]; the label plays no part in
    dispatch.  A keyboard is a list of button rows. *)
Definition Keyboard : Type := list (list string).

Definition task_status_button (task_id : Z) (status : string) : string :=
  ("task_status_" ++ str_of_int task_id ++ "_" ++ status)%string.

(** The status buttons both keyboards give the assignee of a task. *)
Definition assignee_actions (task_id : Z) (status : value) : list string :=
  if value_eqb status (VStr "new") then
    [ task_status_button task_id "in_progress";
      task_status_button task_id "completed" ]
  else if value_eqb status (VStr "in_progress") then
    [ task_status_button task_id "completed" ]
  else [].

(** The three columns are read up front; every task row has them. *)
Definition create_task_detail_keyboard (task : Row) (user_role : string)
    (user_id : value) : result Keyboard :=
  rbind (get "assignee_id" task) (fun assignee_id =>
  rbind (rbind (get "id" task) as_int) (fun task_id =>
  rbind (get "status" task) (fun status =>
  let own := if value_eqb assignee_id user_id
             then map (fun b => [b]) (assignee_actions task_id status)
             else [] in
  let admin := if String.eqb user_role "admin"
               then [ [("edit_task_" ++ str_of_int task_id)%string];
                      [("reassign_task_" ++ str_of_int task_id)%string];
                      [("change_status_" ++ str_of_int task_id)%string];
                      [("cancel_task_" ++ str_of_int task_id)%string] ]
               else [] in
  Ok (own ++ admin ++
      [ [("task_history_" ++ str_of_int task_id)%string];
        ["all_tasks"; "main_menu"] ])))).

(** [tasks[start_idx:end_idx]] for non-negative bounds. *)
Definition slice {A} (l : list A) (start stop : Z) : list A :=
  firstn (Z.to_nat (stop - start)) (skipn (Z.to_nat start) l).

(** The rows [create_task_list_keyboard] adds for one task. *)
Definition task_list_rows (callback_prefix : string) (user_id : value)
    (task : Row) : result Keyboard :=
  rbind (rbind (get "id" task) as_int) (fun task_id =>
  let task_row := [ (callback_prefix ++ "_" ++ str_of_int task_id)%string ] in
  if truthy user_id then
    rbind (get "assignee_id" task) (fun assignee_id =>
    if value_eqb assignee_id user_id then
      rbind (get "status" task) (fun status =>
      match assignee_actions task_id status with
      | [] => Ok [task_row]
      | action_buttons => Ok [task_row; action_buttons]
      end)
    else Ok [task_row])
  else Ok [task_row]).

Fixpoint concat_results {A} (l : list (result (list A))) : result (list A) :=
  match l with
  | [] => Ok []
  | r :: rest =>
      rbind r (fun x => rbind (concat_results rest) (fun xs => Ok (x ++ xs)))
  end.

Definition create_task_list_keyboard (cfg : BotConfig) (tasks : list Row)
    (page : Z) (callback_prefix : string) (user_id : value) : result Keyboard :=
  let start_idx := page * MAX_TASKS_PER_PAGE cfg in
  let end_idx := start_idx + MAX_TASKS_PER_PAGE cfg in
  let page_tasks := slice tasks start_idx end_idx in
  rbind (concat_results (map (task_list_rows callback_prefix user_id) page_tasks))
  (fun keyboard =>
  let total_pages :=
    (Z.of_nat (List.length tasks) + MAX_TASKS_PER_PAGE cfg - 1) / MAX_TASKS_PER_PAGE cfg in
  let back := if 0 <? page
              then [ (callback_prefix ++ "_page_" ++ str_of_int (page - 1))%string ]
              else [] in
  let next := if page <? total_pages - 1
              then [ (callback_prefix ++ "_page_" ++ str_of_int (page + 1))%string ]
              else [] in
  let nav_buttons := back ++ next in
  Ok (keyboard ++
      match nav_buttons with [] => [] | _ => [nav_buttons] end ++
      [ ["main_menu"] ])).

(** What [change_task_status] tells the user ([query.answer]). *)
Inductive Answer : Type :=
| NotFound          (* "Задача не найдена." *)
| Forbidden         (* "У вас нет прав для изменения этой задачи." *)
| StatusChanged     (* one of the three success texts *)
| StatusError.      (* "Ошибка при изменении статуса." *)

(** [parts = data.split('_'); task_id = int(parts[2]); new_status = parts[3]]. *)
Definition parse_task_status (data : string) : result (Z * string) :=
  let parts := split "_"%char data in
  rbind (rbind (index parts 2) int_of_str) (fun task_id =>
  rbind (index parts 3) (fun new_status =>
  Ok (task_id, new_status))).

Section Handlers.

Variable env : Env.

Definition status_emoji (new_status : string) : string :=
  if String.eqb new_status "new" then "🆕"
  else if String.eqb new_status "in_progress" then "🕐"
  else if String.eqb new_status "completed" then "✅"
  else if String.eqb new_status "overdue" then "🔴"
  else if String.eqb new_status "cancelled" then "❌"
  else "ℹ️".

(** [f"{v}"]. *)
Definition fstr (v : value) : string :=
  match v with
  | VNone => "None"
  | VInt z => str_of_int z
  | VStr s => s
  | VTime t => format_datetime env t
  end.

(** [NotificationManager.notify_task_status_changed]. *)
Definition notify_task_status_changed (task : Row) (old_status : value)
    (new_status : string) (creator_telegram_id : Z) : M unit :=
  title <- lift (get "title" task) ;;
  assignee_name <- lift (get "assignee_name" task) ;;
  let message :=
    (status_emoji new_status ++ " **СТАТУС ЗАДАЧИ ИЗМЕНЁН**" ++ nl ++ nl ++
     "📝 **Задача:** " ++ fstr title ++ nl ++
     "📊 **Было:** " ++ fstr old_status ++ nl ++
     "📊 **Стало:** " ++ new_status ++ nl ++ nl ++
     "🎯 **Исполнитель:** " ++ fstr assignee_name ++
     (if String.eqb new_status "completed"
      then nl ++ nl ++ "🎉 **Поздравляем с выполнением задачи!**"
      else ""))%string in
  task_id <- lift (get "id" task) ;;
  Notifications.send_notification env creator_telegram_id message.

(** The notice to the task's creator inside the [try] of
    [change_task_status]. *)
Definition notify_creator (now : Z) (task_id : Z) (task db_user : Row)
    (old_status : value) (new_status : string) : M unit :=
  all_users <- query get_all_users ;;
  creator_id <- lift (get "creator_id" task) ;;
  found <- lift ((fix first_match (us : list Row) : result (option Row) :=
                    match us with
                    | [] => Ok None
                    | user :: rest =>
                        rbind (get "id" user) (fun id =>
                        if value_eqb id creator_id then Ok (Some user)
                        else first_match rest)
                    end) all_users) ;;
  match found with
  | None => ret tt
  | Some creator =>
      updated <- query (fun d => get_task_by_id d task_id) ;;
      updated_task <- lift (match updated with
                            | Some r => Ok r
                            | None => Raise TypeError
                            end) ;;
      chat <- lift (rbind (get "telegram_id" creator) as_int) ;;
      notify_task_status_changed updated_task old_status new_status chat ;;;
      if String.eqb new_status "completed" then
        title <- lift (get "title" updated_task) ;;
        first_name <- lift (get "first_name" db_user) ;;
        last_name <- lift (get "last_name" db_user) ;;
        status_name <- lift (TASK_STATUS new_status) ;;
        let completion_message :=
          ("🎉 **ЗАДАЧА ВЫПОЛНЕНА!**" ++ nl ++ nl ++
           "📝 **Задача:** " ++ fstr title ++ nl ++
           "👤 **Исполнитель:** " ++ fstr first_name ++ " " ++ fstr last_name ++ nl ++
           "⏰ **Время выполнения:** " ++ format_datetime env now ++ nl ++
           "📊 **Статус:** " ++ status_name ++ nl ++ nl ++
           "Отличная работа! 👏")%string in
        Notifications.send_notification env chat completion_message
      else ret tt
  end.

(** The handler of [task_status_<id>_<status>] callback data.  Its last
    step, re-drawing the task card, changes nothing in the world and is left
    out. *)
Definition change_task_status (now : Z) (data : string) (db_user : Row)
    : M Answer :=
  parsed <- lift (parse_task_status data) ;;
  let (task_id, new_status) := (parsed : Z * string) in
  found <- query (fun d => get_task_by_id d task_id) ;;
  match found with
  | None => ret NotFound
  | Some task =>
      assignee_id <- lift (get "assignee_id" task) ;;
      user_id <- lift (get "id" db_user) ;;
      role <- lift (if negb (value_eqb assignee_id user_id)
                    then get "role" db_user else Ok VNone) ;;
      if negb (value_eqb assignee_id user_id) && negb (value_eqb role (VStr "admin"))
      then ret Forbidden
      else
        old_status <- lift (get "status" task) ;;
        actor <- lift (as_int user_id) ;;
        success <- write_ret (update_task_status now task_id new_status actor) ;;
        if (success : bool) then
          creator_id <- lift (get "creator_id" task) ;;
          (if negb (value_eqb creator_id user_id)
           then try_except (notify_creator now task_id task db_user old_status new_status)
           else ret tt) ;;;
          ret StatusChanged
        else ret StatusError
  end.

(** [confirm_cancel_task]: [True] when the task was cancelled. *)
Definition confirm_cancel_task (now : Z) (data : string) (db_user : Row)
    : M bool :=
  let parts := split "_"%char data in
  answer <- lift (index parts 2) ;;
  if negb (String.eqb answer "yes") then ret false
  else
    task_id <- lift (rbind (index parts 3) int_of_str) ;;
    actor <- lift (rbind (get "id" db_user) as_int) ;;
    write_ret (cancel_task now task_id actor).

End Handlers.

(** The handlers [button_callback] hands a callback to. *)
Inductive Handler : Type :=
| ShowMainMenu | ShowAllTasks | ShowMyTasks | ShowActiveTasks | ShowCompletedTasks
| ChangeTaskStatus | ShowTaskDetail | ShowReportsMenu | GenerateGanttChart
| HandleTaskPageNavigation | HandleReassignTask | HandleAssignToUser
| HandleChangeStatusMenu | ShowTaskHistory | GenerateGeneralExcelReport
| GenerateMyExcelReport | ShowMyStats | ShowUserManagement | ShowUserSettings
| ApplyFilter | ShowFiltersMenu | StartEditTask | StartCancelTask
| ConfirmCancelTask.

(** The [if data == ... elif data.startswith(...) ...] chain of
    [button_callback], in the order of the source. *)
Definition button_callback_route (data : string) : Handler :=
  if String.eqb data "main_menu" then ShowMainMenu
  else if String.eqb data "all_tasks" then ShowAllTasks
  else if String.eqb data "my_tasks" then ShowMyTasks
  else if String.eqb data "active_tasks" then ShowActiveTasks
  else if String.eqb data "completed_tasks" then ShowCompletedTasks
  else if String.prefix "task_status_" data then ChangeTaskStatus
  else if String.prefix "task_" data then ShowTaskDetail
  else if String.eqb data "reports" then ShowReportsMenu
  else if String.eqb data "gantt_chart" then GenerateGanttChart
  else if String.prefix "task_page_" data || String.prefix "my_task_page_" data
          || String.prefix "active_task_page_" data
          || String.prefix "completed_task_page_" data then HandleTaskPageNavigation
  else if String.prefix "reassign_task_" data then HandleReassignTask
  else if String.prefix "assign_to_" data then HandleAssignToUser
  else if String.prefix "change_status_" data then HandleChangeStatusMenu
  else if String.prefix "task_history_" data then ShowTaskHistory
  else if String.eqb data "report_general_excel" then GenerateGeneralExcelReport
  else if String.eqb data "report_my_excel" then GenerateMyExcelReport
  else if String.eqb data "report_my_stats" then ShowMyStats
  else if String.eqb data "user_management" then ShowUserManagement
  else if String.eqb data "user_settings" then ShowUserSettings
  else if String.prefix "filter_" data then ApplyFilter
  else if String.eqb data "filters_menu" then ShowFiltersMenu
  else if String.prefix "edit_task_" data then StartEditTask
  else if String.prefix "cancel_task_" data then StartCancelTask
  else if String.prefix "confirm_cancel_" data then ConfirmCancelTask
  else ShowMainMenu.

(** The buttons [start_edit_task] draws for a task. *)
Definition edit_task_buttons (task_id : Z) : list string :=
  [ ("edit_field_title_" ++ str_of_int task_id)%string;
    ("edit_field_description_" ++ str_of_int task_id)%string;
    ("edit_field_priority_" ++ str_of_int task_id)%string;
    ("edit_field_deadline_" ++ str_of_int task_id)%string;
    ("task_" ++ str_of_int task_id)%string ].

(** What [handle_assign_to_user] tells the user. *)
Inductive AssignAnswer : Type :=
| AssignForbidden   (* "Недостаточно прав" *)
| Assigned          (* "Задача переназначена!" *)
| AssignError.      (* "Ошибка при переназначении задачи" *)

Section Assignment.

Variable env : Env.

(** [NotificationManager.notify_task_assigned]. *)
Definition notify_task_assigned (task : Row) (assignee_telegram_id : Z) : M unit :=
  let message :=
    ("🆕" ++ " **НОВАЯ ЗАДАЧА НАЗНАЧЕНА**" ++ nl ++ nl ++
     format_task env task ++ nl ++ nl ++
     "Задача ожидает выполнения. Удачи! 💪")%string in
  _task_id <- lift (get "id" task) ;;
  Notifications.send_notification env assignee_telegram_id message.

(** The handler of [assign_to_<user id>_<task id>] callback data; the
    notice to the new assignee is not inside a [try].  Its last step,
    re-drawing the task card, is left out. *)
Definition handle_assign_to_user (now : Z) (data : string) (db_user : Row)
    : M AssignAnswer :=
  role <- lift (get "role" db_user) ;;
  if negb (value_eqb role (VStr "admin")) then ret AssignForbidden
  else
    let parts := split "_"%char data in
    new_assignee_id <- lift (rbind (index parts 2) int_of_str) ;;
    task_id <- lift (rbind (index parts 3) int_of_str) ;;
    actor <- lift (rbind (get "id" db_user) as_int) ;;
    success <- write_ret (assign_task now task_id new_assignee_id actor) ;;
    if (success : bool) then
      found <- query (fun d => get_task_by_id d task_id) ;;
      task <- lift (match found with
                    | Some r => Ok r
                    | None => Raise TypeError
                    end) ;;
      assignee_telegram_id <- lift (get "assignee_telegram_id" task) ;;
      (if truthy assignee_telegram_id then
         chat <- lift (as_int assignee_telegram_id) ;;
         notify_task_assigned task chat
       else ret tt) ;;;
      ret Assigned
    else ret AssignError.

End Assignment.

(** [parts[-1]]. *)
Definition last_of {A} (l : list A) : result A :=
  match rev l with
  | a :: _ => Ok a
  | [] => Raise IndexError
  end.

(** What [handle_change_status_menu] shows. *)
Inductive MenuAnswer : Type :=
| MenuNotFound      (* "Задача не найдена" *)
| MenuForbidden     (* "Недостаточно прав" *)
| Menu (keyboard : Keyboard).

Section Menus.

Variable env : Env.

(** The handler of [change_status_<task id>] callback data: the menu of
    statuses for an admin or the assignee. *)
Definition handle_change_status_menu (data : string) (db_user : Row)
    : M MenuAnswer :=
  task_id <- lift (rbind (last_of (split "_"%char data)) int_of_str) ;;
  found <- query (fun d => get_task_by_id d task_id) ;;
  match found with
  | None => ret MenuNotFound
  | Some task =>
      role <- lift (get "role" db_user) ;;
      denied <- lift (if negb (value_eqb role (VStr "admin"))
                      then rbind (get "assignee_id" task) (fun assignee_id =>
                           rbind (get "id" db_user) (fun user_id =>
                           Ok (negb (value_eqb assignee_id user_id))))
                      else Ok false) ;;
      if (denied : bool) then ret MenuForbidden
      else
        let keyboard :=
          [ [task_status_button task_id "new"];
            [task_status_button task_id "in_progress"];
            [task_status_button task_id "completed"];
            [task_status_button task_id "cancelled"];
            [("task_" ++ str_of_int task_id)%string] ] in
        _title <- lift (get "title" task) ;;
        status <- lift (get "status" task) ;;
        _status_name <- lift (match status with
                              | VStr s => TASK_STATUS s
                              | v => Raise (KeyError (fstr env v))
                              end) ;;
        ret (Menu keyboard)
  end.

End Menus.

End Bot.

(* ===================================================================== *)
(** ** reports.py: class ReportGenerator (the two statistics sheets) *)
(* ===================================================================== *)

Module Reports.

(** A cell of a sheet.  A percentage is kept as the number the source
    formats with [:.1f] and a percent sign. *)
Inductive Cell : Type :=
| CText (s : string)
| CInt (z : Z)
| CPercent (q : Q).

(** [len([t for t in tasks if t[key] == v])]. *)
Fixpoint count_eq (key : string) (v : value) (tasks : list Row) : result Z :=
  match tasks with
  | [] => Ok 0
  | t :: rest =>
      rbind (get key t) (fun x =>
      rbind (count_eq key v rest) (fun n =>
      Ok (if value_eqb x v then 1 + n else n)))
  end.

(** [len([t for t in tasks if t['status'] in ['new', 'in_progress']])]. *)
Fixpoint count_active (tasks : list Row) : result Z :=
  match tasks with
  | [] => Ok 0
  | t :: rest =>
      rbind (get "status" t) (fun x =>
      rbind (count_active rest) (fun n =>
      Ok (if value_eqb x (VStr "new") || value_eqb x (VStr "in_progress")
          then 1 + n else n)))
  end.

(** [completed / max(total, 1) * 100]. *)
Definition completion_rate (completed total : Z) : result Q :=
  rbind (max_with_1 (VInt total)) (fun floor =>
  rbind (truediv (VInt completed) floor) (fun ratio =>
  Ok (ratio * 100)%Q)).

(** The rows of [stats_data]. *)
Definition _create_statistics_sheet (tasks : list Row)
    : result (list (string * Cell)) :=
  let total_tasks := Z.of_nat (List.length tasks) in
  rbind (count_eq "status" (VStr "completed") tasks) (fun completed_tasks =>
  rbind (count_eq "status" (VStr "overdue") tasks) (fun overdue_tasks =>
  rbind (count_active tasks) (fun active_tasks =>
  rbind (count_eq "priority" (VStr "low") tasks) (fun low =>
  rbind (count_eq "priority" (VStr "medium") tasks) (fun medium =>
  rbind (count_eq "priority" (VStr "high") tasks) (fun high =>
  rbind (completion_rate completed_tasks total_tasks) (fun rate =>
  Ok [ ("Общая статистика", CText "");
       ("Всего задач", CInt total_tasks);
       ("Выполнено", CInt completed_tasks);
       ("Просрочено", CInt overdue_tasks);
       ("Активных", CInt active_tasks);
       ("Процент выполнения", CPercent rate);
       ("", CText "");
       ("Статистика по приоритетам", CText "");
       ("Высокий приоритет", CInt high);
       ("Средний приоритет", CInt medium);
       ("Низкий приоритет", CInt low) ]))))))).

(** [user_tasks[assignee].append(task)] on a dict that keeps the order in
    which its keys came. *)
Fixpoint add_to_group (key : value) (task : Row)
    (groups : list (value * list Row)) : list (value * list Row) :=
  match groups with
  | [] => [(key, [task])]
  | (k, ts) :: rest =>
      if value_eqb k key then (k, ts ++ [task]) :: rest
      else (k, ts) :: add_to_group key task rest
  end.

Fixpoint group_by_assignee (tasks : list Row)
    (groups : list (value * list Row)) : result (list (value * list Row)) :=
  match tasks with
  | [] => Ok groups
  | task :: rest =>
      rbind (get "assignee_name" task) (fun name =>
      let assignee := if truthy name then name else VStr "Не назначен" in
      group_by_assignee rest (add_to_group assignee task groups))
  end.

Record UserAnalytics : Type := mkAnalytics {
  a_user : value;
  a_total : Z;
  a_completed : Z;
  a_overdue : Z;
  a_active : Z;
  a_rate : Q
}.

Definition analytics_row (group : value * list Row) : result UserAnalytics :=
  let (user, user_task_list) := group in
  let total := Z.of_nat (List.length user_task_list) in
  rbind (count_eq "status" (VStr "completed") user_task_list) (fun completed =>
  rbind (count_eq "status" (VStr "overdue") user_task_list) (fun overdue =>
  rbind (count_active user_task_list) (fun active =>
  rbind (completion_rate completed total) (fun rate =>
  Ok {| a_user := user;
        a_total := total;
        a_completed := completed;
        a_overdue := overdue;
        a_active := active;
        a_rate := rate |})))).

Fixpoint map_results {A B} (f : A -> result B) (l : list A) : result (list B) :=
  match l with
  | [] => Ok []
  | x :: rest =>
      rbind (f x) (fun y => rbind (map_results f rest) (fun ys => Ok (y :: ys)))
  end.

Definition _create_user_analytics_sheet (tasks : list Row)
    : result (list UserAnalytics) :=
  rbind (group_by_assignee tasks []) (map_results analytics_row).

(** The cell of the row labelled [label]. *)
Definition cell_of (label : string) (sheet : list (string * Cell)) : option Cell :=
  option_map snd (find (fun r => String.eqb (fst r) label) sheet).

End Reports.

(* ===================================================================== *)
(** ** Sample worlds *)
(* ===================================================================== *)

Module Samples.

Definition admin1 : User :=
  {| u_id := 1; u_telegram_id := 1001; u_username := Some "boss";
     u_first_name := Some "Anna"; u_last_name := Some "Admin";
     u_role := Admin; u_is_active := true;
     u_registered_at := 0; u_last_activity := 0 |}.

Definition worker1 : User :=
  {| u_id := 2; u_telegram_id := 1002; u_username := Some "u1";
     u_first_name := Some "Ulugbek"; u_last_name := Some "One";
     u_role := Worker; u_is_active := true;
     u_registered_at := 0; u_last_activity := 0 |}.

Definition worker2 : User :=
  {| u_id := 3; u_telegram_id := 1003; u_username := None;
     u_first_name := Some "Vera"; u_last_name := Some "Two";
     u_role := Worker; u_is_active := true;
     u_registered_at := 0; u_last_activity := 0 |}.

(** A task of [worker1], due at instant 100000. *)
Definition task1 (st : Status) (done : option Z) : Task :=
  {| t_id := 1; t_title := "Report"; t_description := None;
     t_creator_id := 1; t_assignee_id := Some 2; t_status := st;
     t_priority := High; t_deadline := Some 100000;
     t_created_at := 10; t_updated_at := 10; t_completed_at := done |}.

(** A task nobody is assigned to, due at instant 100000. *)
Definition task2 : Task :=
  {| t_id := 2; t_title := "Orphan"; t_description := Some "no owner";
     t_creator_id := 1; t_assignee_id := None; t_status := New;
     t_priority := Low; t_deadline := Some 100000;
     t_created_at := 20; t_updated_at := 20; t_completed_at := None |}.

Definition db_of (ts : list Task) (ns : list Notification) : DB :=
  {| users := [admin1; worker1; worker2];
     tasks := ts;
     notifications := ns;
     task_history := [] |}.

Definition world_of (d : DB) : World :=
  {| w_db := d; w_bot := true; w_log := [] |}.

(** Two reminders of [task1] that are due at instant 50. *)
Definition reminder (id : Z) : Notification :=
  {| n_id := id; n_user_id := 2; n_task_id := 1; n_type := Reminder;
     n_message := "remember"; n_is_sent := false; n_scheduled_at := 40 + id;
     n_sent_at := None; n_created_at := 30 |}.

(** Telegram accepts every message. *)
Definition env_ok : Env :=
  {| telegram := fun _ => true;
     config := default_config;
     format_task := fun _ => "";
     format_datetime := fun _ => "" |}.

(** Telegram refuses the first message of a pass and accepts the rest. *)
Definition env_first_fails : Env :=
  {| telegram := fun i => negb (Nat.eqb i 0);
     config := default_config;
     format_task := fun _ => "";
     format_datetime := fun _ => "" |}.

End Samples.

(* ===================================================================== *)
(** ** What the properties below observe *)
(* ===================================================================== *)

Module Observe.
Import Database.

(** The row of [tasks] with a given id. *)
Definition task_of (d : DB) (task_id : Z) : option Task :=
  find (fun t => t_id t =? task_id) (tasks d).

Definition status_of (d : DB) (task_id : Z) : option Status :=
  option_map t_status (task_of d task_id).

(** The invariant of the data model: [completed_at] is set exactly on a
    completed task. *)
Definition completed_iff (t : Task) : Prop :=
  t_status t = Completed <-> t_completed_at t <> None.

Definition is_terminal (s : Status) : bool :=
  status_eqb s Completed || status_eqb s Cancelled.

(** How many notifications of type [deadline] the table holds for a task,
    sent or not. *)
Definition deadline_count (d : DB) (task_id : Z) : nat :=
  List.length
    (filter (fun n => (n_task_id n =? task_id) && notif_type_eqb (n_type n) Deadline)
            (notifications d)).

Definition reminder_count (d : DB) (task_id : Z) : nat :=
  List.length
    (filter (fun n => (n_task_id n =? task_id) && notif_type_eqb (n_type n) Reminder)
            (notifications d)).

(** The deadline sweep run once per clock reading of [nows], each run
    starting where the one before stopped; the loop logs an exception of a
    run and goes on. *)
Definition run_sweeps (env : Env) (nows : list Z) (w : World) : World :=
  fold_left (fun w now => snd (Notifications.check_overdue_tasks env now w)) nows w.

(** Whether a notification of the table counts as sent. *)
Definition sent_flags (d : DB) (notification_id : Z) : list bool :=
  map n_is_sent (filter (fun n => n_id n =? notification_id) (notifications d)).

(** The primary key of [notifications]: no id occurs twice. *)
Fixpoint distinct (ids : list Z) : bool :=
  match ids with
  | [] => true
  | i :: rest => negb (existsb (Z.eqb i) rest) && distinct rest
  end.

Definition notification_ids_distinct (d : DB) : bool :=
  distinct (map n_id (notifications d)).

(** The columns the two sheets read. *)
Definition sheet_row (r : Row) : Prop :=
  (exists v, get "status" r = Ok v) /\
  (exists v, get "priority" r = Ok v) /\
  (exists v, get "assignee_name" r = Ok v).

(** A row of the user sheet whose rate is the guarded quotient. *)
Definition rate_by_floor (r : Reports.UserAnalytics) : Prop :=
  Reports.a_rate r = (inject_Z (Reports.a_completed r) / inject_Z (Z.max (Reports.a_total r) 1) * 100)%Q.

(** A computation that leaves the database as it found it. *)
Definition keeps_db {A} (c : M A) : Prop :=
  forall w, w_db (snd (c w)) = w_db w.

(** The guard of [change_task_status]: the actor is the assignee or an
    admin. *)
Definition may_change (u : User) (t : Task) : bool :=
  value_eqb (opt_int (t_assignee_id t)) (VInt (u_id u))
  || value_eqb (VStr (role_str (u_role u))) (VStr "admin").

Definition with_db (d : DB) (w : World) : World :=
  {| w_db := d; w_bot := w_bot w; w_log := w_log w |}.

(** The pending notifications of a pass with the user and the task their
    row is joined to, in the order of the pass. *)
Definition pending_triple (d : DB) (n : Notification)
    : option (Notification * User * Task) :=
  match user_by_id d (n_user_id n),
        find (fun t => t_id t =? n_task_id n) (tasks d) with
  | Some u, Some t => Some (n, u, t)
  | _, _ => None
  end.

Definition pending_triples (now : Z) (d : DB) : list (Notification * User * Task) :=
  filter_map (pending_triple d)
    (order_by scheduled_le (filter (is_pending now) (notifications d))).

Definition triple_row (p : Notification * User * Task) : Row :=
  let '(n, u, t) := p in pending_row n u t.

(** The world a drain pass leaves: one attempt per pending notification, in
    order, and a mark on each notification whose attempt Telegram
    accepted. *)
Fixpoint drained (tele : nat -> bool) (now : Z)
    (ps : list (Notification * User * Task)) (w : World) : World :=
  match ps with
  | [] => w
  | (n, u, _) :: rest =>
      let ok := tele (List.length (w_log w)) in
      drained tele now rest
        {| w_db := if ok then mark_notification_sent now (n_id n) (w_db w)
                   else w_db w;
           w_bot := w_bot w;
           w_log := w_log w ++
             [ {| d_chat := u_telegram_id u; d_text := n_message n; d_ok := ok |} ] |}
  end.

(** The ids marked by a pass whose first attempt is the [base]-th call. *)
Fixpoint delivered_ids (tele : nat -> bool) (base : nat)
    (ps : list (Notification * User * Task)) : list Z :=
  match ps with
  | [] => []
  | (n, _, _) :: rest =>
      (if tele base then [n_id n] else []) ++ delivered_ids tele (S base) rest
  end.

Definition mark_all (now : Z) (ids : list Z) (ns : list Notification)
    : list Notification :=
  map (fun n => if existsb (Z.eqb (n_id n)) ids then mark_sent now n else n) ns.

(** The effect of one round of the sweep's loop on the table of
    notifications: nothing new, or the first deadline notification of the
    round's task, whose assignee then resolves to a user with a Telegram
    id. *)
Definition round_effect (d1 : DB) (t : Task) (w w' : World) : Prop :=
  (forall tid, deadline_count (w_db w') tid = deadline_count (w_db w) tid) \/
  (deadline_count (w_db w) (t_id t) = 0%nat /\
   (exists u, joined_user d1 (t_assignee_id t) = Some u /\ u_telegram_id u <> 0) /\
   forall tid, deadline_count (w_db w') tid
               = (deadline_count (w_db w) tid + if (t_id t =? tid)%Z then 1 else 0)%nat).

(** The assignee of a task is the id of a user who has a Telegram id. *)
Definition resolvable (d : DB) (t : Task) : Prop :=
  exists u, joined_user d (t_assignee_id t) = Some u /\ u_telegram_id u <> 0.

(** A count that stays, or goes from none to one (and then [P] holds). *)
Definition at_most_one_more (P : Prop) (c c' : nat) : Prop :=
  c' = c \/ (c = 0%nat /\ c' = 1%nat /\ P).

(** What [update_overdue_tasks] makes of one task. *)
Definition flip_overdue (now : Z) (t : Task) : Task :=
  if becomes_overdue now t then
    {| t_id := t_id t;
       t_title := t_title t;
       t_description := t_description t;
       t_creator_id := t_creator_id t;
       t_assignee_id := t_assignee_id t;
       t_status := Overdue;
       t_priority := t_priority t;
       t_deadline := t_deadline t;
       t_created_at := t_created_at t;
       t_updated_at := now;
       t_completed_at := t_completed_at t |}
  else t.

(** What no sweep changes of a task. *)
Definition task_key (t : Task) : Z * option Z := (t_id t, t_assignee_id t).

(** Whether a character occurs in a string. *)
Fixpoint occurs (c : ascii) (s : string) : bool :=
  match s with
  | EmptyString => false
  | String a rest => Ascii.eqb a c || occurs c rest
  end.

(** The number a string of decimal digits denotes after the digits read
    so far gave [acc]. *)
Fixpoint uint_value (acc : Z) (d : Decimal.uint) : Z :=
  match d with
  | Decimal.Nil => acc
  | Decimal.D0 l => uint_value (10 * acc + 0) l
  | Decimal.D1 l => uint_value (10 * acc + 1) l
  | Decimal.D2 l => uint_value (10 * acc + 2) l
  | Decimal.D3 l => uint_value (10 * acc + 3) l
  | Decimal.D4 l => uint_value (10 * acc + 4) l
  | Decimal.D5 l => uint_value (10 * acc + 5) l
  | Decimal.D6 l => uint_value (10 * acc + 6) l
  | Decimal.D7 l => uint_value (10 * acc + 7) l
  | Decimal.D8 l => uint_value (10 * acc + 8) l
  | Decimal.D9 l => uint_value (10 * acc + 9) l
  end.

(** Two rows of [notifications] that differ at most in the sent mark, which
    is never taken back. *)
Definition same_notification (n n' : Notification) : Prop :=
  n_id n' = n_id n /\ n_user_id n' = n_user_id n /\ n_task_id n' = n_task_id n /\
  n_type n' = n_type n /\ n_message n' = n_message n /\
  n_scheduled_at n' = n_scheduled_at n /\ n_created_at n' = n_created_at n /\
  (n_is_sent n = true -> n_is_sent n' = true).

(** Two rows of [tasks] that differ at most in the status and the time of
    the last update, where the status changed only from new or in progress
    to overdue. *)
Definition same_task_or_overdue (t t' : Task) : Prop :=
  t_id t' = t_id t /\ t_title t' = t_title t /\ t_description t' = t_description t /\
  t_creator_id t' = t_creator_id t /\ t_assignee_id t' = t_assignee_id t /\
  t_priority t' = t_priority t /\ t_deadline t' = t_deadline t /\
  t_created_at t' = t_created_at t /\ t_completed_at t' = t_completed_at t /\
  (t_status t' = t_status t \/
   (t_status t' = Overdue /\ (t_status t = New \/ t_status t = InProgress))).

(** The count of the tasks with a status. *)
Definition count_status (s : Status) (ts : list Task) : Z :=
  Z.of_nat (List.length (filter (fun t => status_eqb (t_status t) s) ts)).

(** A deadline alert as [check_overdue_tasks] stores it: scheduled the
    display offset after the instant it was created at. *)
Definition alert_row (cfg : BotConfig) (n : Notification) : Prop :=
  n_type n = Deadline /\
  n_scheduled_at n = get_current_tashkent_time cfg (n_created_at n).

(** What passes of the notification loop make of a world.  Users and
    history stay.  Every task stays in its place and changes at most from
    new or in progress to overdue.  Every notification stays in its place
    and at most gains the sent mark; the ones added behind them are
    deadline alerts; ids that were distinct stay distinct.  The bot stays
    and the delivery log only grows. *)
Definition pass_step (cfg : BotConfig) (w w' : World) : Prop :=
  users (w_db w') = users (w_db w) /\
  task_history (w_db w') = task_history (w_db w) /\
  Forall2 same_task_or_overdue (tasks (w_db w)) (tasks (w_db w')) /\
  (exists kept added,
     notifications (w_db w') = kept ++ added /\
     Forall2 same_notification (notifications (w_db w)) kept /\
     Forall (alert_row cfg) added) /\
  (notification_ids_distinct (w_db w) = true ->
   notification_ids_distinct (w_db w') = true) /\
  w_bot w' = w_bot w /\
  exists tail, w_log w' = w_log w ++ tail.

(** A computation whose final world is related to its initial one. *)
Definition moves {A} (R : World -> World -> Prop) (c : M A) : Prop :=
  forall w, R w (snd (c w)).

(** One pass of the loop per clock reading of [nows]. *)
Definition run_passes (env : Env) (nows : list Z) (w : World) : World :=
  fold_left (fun w now => snd (Notifications.loop_pass env now w)) nows w.

(** The deadline alerts of a task. *)
Definition deadline_alerts (d : DB) (task_id : Z) : list Notification :=
  filter (fun n => (n_task_id n =? task_id) && notif_type_eqb (n_type n) Deadline)
         (notifications d).

(** The count of the tasks with a priority. *)
Definition count_priority (p : Priority) (ts : list Task) : Z :=
  Z.of_nat (List.length
    (filter (fun t => match t_priority t, p with
                      | Low, Low | Medium, Medium | High, High => true
                      | _, _ => false
                      end) ts)).

(** The name a row is grouped under in the user sheet:
    [task['assignee_name'] or 'Не назначен']. *)
Definition assignee_key (r : Row) : value :=
  match get "assignee_name" r with
  | Ok name => if truthy name then name else VStr "Не назначен"
  | Raise _ => VNone
  end.

(** Groups that partition the rows [P] by [assignee_key]: one group per
    key that occurs, holding the rows of that key in their order. *)
Definition grouped (gs : list (value * list Row)) (P : list Row) : Prop :=
  NoDup (map fst gs) /\
  (forall k rs, In (k, rs) gs ->
     rs <> [] /\ rs = filter (fun r => value_eqb (assignee_key r) k) P) /\
  (forall r, In r P -> In (assignee_key r) (map fst gs)).

(** The ids of the tasks on a page of a list. *)
Definition page_ids (cfg : BotConfig) (ts : list Task) (page : Z) : list Z :=
  map t_id (Bot.slice ts (page * MAX_TASKS_PER_PAGE cfg)
              (page * MAX_TASKS_PER_PAGE cfg + MAX_TASKS_PER_PAGE cfg)).

(** [total_pages] of [create_task_list_keyboard]. *)
Definition total_pages (cfg : BotConfig) (ts : list Task) : Z :=
  (Z.of_nat (List.length ts) + MAX_TASKS_PER_PAGE cfg - 1) / MAX_TASKS_PER_PAGE cfg.

(** Whether a string is made of printable ASCII characters other than the
    blank, as every [callback_data] the bot issues is.  On the parts such a
    string splits into at its underscores, [int_of_str] reads what Python's
    [int] reads. *)
Fixpoint graphic (s : string) : bool :=
  match s with
  | EmptyString => true
  | String a rest =>
      (33 <=? nat_of_ascii a)%nat && (nat_of_ascii a <=? 126)%nat && graphic rest
  end.

End Observe.

(* ===================================================================== *)
(** * Properties *)
(* ===================================================================== *)

Import Database Reports Observe Samples.

(** ** Task lifecycle *)

Section TaskUpdates.

Variable task_id : Z.
Variable f : Task -> Task.
Hypothesis f_keeps_id : forall t, t_id (f t) = t_id t.

Lemma find_update_task (ts : list Task) :
  find (fun t => t_id t =? task_id)
       (map (fun t => if t_id t =? task_id then f t else t) ts)
  = option_map f (find (fun t => t_id t =? task_id) ts).
Proof.
  induction ts as [|t ts IH]; simpl; [reflexivity|].
  destruct (t_id t =? task_id) eqn:E; simpl.
  - rewrite f_keeps_id, E. reflexivity.
  - rewrite E. exact IH.
Qed.

Lemma task_of_update_task (d : DB) :
  task_of (update_task task_id f d) task_id = option_map f (task_of d task_id).
Proof. unfold task_of, update_task. simpl. apply find_update_task. Qed.

End TaskUpdates.

Lemma task_of_add_task_history now tid uid action o n d k :
  task_of (add_task_history now tid uid action o n d) k = task_of d k.
Proof. reflexivity. Qed.

Lemma status_of_str_completed s :
  status_of_str s = Some Completed <-> String.eqb s "completed" = true.
Proof.
  unfold status_of_str.
  destruct (String.eqb s "new") eqn:E1.
  { apply String.eqb_eq in E1. subst. simpl. split; discriminate. }
  destruct (String.eqb s "in_progress") eqn:E2.
  { apply String.eqb_eq in E2. subst. simpl. split; discriminate. }
  destruct (String.eqb s "completed") eqn:E3.
  { split; reflexivity. }
  destruct (String.eqb s "overdue"); [split; discriminate|].
  destruct (String.eqb s "cancelled"); split; discriminate.
Qed.

(** [update_task_status] keeps the data-model invariant: the write sets
    [completed_at] exactly when the new status is [completed]. *)
Lemma update_task_status_keeps_completed_iff now tid status uid d :
  Forall completed_iff (tasks d) ->
  Forall completed_iff (tasks (snd (update_task_status now tid status uid d))).
Proof.
  intros H. unfold update_task_status.
  destruct (find _ (tasks d)) as [row|]; [|exact H].
  destruct (status_of_str status) as [s|] eqn:Es; [|exact H].
  simpl. apply Forall_forall. intros t' Hin.
  apply in_map_iff in Hin. destruct Hin as [t0 [Ht Hin]].
  rewrite Forall_forall in H. specialize (H t0 Hin).
  destruct (t_id t0 =? tid); subst t'; [|exact H].
  unfold completed_iff. simpl.
  destruct (String.eqb status "completed") eqn:Ec.
  - apply status_of_str_completed in Ec. rewrite Ec in Es. inversion Es.
    split; [discriminate | reflexivity].
  - split; [|intros C; now elim C].
    intros ->. apply status_of_str_completed in Es. congruence.
Qed.

(** C1 (code defect).  On a task completed at instant 400, [cancel_task]
    writes the status [cancelled] and leaves [completed_at] at 400, so the
    invariant [completed_iff] that held before the call fails after it;
    [update_task_status] with the status [cancelled] on the same task
    clears [completed_at]. *)
Theorem cancel_task_keeps_completed_at :
  let d0 := db_of [task1 New None] [] in
  let d1 := snd (update_task_status 400 1 "completed" 2 d0) in
  let d2 := snd (cancel_task 500 1 1 d1) in
  let d2' := snd (update_task_status 500 1 "cancelled" 1 d1) in
  Forall completed_iff (tasks d0) /\
  Forall completed_iff (tasks d1) /\
  map (fun t => (t_status t, t_completed_at t)) (tasks d2) = [(Cancelled, Some 400)] /\
  ~ Forall completed_iff (tasks d2) /\
  map (fun t => (t_status t, t_completed_at t)) (tasks d2') = [(Cancelled, None)].
Proof.
  cbv zeta. repeat split.
  - repeat constructor; unfold completed_iff; simpl; [discriminate | intros C; now elim C].
  - apply update_task_status_keeps_completed_iff.
    repeat constructor; unfold completed_iff; simpl; [discriminate | intros C; now elim C].
  - intros H. inversion H as [|t0 l Ht Hl]; subst.
    destruct Ht as [_ Ht]. simpl in Ht.
    assert (Cancelled = Completed) by (apply Ht; discriminate). discriminate.
Qed.

(** C5.  Cancelling an existing task succeeds whatever its status, leaves
    it cancelled, and cancelling it once more succeeds again and leaves the
    status of every task as the first call left it. *)
Theorem cancel_task_twice now1 now2 tid uid1 uid2 d t :
  task_of d tid = Some t ->
  let r1 := cancel_task now1 tid uid1 d in
  let r2 := cancel_task now2 tid uid2 (snd r1) in
  fst r1 = true /\ status_of (snd r1) tid = Some Cancelled /\
  fst r2 = true /\ status_of (snd r2) tid = Some Cancelled /\
  map t_status (tasks (snd r2)) = map t_status (tasks (snd r1)).
Proof.
  intros Ht. unfold task_of in Ht.
  assert (E1 : forall now uid d0 t0, task_of d0 tid = Some t0 ->
             fst (cancel_task now tid uid d0) = true /\
             exists t1, task_of (snd (cancel_task now tid uid d0)) tid = Some t1
                        /\ t_status t1 = Cancelled).
  { intros now uid d0 t0 H0. unfold cancel_task. unfold task_of in H0.
    rewrite H0. simpl. split; [reflexivity|].
    rewrite task_of_add_task_history, task_of_update_task by reflexivity.
    unfold task_of. rewrite H0. simpl. eexists. split; reflexivity. }
  destruct (E1 now1 uid1 d t Ht) as [R1 [t1 [T1 S1]]].
  destruct (E1 now2 uid2 _ t1 T1) as [R2 [t2 [T2 S2]]].
  cbv zeta. unfold status_of. rewrite T1, T2. simpl. rewrite S1, S2.
  repeat split; try assumption.
  unfold cancel_task at 1. unfold task_of in T1. rewrite T1. simpl.
  rewrite map_map.
  set (d1 := snd (cancel_task now1 tid uid1 d)).
  assert (Hall : forall t', In t' (tasks d1) -> t_id t' = tid -> t_status t' = Cancelled).
  { unfold d1, cancel_task. rewrite Ht. simpl. intros t' Hin Hid.
    apply in_map_iff in Hin. destruct Hin as [t0 [H0 _]].
    destruct (t_id t0 =? tid) eqn:E; subst t'; [reflexivity|].
    apply Z.eqb_neq in E. contradiction. }
  apply map_ext_in. intros t' Hin.
  destruct (t_id t' =? tid) eqn:E; [|reflexivity].
  simpl. symmetry. apply Hall; [exact Hin | now apply Z.eqb_eq].
Qed.

Lemma cancel_task_twice_witness :
  let r1 := cancel_task 500 1 1 (db_of [task1 Completed (Some 400)] []) in
  let r2 := cancel_task 600 1 1 (snd r1) in
  fst r1 = true /\ status_of (snd r1) 1 = Some Cancelled /\
  fst r2 = true /\ status_of (snd r2) 1 = Some Cancelled /\
  map t_status (tasks (snd r2)) = map t_status (tasks (snd r1)).
Proof.
  apply (cancel_task_twice 500 600 1 1 1 (db_of [task1 Completed (Some 400)] [])
           (task1 Completed (Some 400))).
  reflexivity.
Defined.

(** ** Statistics *)

Lemma filter_none {A} (p : A -> bool) (l : list A) :
  (forall x, In x l -> p x = false) -> filter p l = [].
Proof.
  induction l as [|x l IH]; intros H; simpl; [reflexivity|].
  rewrite (H x) by now left. apply IH. intros y Hy. apply H. now right.
Qed.

(** C10.  For a user no task is assigned to, [get_user_stats] returns
    [total_tasks = 0] and [None] for the three sums, and the productivity
    figure of the weekly report, which divides [completed_tasks], raises a
    [TypeError] on that row, so the report is not sent. *)
Theorem get_user_stats_without_tasks env now chat render (d : DB) (user_id : Z) w :
  (forall t, In t (tasks d) -> t_assignee_id t <> Some user_id) ->
  w_db w = d ->
  get_user_stats d user_id =
    [ ("total_tasks", VInt 0); ("completed_tasks", VNone);
      ("overdue_tasks", VNone); ("active_tasks", VNone) ] /\
  Notifications.weekly_productivity (get_user_stats d user_id) = Raise TypeError /\
  Notifications.send_weekly_report env now chat user_id render w = (Raise TypeError, w).
Proof.
  intros H Hw.
  assert (E : filter (assigned_to user_id) (tasks d) = []).
  { apply filter_none. intros t Hin. unfold assigned_to.
    destruct (t_assignee_id t) as [a|] eqn:Ea; [|reflexivity].
    apply Z.eqb_neq. intros ->. now apply (H t Hin). }
  assert (S : get_user_stats d user_id =
    [ ("total_tasks", VInt 0); ("completed_tasks", VNone);
      ("overdue_tasks", VNone); ("active_tasks", VNone) ]).
  { unfold get_user_stats. rewrite E. reflexivity. }
  split; [exact S|]. split.
  - rewrite S. reflexivity.
  - unfold Notifications.send_weekly_report, bind, query, lift.
    rewrite Hw, S. reflexivity.
Qed.

Lemma get_user_stats_without_tasks_witness :
  get_user_stats (db_of [task1 New None] []) 3 =
    [ ("total_tasks", VInt 0); ("completed_tasks", VNone);
      ("overdue_tasks", VNone); ("active_tasks", VNone) ] /\
  Notifications.weekly_productivity (get_user_stats (db_of [task1 New None] []) 3)
    = Raise TypeError /\
  Notifications.send_weekly_report env_ok 0 1003 3 (fun _ _ => "")
      (world_of (db_of [task1 New None] []))
    = (Raise TypeError, world_of (db_of [task1 New None] [])).
Proof.
  apply (get_user_stats_without_tasks env_ok 0 1003 (fun _ _ => "")
           (db_of [task1 New None] []) 3 (world_of (db_of [task1 New None] []))).
  - intros t [<-|[]]. simpl. discriminate.
  - reflexivity.
Defined.

Lemma task_row_sheet_row d t : sheet_row (task_row d t).
Proof. repeat split; eexists; reflexivity. Qed.

Lemma count_eq_total key v rows :
  Forall (fun r => exists x, get key r = Ok x) rows ->
  exists n, count_eq key v rows = Ok n.
Proof.
  induction 1 as [|r rows [x Hx] _ [n IH]]; simpl.
  - now eexists.
  - rewrite Hx, IH. simpl. now eexists.
Qed.

Lemma count_active_total rows :
  Forall (fun r => exists x, get "status" r = Ok x) rows ->
  exists n, count_active rows = Ok n.
Proof.
  induction 1 as [|r rows [x Hx] _ [n IH]]; simpl.
  - now eexists.
  - rewrite Hx, IH. simpl. now eexists.
Qed.

(** The guard: the divisor [max(total, 1)] is never zero, so the rate is
    always computed and is the quotient the source writes. *)
Lemma completion_rate_value completed total :
  completion_rate completed total
  = Ok (inject_Z completed / inject_Z (Z.max total 1) * 100)%Q.
Proof.
  unfold completion_rate, max_with_1, truediv. simpl.
  destruct (Z.max total 1 =? 0) eqn:E; [|reflexivity].
  apply Z.eqb_eq in E. lia.
Qed.

Lemma count_eq_task_rows d v ts :
  count_eq "status" v (map (task_row d) ts)
  = Ok (Z.of_nat (List.length
          (filter (fun t => value_eqb (VStr (status_str (t_status t))) v) ts))).
Proof.
  induction ts as [|t ts IH]; [reflexivity|].
  cbn [map count_eq]. rewrite IH.
  change (get "status" (task_row d t)) with (Ok (VStr (status_str (t_status t)))).
  cbn [rbind filter].
  destruct (value_eqb (VStr (status_str (t_status t))) v); [|reflexivity].
  cbn [List.length]. f_equal. lia.
Qed.

Lemma sheet_rows_status rows :
  Forall sheet_row rows -> Forall (fun r => exists x, get "status" r = Ok x) rows.
Proof. apply Forall_impl. intros r H. apply H. Qed.

Lemma statistics_sheet_total rows :
  Forall sheet_row rows ->
  exists completed sheet,
    count_eq "status" (VStr "completed") rows = Ok completed /\
    _create_statistics_sheet rows = Ok sheet /\
    cell_of "Процент выполнения" sheet
    = Some (CPercent (inject_Z completed
                      / inject_Z (Z.max (Z.of_nat (List.length rows)) 1) * 100)%Q).
Proof.
  intros H.
  pose proof (sheet_rows_status rows H) as Hs.
  assert (Hp : Forall (fun r => exists x, get "priority" r = Ok x) rows).
  { revert H. apply Forall_impl. intros r Hr. apply Hr. }
  destruct (count_eq_total "status" (VStr "completed") rows Hs) as [c Hc].
  destruct (count_eq_total "status" (VStr "overdue") rows Hs) as [o Ho].
  destruct (count_active_total rows Hs) as [a Ha].
  destruct (count_eq_total "priority" (VStr "low") rows Hp) as [l Hl].
  destruct (count_eq_total "priority" (VStr "medium") rows Hp) as [m Hm].
  destruct (count_eq_total "priority" (VStr "high") rows Hp) as [h Hh].
  exists c. eexists. split; [exact Hc|].
  unfold _create_statistics_sheet. cbv zeta.
  rewrite Hc, Ho, Ha, Hl, Hm, Hh. cbn [rbind].
  rewrite completion_rate_value. cbn [rbind].
  split; reflexivity.
Qed.


Lemma analytics_row_total user rows :
  Forall sheet_row rows ->
  exists r, analytics_row (user, rows) = Ok r /\ rate_by_floor r.
Proof.
  intros H. pose proof (sheet_rows_status rows H) as Hs.
  destruct (count_eq_total "status" (VStr "completed") rows Hs) as [c Hc].
  destruct (count_eq_total "status" (VStr "overdue") rows Hs) as [o Ho].
  destruct (count_active_total rows Hs) as [a Ha].
  unfold analytics_row. cbv zeta. rewrite Hc, Ho, Ha. cbn [rbind].
  rewrite completion_rate_value. cbn [rbind].
  eexists. split; reflexivity.
Qed.

Lemma add_to_group_rows key task groups :
  sheet_row task ->
  Forall (fun g => Forall sheet_row (snd g)) groups ->
  Forall (fun g => Forall sheet_row (snd g)) (add_to_group key task groups).
Proof.
  intros Ht. induction 1 as [|[k ts] groups Hg Hrest IH]; simpl.
  - constructor; [|constructor]. simpl. constructor; [exact Ht | constructor].
  - destruct (value_eqb k key).
    + constructor; [|assumption]. simpl in *.
      apply Forall_app. split; [exact Hg | now constructor].
    + constructor; assumption.
Qed.

Lemma group_by_assignee_total rows : forall groups,
  Forall sheet_row rows ->
  Forall (fun g => Forall sheet_row (snd g)) groups ->
  exists gs, group_by_assignee rows groups = Ok gs /\
             Forall (fun g => Forall sheet_row (snd g)) gs.
Proof.
  induction rows as [|r rows IH]; intros groups Hr Hg; simpl.
  - now exists groups.
  - inversion Hr as [|? ? Hrow Hrest]; subst.
    destruct Hrow as [Hs [Hp [name Hn]]]. rewrite Hn. simpl.
    apply IH; [exact Hrest|].
    apply add_to_group_rows; [|exact Hg]. repeat split; eauto.
Qed.

Lemma map_results_analytics groups :
  Forall (fun g => Forall sheet_row (snd g)) groups ->
  exists rs, map_results analytics_row groups = Ok rs /\ Forall rate_by_floor rs.
Proof.
  induction 1 as [|[user rows] groups Hg _ [rs [IH1 IH2]]]; simpl.
  - exists []. split; [reflexivity | constructor].
  - destruct (analytics_row_total user rows Hg) as [r [Hr1 Hr2]].
    unfold analytics_row in Hr1. rewrite Hr1, IH1. simpl.
    eexists. split; [reflexivity | now constructor].
Qed.

(** C7.  On the task rows of any database, both sheets compute every
    completion rate, as [completed / max(total, 1) * 100]: the divisor is at
    least one, the division never raises, and the rate of the statistics
    sheet over no task at all is 0. *)
Theorem completion_rate_floor (d : DB) (ts : list Task) :
  let rows := map (task_row d) ts in
  let completed :=
    Z.of_nat (List.length (filter (fun t => status_eqb (t_status t) Completed) ts)) in
  let total := Z.of_nat (List.length ts) in
  (forall c n, completion_rate c n = Ok (inject_Z c / inject_Z (Z.max n 1) * 100)%Q) /\
  (exists sheet,
     _create_statistics_sheet rows = Ok sheet /\
     cell_of "Всего задач" sheet = Some (CInt total) /\
     cell_of "Выполнено" sheet = Some (CInt completed) /\
     cell_of "Процент выполнения" sheet
     = Some (CPercent (inject_Z completed / inject_Z (Z.max total 1) * 100)%Q)) /\
  (exists analytics,
     _create_user_analytics_sheet rows = Ok analytics /\
     Forall rate_by_floor analytics) /\
  (exists sheet,
     _create_statistics_sheet [] = Ok sheet /\
     cell_of "Процент выполнения" sheet = Some (CPercent 0)).
Proof.
  cbv zeta. split; [exact completion_rate_value|].
  assert (Hrows : Forall sheet_row (map (task_row d) ts)).
  { apply Forall_forall. intros r Hin. apply in_map_iff in Hin.
    destruct Hin as [t [<- _]]. apply task_row_sheet_row. }
  split; [|split].
  - pose proof (sheet_rows_status _ Hrows) as Hs.
    assert (Hp : Forall (fun r => exists x, get "priority" r = Ok x)
                        (map (task_row d) ts)).
    { revert Hrows. apply Forall_impl. intros r Hr. apply Hr. }
    destruct (count_active_total _ Hs) as [a Ha].
    destruct (count_eq_total "priority" (VStr "low") _ Hp) as [l Hl].
    destruct (count_eq_total "priority" (VStr "medium") _ Hp) as [m Hm].
    destruct (count_eq_total "priority" (VStr "high") _ Hp) as [h Hh].
    assert (Ef : filter (fun t => value_eqb (VStr (status_str (t_status t)))
                                            (VStr "completed")) ts
                 = filter (fun t => status_eqb (t_status t) Completed) ts).
    { apply filter_ext. intros t. destruct (t_status t); reflexivity. }
    eexists. unfold _create_statistics_sheet. cbv zeta.
    rewrite !count_eq_task_rows, Ef, Ha, Hl, Hm, Hh. cbn [rbind].
    rewrite completion_rate_value. cbn [rbind]. rewrite length_map.
    split; [reflexivity|]. repeat split.
  - unfold _create_user_analytics_sheet.
    destruct (group_by_assignee_total _ [] Hrows (Forall_nil _)) as [gs [Hg1 Hg2]].
    rewrite Hg1. simpl. apply map_results_analytics. exact Hg2.
  - eexists. split; reflexivity.
Qed.

(** ** Effects that leave the database alone *)


Lemma keeps_db_ret {A} (a : A) : keeps_db (ret a).
Proof. intros w. reflexivity. Qed.

Lemma keeps_db_lift {A} (r : result A) : keeps_db (lift r).
Proof. intros w. reflexivity. Qed.

Lemma keeps_db_query {A} (q : DB -> A) : keeps_db (query q).
Proof. intros w. reflexivity. Qed.

Lemma keeps_db_bind {A B} (c : M A) (k : A -> M B) :
  keeps_db c -> (forall a, keeps_db (k a)) -> keeps_db (bind c k).
Proof.
  intros Hc Hk w. unfold bind. specialize (Hc w).
  destruct (c w) as [[a|e] w1]; simpl in *; [|exact Hc].
  rewrite Hk. exact Hc.
Qed.

Lemma keeps_db_try (c : M unit) : keeps_db c -> keeps_db (try_except c).
Proof.
  intros Hc w. unfold try_except. specialize (Hc w).
  destruct (c w) as [[a|e] w1]; exact Hc.
Qed.

Lemma keeps_db_send env chat message :
  keeps_db (Notifications.send_notification env chat message).
Proof.
  intros w. unfold Notifications.send_notification.
  destruct (negb (w_bot w)); reflexivity.
Qed.

Ltac keeps_db_step :=
  first
    [ apply keeps_db_ret
    | apply keeps_db_lift
    | apply keeps_db_query
    | apply keeps_db_send
    | apply keeps_db_try
    | apply keeps_db_bind; [|intros ?]
    | match goal with
      | |- keeps_db (match ?x with _ => _ end) => destruct x
      end ].

Lemma try_except_ok (c : M unit) w : fst (try_except c w) = Ok tt.
Proof.
  unfold try_except. destruct (c w) as [[[]|e] w1]; reflexivity.
Qed.

Lemma keeps_db_notify_creator env now task_id task db_user old_status new_status :
  keeps_db (Bot.notify_creator env now task_id task db_user old_status new_status).
Proof.
  unfold Bot.notify_creator, Bot.notify_task_status_changed.
  repeat keeps_db_step.
Qed.

(** ** The status handler *)

(** What [change_task_status] does once its callback data is read and the
    task is found. *)
Lemma change_task_status_eq env now data u w tid ns t :
  Bot.parse_task_status data = Ok (tid, ns) ->
  task_of (w_db w) tid = Some t ->
  Bot.change_task_status env now data (user_row u) w =
  if may_change u t then
    match status_of_str ns with
    | Some s =>
        let w1 := with_db (snd (update_task_status now tid ns (u_id u) (w_db w))) w in
        (Ok Bot.StatusChanged,
         if negb (value_eqb (VInt (t_creator_id t)) (VInt (u_id u)))
         then snd (try_except
                     (Bot.notify_creator env now tid (task_row_tg (w_db w) t)
                        (user_row u) (VStr (status_str (t_status t))) ns) w1)
         else w1)
    | None => (Ok Bot.StatusError, w)
    end
  else (Ok Bot.Forbidden, w).
Proof.
  intros Hp Ht. unfold task_of in Ht.
  cbv [Bot.change_task_status bind lift query ret write_ret].
  rewrite Hp. cbv beta iota. unfold get_task_by_id. rewrite Ht.
  cbn [option_map].
  change (get "assignee_id" (task_row_tg (w_db w) t)) with (Ok (opt_int (t_assignee_id t))).
  change (get "id" (user_row u)) with (Ok (VInt (u_id u))).
  change (get "role" (user_row u)) with (Ok (VStr (role_str (u_role u)))).
  change (get "status" (task_row_tg (w_db w) t)) with (Ok (VStr (status_str (t_status t)))).
  change (get "creator_id" (task_row_tg (w_db w) t)) with (Ok (VInt (t_creator_id t))).
  cbv beta iota. unfold may_change, as_int.
  assert (Hup : update_task_status now tid ns (u_id u) (w_db w)
                = match status_of_str ns with
                  | Some s => (true, snd (update_task_status now tid ns (u_id u) (w_db w)))
                  | None => (false, w_db w)
                  end).
  { unfold update_task_status. rewrite Ht. destruct (status_of_str ns); reflexivity. }
  assert (Hrun : forall w0 : World, w0 = w ->
    (let (r, w1) :=
       let (a, d) := update_task_status now tid ns (u_id u) (w_db w0) in
       (Ok a, {| w_db := d; w_bot := w_bot w0; w_log := w_log w0 |}) in
     match r with
     | Ok a =>
         (if a : bool
          then fun w2 : World =>
               let (r0, w3) :=
                 (if negb (value_eqb (VInt (t_creator_id t)) (VInt (u_id u)))
                  then try_except
                         (Bot.notify_creator env now tid (task_row_tg (w_db w) t)
                            (user_row u) (VStr (status_str (t_status t))) ns)
                  else fun w4 : World => (Ok tt, w4)) w2 in
               match r0 with
               | Ok _ => (Ok Bot.StatusChanged, w3)
               | Raise e => (Raise e, w3)
               end
          else fun w2 : World => (Ok Bot.StatusError, w2)) w1
     | Raise e => (Raise e, w1)
     end) =
    match status_of_str ns with
    | Some s =>
        let w1 := with_db (snd (update_task_status now tid ns (u_id u) (w_db w))) w in
        (Ok Bot.StatusChanged,
         if negb (value_eqb (VInt (t_creator_id t)) (VInt (u_id u)))
         then snd (try_except
                     (Bot.notify_creator env now tid (task_row_tg (w_db w) t)
                        (user_row u) (VStr (status_str (t_status t))) ns) w1)
         else w1)
    | None => (Ok Bot.StatusError, w)
    end).
  { intros w0 ->.
    destruct (update_task_status now tid ns (u_id u) (w_db w)) as [b d1].
    cbn [snd] in *.
    destruct (status_of_str ns) as [s|]; inversion Hup; subst.
    - cbv zeta. fold (with_db d1 w).
      destruct (negb (value_eqb (VInt (t_creator_id t)) (VInt (u_id u)))); [|reflexivity].
      match goal with |- context [try_except ?c ?w0] =>
        pose proof (try_except_ok c w0) as Hok;
        destruct (try_except c w0) as [[[]|e] w1] end; [reflexivity | discriminate].
    - destruct w; reflexivity. }
  destruct (value_eqb (opt_int (t_assignee_id t)) (VInt (u_id u))) eqn:Ea;
    cbn [negb orb andb]; cbv beta iota.
  - apply Hrun. reflexivity.
  - destruct (value_eqb (VStr (role_str (u_role u))) (VStr "admin")) eqn:Er;
      cbn [negb orb andb]; [|reflexivity].
    apply Hrun. reflexivity.
Qed.

Lemma assignee_eqb (a : option Z) (uid : Z) :
  value_eqb (opt_int a) (VInt uid) = true <-> a = Some uid.
Proof.
  destruct a as [x|]; simpl.
  - rewrite Z.eqb_eq. split; [now intros -> | now intros [= ->]].
  - split; discriminate.
Qed.

Lemma worker_not_admin (u : User) :
  u_role u <> Admin -> value_eqb (VStr (role_str (u_role u))) (VStr "admin") = false.
Proof. destruct (u_role u); [now intros H; elim H | reflexivity]. Qed.

Lemma status_of_update_task_status now tid ns uid d t s :
  task_of d tid = Some t ->
  status_of_str ns = Some s ->
  status_of (snd (update_task_status now tid ns uid d)) tid = Some s /\
  List.length (task_history (snd (update_task_status now tid ns uid d)))
  = S (List.length (task_history d)).
Proof.
  intros Ht Hs. unfold update_task_status. unfold task_of in Ht. rewrite Ht, Hs.
  cbn [snd]. split.
  - unfold status_of. rewrite task_of_add_task_history, task_of_update_task by reflexivity.
    unfold task_of. rewrite Ht. reflexivity.
  - simpl. rewrite length_app. simpl. lia.
Qed.

Lemma change_task_status_db env now data u w tid ns t s :
  Bot.parse_task_status data = Ok (tid, ns) ->
  task_of (w_db w) tid = Some t ->
  may_change u t = true ->
  status_of_str ns = Some s ->
  fst (Bot.change_task_status env now data (user_row u) w) = Ok Bot.StatusChanged /\
  w_db (snd (Bot.change_task_status env now data (user_row u) w))
  = snd (update_task_status now tid ns (u_id u) (w_db w)).
Proof.
  intros Hp Ht Hm Hs.
  rewrite (change_task_status_eq env now data u w tid ns t Hp Ht), Hm, Hs.
  cbv zeta. split; [reflexivity|]. cbn [snd].
  destruct (negb (value_eqb (VInt (t_creator_id t)) (VInt (u_id u)))); [|reflexivity].
  rewrite keeps_db_try; [reflexivity|]. apply keeps_db_notify_creator.
Qed.

(** The "take to work" button: [split('_')] cuts its status to [in], the
    UPDATE violates the CHECK on [status], and the handler answers with its
    error text; the task stays new. *)
Example take_to_work_button_is_refused :
  let w := world_of (db_of [task1 New None] []) in
  let data := Bot.task_status_button 1 "in_progress" in
  data = "task_status_1_in_progress" /\
  Bot.parse_task_status data = Ok (1, "in") /\
  Bot.change_task_status env_ok 500 data (user_row worker1) w
  = (Ok Bot.StatusError, w).
Proof. cbv zeta. repeat split; reflexivity. Qed.

(** C4.  For an actor who is not an admin and a task that exists, the
    status request changes the task (and logs one history entry) only if
    the actor is the task's assignee; from anybody else it is answered
    "forbidden" and the world stays as it was.  The guard is
    [can_modify_task]. *)
Theorem change_task_status_only_by_assignee env now data (u : User) w tid ns t :
  u_role u <> Admin ->
  Bot.parse_task_status data = Ok (tid, ns) ->
  task_of (w_db w) tid = Some t ->
  let out := Bot.change_task_status env now data (user_row u) w in
  (fst out = Ok Bot.StatusChanged ->
     t_assignee_id t = Some (u_id u) /\
     (exists s, status_of_str ns = Some s /\ status_of (w_db (snd out)) tid = Some s) /\
     List.length (task_history (w_db (snd out)))
     = S (List.length (task_history (w_db w)))) /\
  (t_assignee_id t <> Some (u_id u) ->
     out = (Ok Bot.Forbidden, w) /\
     Auth.can_modify_task (role_str (u_role u)) (VInt (u_id u))
       (VInt (t_creator_id t)) (opt_int (t_assignee_id t)) = false).
Proof.
  intros Hrole Hp Ht. cbv zeta.
  pose proof (worker_not_admin u Hrole) as Hr.
  pose proof (change_task_status_eq env now data u w tid ns t Hp Ht) as E.
  unfold may_change in E. rewrite Hr, orb_false_r in E.
  split.
  - intros Hok.
    destruct (value_eqb (opt_int (t_assignee_id t)) (VInt (u_id u))) eqn:Ea.
    + apply assignee_eqb in Ea.
      destruct (status_of_str ns) as [s|] eqn:Es.
      * assert (Hm : may_change u t = true).
        { unfold may_change. apply orb_true_iff. left. now apply assignee_eqb. }
        destruct (change_task_status_db env now data u w tid ns t s Hp Ht Hm Es) as [_ Hdb].
        rewrite Hdb.
        destruct (status_of_update_task_status now tid ns (u_id u) (w_db w) t s Ht Es)
          as [H1 H2].
        split; [exact Ea|]. split; [now exists s | exact H2].
      * rewrite E in Hok. discriminate.
    + rewrite E in Hok. discriminate.
  - intros Hne.
    assert (Ea : value_eqb (opt_int (t_assignee_id t)) (VInt (u_id u)) = false).
    { destruct (value_eqb (opt_int (t_assignee_id t)) (VInt (u_id u))) eqn:Ea;
        [|reflexivity].
      apply assignee_eqb in Ea. contradiction. }
    rewrite Ea in E. split; [exact E|].
    unfold Auth.can_modify_task.
    assert (Ha : String.eqb (role_str (u_role u)) "admin" = false) by exact Hr.
    rewrite Ha.
    assert (Eb : value_eqb (VInt (u_id u)) (opt_int (t_assignee_id t)) = false).
    { destruct (t_assignee_id t) as [a|]; [|reflexivity]. simpl in *.
      rewrite Z.eqb_sym. exact Ea. }
    rewrite Eb. reflexivity.
Qed.

Lemma change_task_status_only_by_assignee_witness :
  Bot.change_task_status env_ok 500 "task_status_1_completed" (user_row worker2)
    (world_of (db_of [task1 New None] []))
  = (Ok Bot.Forbidden, world_of (db_of [task1 New None] [])).
Proof.
  apply (change_task_status_only_by_assignee env_ok 500 "task_status_1_completed"
           worker2 (world_of (db_of [task1 New None] [])) 1 "completed"
           (task1 New None)).
  - simpl. discriminate.
  - reflexivity.
  - reflexivity.
  - simpl. discriminate.
Defined.

(** C3, as claimed, fails: the assignee (a worker, no admin) presses the
    "done" button of a card drawn while the task was new; the task has been
    cancelled since.  The request is accepted and the cancelled task becomes
    completed. *)
Lemma terminal_status_changed_by_assignee :
  let w := world_of (db_of [task1 Cancelled None] []) in
  let data := Bot.task_status_button 1 "completed" in
  let out := Bot.change_task_status env_ok 500 data (user_row worker1) w in
  u_role worker1 = Worker /\
  In [data] match Bot.create_task_detail_keyboard
                    (task_row_tg (db_of [task1 New None] []) (task1 New None))
                    "user" (VInt 2) with
            | Ok k => k
            | Raise _ => []
            end /\
  status_of (w_db w) 1 = Some Cancelled /\
  fst out = Ok Bot.StatusChanged /\
  status_of (w_db (snd out)) 1 = Some Completed /\
  ~ (status_of (w_db (snd out)) 1 = status_of (w_db w) 1).
Proof.
  cbv zeta. repeat split; try reflexivity.
  - vm_compute. right. left. reflexivity.
  - vm_compute. discriminate.
Qed.

Lemma terminal_has_no_actions tid (s : Status) :
  is_terminal s = true -> Bot.assignee_actions tid (VStr (status_str s)) = [].
Proof. destruct s; simpl; try discriminate; reflexivity. Qed.

(** C3, amended.  For a completed or cancelled task neither keyboard gives
    a worker a status button: the card shows the history and the way back,
    the list shows the task alone.  The handler itself does not look at the
    current status: a request naming a valid status, from the assignee or
    an admin, is applied to a terminal task as to any other. *)
Theorem terminal_status_not_offered_yet_accepted env now prefix data d w (u : User)
    (t : Task) tid ns s :
  is_terminal (t_status t) = true ->
  Bot.parse_task_status data = Ok (tid, ns) ->
  status_of_str ns = Some s ->
  task_of (w_db w) tid = Some t ->
  may_change u t = true ->
  Bot.create_task_detail_keyboard (task_row_tg d t) "user" (VInt (u_id u))
  = Ok [ [("task_history_" ++ str_of_int (t_id t))%string];
         ["all_tasks"; "main_menu"] ] /\
  Bot.task_list_rows prefix (VInt (u_id u)) (task_row d t)
  = Ok [ [(prefix ++ "_" ++ str_of_int (t_id t))%string] ] /\
  fst (Bot.change_task_status env now data (user_row u) w) = Ok Bot.StatusChanged /\
  status_of (w_db (snd (Bot.change_task_status env now data (user_row u) w))) tid
  = Some s.
Proof.
  intros Hterm Hp Hs Ht Hm.
  split; [|split].
  - unfold Bot.create_task_detail_keyboard.
    change (get "assignee_id" (task_row_tg d t)) with (Ok (opt_int (t_assignee_id t))).
    change (get "id" (task_row_tg d t)) with (Ok (VInt (t_id t))).
    change (get "status" (task_row_tg d t)) with (Ok (VStr (status_str (t_status t)))).
    cbn [rbind as_int]. rewrite terminal_has_no_actions by exact Hterm.
    cbn [map]. destruct (value_eqb _ _); reflexivity.
  - unfold Bot.task_list_rows.
    change (get "assignee_id" (task_row d t)) with (Ok (opt_int (t_assignee_id t))).
    change (get "id" (task_row d t)) with (Ok (VInt (t_id t))).
    change (get "status" (task_row d t)) with (Ok (VStr (status_str (t_status t)))).
    cbn [rbind as_int]. rewrite terminal_has_no_actions by exact Hterm.
    destruct (truthy (VInt (u_id u))); [|reflexivity].
    destruct (value_eqb _ _); reflexivity.
  - destruct (change_task_status_db env now data u w tid ns t s Hp Ht Hm Hs) as [H1 H2].
    split; [exact H1|]. rewrite H2.
    apply (status_of_update_task_status now tid ns (u_id u) (w_db w) t s Ht Hs).
Qed.

Lemma terminal_status_not_offered_yet_accepted_witness :
  fst (Bot.change_task_status env_ok 500 "task_status_1_new" (user_row worker1)
         (world_of (db_of [task1 Completed (Some 400)] []))) = Ok Bot.StatusChanged /\
  status_of
    (w_db (snd (Bot.change_task_status env_ok 500 "task_status_1_new" (user_row worker1)
                  (world_of (db_of [task1 Completed (Some 400)] []))))) 1
  = Some New.
Proof.
  apply (terminal_status_not_offered_yet_accepted env_ok 500 "task" "task_status_1_new"
           (db_of [task1 Completed (Some 400)] [])
           (world_of (db_of [task1 Completed (Some 400)] []))
           worker1 (task1 Completed (Some 400)) 1 "new" New);
    reflexivity.
Defined.

(** ** Lists, as the queries use them *)

Lemma in_filter_map {A B} (f : A -> option B) (l : list A) (y : B) :
  In y (filter_map f l) <-> exists x, In x l /\ f x = Some y.
Proof.
  induction l as [|a l IH]; simpl.
  - split; [intros [] | intros [x [[] _]]].
  - destruct (f a) as [b|] eqn:E; simpl; rewrite IH; split.
    + intros [<-|[x [Hx Hf]]]; [exists a; auto | exists x; auto].
    + intros [x [[<-|Hx] Hf]]; [left; congruence | right; exists x; auto].
    + intros [x [Hx Hf]]. exists x; auto.
    + intros [x [[<-|Hx] Hf]]; [congruence | exists x; auto].
Qed.

Lemma filter_map_option_map {A B C} (f : A -> option B) (g : B -> C) (l : list A) :
  filter_map (fun x => option_map g (f x)) l = map g (filter_map f l).
Proof.
  induction l as [|a l IH]; simpl; [reflexivity|].
  destruct (f a); simpl; now rewrite IH.
Qed.

Lemma insert_by_perm {A} (le : A -> A -> bool) (x : A) (l : list A) :
  Permutation (insert_by le x l) (x :: l).
Proof.
  induction l as [|y l IH]; simpl; [reflexivity|].
  destruct (le x y); [reflexivity|].
  rewrite IH. apply perm_swap.
Qed.

Lemma order_by_perm {A} (le : A -> A -> bool) (l : list A) :
  Permutation (order_by le l) l.
Proof.
  induction l as [|x l IH]; simpl; [reflexivity|].
  unfold order_by in *. simpl. rewrite insert_by_perm. now constructor.
Qed.

Lemma distinct_NoDup (ids : list Z) : distinct ids = true <-> NoDup ids.
Proof.
  induction ids as [|i ids IH]; simpl.
  - split; [constructor | reflexivity].
  - rewrite andb_true_iff, negb_true_iff, IH. split.
    + intros [Hn Hd]. constructor; [|exact Hd]. intros Hin.
      assert (existsb (Z.eqb i) ids = true); [|congruence].
      apply existsb_exists. exists i. split; [exact Hin | apply Z.eqb_refl].
    + intros H. inversion H as [|? ? Hn Hd]; subst. split; [|exact Hd].
      destruct (existsb (Z.eqb i) ids) eqn:E; [|reflexivity].
      apply existsb_exists in E. destruct E as [x [Hx Hi]].
      apply Z.eqb_eq in Hi. subst. contradiction.
Qed.

Lemma NoDup_map_filter {A} (f : A -> Z) (p : A -> bool) (l : list A) :
  NoDup (map f l) -> NoDup (map f (filter p l)).
Proof.
  induction l as [|a l IH]; simpl; intros H; [constructor|].
  inversion H as [|? ? Hn Hd]; subst.
  destruct (p a); simpl; [|now apply IH].
  constructor; [|now apply IH].
  intros Hin. apply Hn. apply in_map_iff in Hin. destruct Hin as [x [Hx Hin]].
  apply filter_In in Hin. apply in_map_iff. exists x. split; [exact Hx | apply Hin].
Qed.

Lemma filter_unique (ns : list Notification) (n : Notification) :
  NoDup (map n_id ns) -> In n ns ->
  filter (fun m => n_id m =? n_id n) ns = [n].
Proof.
  induction ns as [|m ns IH]; simpl; intros Hd Hin; [contradiction|].
  inversion Hd as [|? ? Hn Hd']; subst.
  destruct Hin as [->|Hin].
  - rewrite Z.eqb_refl. f_equal. apply filter_none. intros x Hx.
    apply Z.eqb_neq. intros E. apply Hn. rewrite <- E. now apply in_map.
  - destruct (n_id m =? n_id n) eqn:E.
    + apply Z.eqb_eq in E. exfalso. apply Hn. rewrite E. now apply in_map.
    + now apply IH.
Qed.

(** ** The drain pass *)

Lemma filter_map_ext {A B} (f g : A -> option B) (l : list A) :
  (forall x, f x = g x) -> filter_map f l = filter_map g l.
Proof.
  intros H. induction l as [|a l IH]; simpl; [reflexivity|].
  rewrite H, IH. reflexivity.
Qed.

Lemma pending_rows_are_triples now d :
  get_pending_notifications now d = map triple_row (pending_triples now d).
Proof.
  unfold get_pending_notifications, pending_triples.
  rewrite <- filter_map_option_map. apply filter_map_ext. intros n.
  unfold pending_join, pending_triple.
  destruct (user_by_id d (n_user_id n)); [|reflexivity].
  destruct (find _ (tasks d)); reflexivity.
Qed.

Lemma pending_triple_in now d n u t :
  In (n, u, t) (pending_triples now d) ->
  In n (notifications d) /\ is_pending now n = true /\
  pending_triple d n = Some (n, u, t).
Proof.
  unfold pending_triples. rewrite in_filter_map. intros [x [Hx Hf]].
  assert (x = n).
  { unfold pending_triple in Hf.
    destruct (user_by_id d (n_user_id x)); [|discriminate].
    destruct (find _ (tasks d)); congruence. }
  subst x.
  apply (Permutation_in _ (order_by_perm _ _)) in Hx.
  apply filter_In in Hx. tauto.
Qed.

Lemma pending_triples_ids now d :
  NoDup (map n_id (notifications d)) ->
  NoDup (map (fun p => n_id (fst (fst p))) (pending_triples now d)).
Proof.
  intros H. unfold pending_triples.
  assert (Hl : NoDup (map n_id (order_by scheduled_le
                                   (filter (is_pending now) (notifications d))))).
  { eapply Permutation_NoDup.
    - apply Permutation_map. symmetry. apply order_by_perm.
    - now apply NoDup_map_filter. }
  revert Hl. generalize (order_by scheduled_le (filter (is_pending now) (notifications d))).
  induction l as [|n l IH]; simpl; intros Hl; [constructor|].
  inversion Hl as [|? ? Hn Hd]; subst.
  destruct (pending_triple d n) as [[[n' u] t]|] eqn:E; [|now apply IH].
  simpl. constructor; [|now apply IH].
  assert (n' = n).
  { unfold pending_triple in E. destruct (user_by_id d (n_user_id n)); [|discriminate].
    destruct (find _ (tasks d)); congruence. }
  subst n'. intros Hin. apply Hn.
  apply in_map_iff in Hin. destruct Hin as [[[m u'] t'] [Hid Hin]].
  apply in_filter_map in Hin. destruct Hin as [x [Hx Hf]].
  assert (x = m).
  { unfold pending_triple in Hf. destruct (user_by_id d (n_user_id x)); [|discriminate].
    destruct (find _ (tasks d)); congruence. }
  subst x. simpl in Hid. rewrite <- Hid. now apply in_map.
Qed.

(** One round of the loop of [check_and_send_notifications]. *)
Lemma send_pending_step env now n u t w :
  w_bot w = true ->
  try_except (Notifications.send_pending env now (pending_row n u t)) w
  = (Ok tt, drained (telegram env) now [(n, u, t)] w).
Proof.
  intros Hb. unfold try_except, Notifications.send_pending.
  cbv [bind lift write Notifications.send_notification].
  change (get "telegram_id" (pending_row n u t)) with (Ok (VInt (u_telegram_id u))).
  change (get "message" (pending_row n u t)) with (Ok (VStr (n_message n))).
  change (get "task_id" (pending_row n u t)) with (Ok (VInt (n_task_id n))).
  change (get "id" (pending_row n u t)) with (Ok (VInt (n_id n))).
  cbn [rbind as_int as_str drained]. rewrite Hb. cbn [negb].
  destruct (telegram env (List.length (w_log w))); reflexivity.
Qed.

Lemma drained_bot tele now ps : forall w, w_bot (drained tele now ps w) = w_bot w.
Proof.
  induction ps as [|[[n u] t] ps IH]; intros w; simpl; [reflexivity|].
  now rewrite IH.
Qed.

Lemma drain_loop env now ps : forall w,
  w_bot w = true ->
  for_each (fun r => try_except (Notifications.send_pending env now r))
           (map triple_row ps) w
  = (Ok tt, drained (telegram env) now ps w).
Proof.
  induction ps as [|[[n u] t] ps IH]; intros w Hb; [reflexivity|].
  cbn [map triple_row for_each]. unfold bind.
  rewrite (send_pending_step env now n u t w Hb).
  rewrite IH; [reflexivity|].
  simpl. exact Hb.
Qed.

Lemma drained_log tele now ps : forall w i n u t,
  nth_error ps i = Some (n, u, t) ->
  nth_error (w_log (drained tele now ps w)) (List.length (w_log w) + i)
  = Some {| d_chat := u_telegram_id u; d_text := n_message n;
            d_ok := tele (List.length (w_log w) + i)%nat |}.
Proof.
  assert (Hpre : forall ps w, exists tail,
             w_log (drained tele now ps w) = w_log w ++ tail).
  { induction ps0 as [|[[n u] t] ps0 IH]; intros w; simpl.
    - exists []. now rewrite app_nil_r.
    - destruct (IH {| w_db := if tele (List.length (w_log w))
                              then mark_notification_sent now (n_id n) (w_db w)
                              else w_db w;
                      w_bot := w_bot w;
                      w_log := w_log w ++
                        [ {| d_chat := u_telegram_id u; d_text := n_message n;
                             d_ok := tele (List.length (w_log w)) |} ] |})
        as [tail Ht].
      rewrite Ht. simpl. rewrite <- app_assoc. eexists. reflexivity. }
  induction ps as [|[[m v] s] ps IH]; intros w i n u t Hi.
  - destruct i; discriminate.
  - destruct i as [|i]; simpl in Hi |- *.
    + injection Hi as -> -> ->. rewrite Nat.add_0_r.
      match goal with |- context [drained tele now ps ?w1] =>
        destruct (Hpre ps w1) as [tail Ht]; rewrite Ht end.
      simpl. rewrite <- app_assoc. rewrite nth_error_app2 by lia.
      rewrite Nat.sub_diag. reflexivity.
    + match goal with |- context [drained tele now ps ?w1] =>
        specialize (IH w1 i n u t Hi) end.
      simpl in IH. rewrite length_app in IH. simpl in IH.
      replace (List.length (w_log w) + S i)%nat
        with (List.length (w_log w) + 1 + i)%nat by lia.
      exact IH.
Qed.

Lemma mark_all_nil now ns : mark_all now [] ns = ns.
Proof. unfold mark_all. simpl. apply map_id. Qed.

Lemma mark_all_app now ids1 ids2 ns :
  mark_all now ids2 (mark_all now ids1 ns) = mark_all now (ids1 ++ ids2) ns.
Proof.
  unfold mark_all. rewrite map_map. apply map_ext. intros n.
  rewrite existsb_app.
  destruct (existsb (Z.eqb (n_id n)) ids1); simpl;
    destruct (existsb (Z.eqb (n_id n)) ids2); reflexivity.
Qed.

Lemma mark_notification_sent_mark_all now id d :
  notifications (mark_notification_sent now id d)
  = mark_all now [id] (notifications d).
Proof.
  unfold mark_notification_sent, mark_all. simpl. apply map_ext. intros n.
  rewrite orb_false_r. reflexivity.
Qed.

Lemma drained_db tele now ps : forall w,
  users (w_db (drained tele now ps w)) = users (w_db w) /\
  tasks (w_db (drained tele now ps w)) = tasks (w_db w) /\
  notifications (w_db (drained tele now ps w))
  = mark_all now (delivered_ids tele (List.length (w_log w)) ps)
             (notifications (w_db w)).
Proof.
  induction ps as [|[[n u] t] ps IH]; intros w.
  - simpl. now rewrite mark_all_nil.
  - cbn [drained delivered_ids].
    match goal with |- context [drained tele now ps ?w1] =>
      destruct (IH w1) as [Hu [Ht Hn]]; rewrite Hu, Ht, Hn end.
    cbn [w_db w_log]. rewrite length_app. cbn [List.length]. rewrite Nat.add_1_r.
    destruct (tele (List.length (w_log w))).
    + rewrite mark_notification_sent_mark_all, mark_all_app. auto.
    + auto.
Qed.

Lemma delivered_ids_in tele ps : forall base id,
  In id (delivered_ids tele base ps) <->
  exists j n u t, nth_error ps j = Some (n, u, t) /\ n_id n = id /\
                  tele (base + j)%nat = true.
Proof.
  induction ps as [|[[m v] s] ps IH]; intros base id; simpl.
  - split; [intros [] | intros [j [n [u [t [H _]]]]]; destruct j; discriminate].
  - rewrite in_app_iff, IH. split.
    + intros [H|[j [n [u [t [Hj [Hid Hok]]]]]]].
      * destruct (tele base) eqn:E; [|contradiction].
        destruct H as [<-|[]]. exists 0%nat, m, v, s.
        rewrite Nat.add_0_r. auto.
      * exists (S j), n, u, t. rewrite Nat.add_succ_r. auto.
    + intros [j [n [u [t [Hj [Hid Hok]]]]]]. destruct j as [|j]; simpl in Hj.
      * injection Hj as -> -> ->. rewrite Nat.add_0_r in Hok. rewrite Hok.
        left. now left.
      * right. exists j, n, u, t. rewrite Nat.add_succ_r in Hok. auto.
Qed.

Lemma nth_error_unique_id ps i j n u t n' u' t' :
  NoDup (map (fun p : Notification * User * Task => n_id (fst (fst p))) ps) ->
  nth_error ps i = Some (n, u, t) ->
  nth_error ps j = Some (n', u', t') ->
  n_id n' = n_id n -> i = j.
Proof.
  intros Hd Hi Hj Hid.
  apply (proj1 (NoDup_nth_error _) Hd).
  - apply nth_error_Some. rewrite nth_error_map, Hi. discriminate.
  - rewrite !nth_error_map, Hi, Hj. simpl. now rewrite Hid.
Qed.

Lemma filter_mark_all now ids id ns :
  filter (fun m => n_id m =? id) (mark_all now ids ns)
  = mark_all now ids (filter (fun m => n_id m =? id) ns).
Proof.
  unfold mark_all. induction ns as [|m ns IH]; simpl; [reflexivity|].
  assert (E : n_id (if existsb (Z.eqb (n_id m)) ids then mark_sent now m else m) = n_id m)
    by (destruct (existsb _ ids); reflexivity).
  rewrite E. destruct (n_id m =? id); simpl; now rewrite IH.
Qed.

Lemma pending_triple_same d d' n :
  users d' = users d -> tasks d' = tasks d ->
  pending_triple d' n = pending_triple d n.
Proof.
  intros Hu Ht. unfold pending_triple, user_by_id. now rewrite Hu, Ht.
Qed.

(** C8.  In one drain pass every pending notification gets its own
    delivery attempt, whatever became of the attempts before it, and the
    pass itself never raises.  The notification is marked sent exactly when
    Telegram accepted its attempt; a refused one stays in the table unsent
    and is selected again by every later pass. *)
Theorem drain_isolates_failures env now now' w i row :
  w_bot w = true ->
  notification_ids_distinct (w_db w) = true ->
  nth_error (get_pending_notifications now (w_db w)) i = Some row ->
  now <= now' ->
  let out := Notifications.check_and_send_notifications env now w in
  let k := (List.length (w_log w) + i)%nat in
  fst out = Ok tt /\
  exists n u t,
    row = pending_row n u t /\
    In n (notifications (w_db w)) /\ n_is_sent n = false /\
    nth_error (w_log (snd out)) k
    = Some {| d_chat := u_telegram_id u; d_text := n_message n;
              d_ok := telegram env k |} /\
    sent_flags (w_db (snd out)) (n_id n) = [telegram env k] /\
    (telegram env k = false ->
       In n (notifications (w_db (snd out))) /\
       In row (get_pending_notifications now' (w_db (snd out)))).
Proof.
  intros Hb Hd Hi Hle. cbv zeta.
  unfold Notifications.check_and_send_notifications, bind, query.
  rewrite pending_rows_are_triples in Hi |- *.
  rewrite (drain_loop env now _ w Hb). cbn [fst snd].
  split; [reflexivity|].
  rewrite nth_error_map in Hi.
  destruct (nth_error (pending_triples now (w_db w)) i) as [[[n u] t]|] eqn:Ei;
    [|discriminate].
  injection Hi as <-. exists n, u, t.
  pose proof (nth_error_In _ _ Ei) as Hin.
  destruct (pending_triple_in now (w_db w) n u t Hin) as [Hn [Hp Ht]].
  assert (Hs : n_is_sent n = false).
  { unfold is_pending in Hp. apply andb_true_iff in Hp.
    destruct Hp as [Hp _]. now apply negb_true_iff in Hp. }
  apply distinct_NoDup in Hd.
  pose proof (pending_triples_ids now (w_db w) Hd) as Hids.
  destruct (drained_db (telegram env) now (pending_triples now (w_db w)) w)
    as [Hu [Hts Hns]].
  set (k := (List.length (w_log w) + i)%nat).
  assert (Hex : existsb (Z.eqb (n_id n))
                  (delivered_ids (telegram env) (List.length (w_log w))
                     (pending_triples now (w_db w)))
                = telegram env k).
  { destruct (telegram env k) eqn:Ek.
    - apply existsb_exists. exists (n_id n). split; [|apply Z.eqb_refl].
      apply delivered_ids_in. exists i, n, u, t. auto.
    - destruct (existsb _ _) eqn:Ex; [|reflexivity].
      apply existsb_exists in Ex. destruct Ex as [id [Hid He]].
      apply Z.eqb_eq in He. subst id.
      apply delivered_ids_in in Hid.
      destruct Hid as [j [n' [u' [t' [Hj [Hid Hok]]]]]].
      assert (i = j) by (eapply nth_error_unique_id; eauto).
      subst j. unfold k in Ek. congruence. }
  repeat split.
  - exact Hn.
  - exact Hs.
  - unfold k. apply (drained_log (telegram env) now _ w i n u t Ei).
  - unfold sent_flags. rewrite Hns, filter_mark_all, (filter_unique _ n Hd Hn).
    unfold mark_all. cbn [map]. rewrite Hex.
    destruct (telegram env k); simpl; [reflexivity | now rewrite Hs].
  - rewrite Hns. unfold mark_all. apply in_map_iff. exists n.
    rewrite Hex, H. auto.
  - rewrite pending_rows_are_triples. apply in_map_iff. exists (n, u, t).
    split; [reflexivity|]. unfold pending_triples at 1. apply in_filter_map.
    exists n. split.
    + apply (Permutation_in _ (Permutation_sym (order_by_perm _ _))).
      apply filter_In. split.
      * rewrite Hns. unfold mark_all. apply in_map_iff. exists n.
        rewrite Hex, H. auto.
      * unfold is_pending in *. apply andb_true_iff in Hp. destruct Hp as [Hp1 Hp2].
        apply andb_true_iff. split; [exact Hp1|].
        apply Z.leb_le. apply Z.leb_le in Hp2. lia.
    + rewrite (pending_triple_same (w_db w)); assumption.
Qed.

Lemma drain_isolates_failures_witness :
  let w := world_of (db_of [task1 New None] [reminder 1; reminder 2]) in
  let out := Notifications.check_and_send_notifications env_first_fails 50 w in
  fst out = Ok tt /\
  exists n u t,
    pending_row (reminder 1) worker1 (task1 New None) = pending_row n u t /\
    In n (notifications (w_db w)) /\ n_is_sent n = false /\
    nth_error (w_log (snd out)) 0
    = Some {| d_chat := u_telegram_id u; d_text := n_message n; d_ok := false |} /\
    sent_flags (w_db (snd out)) (n_id n) = [false] /\
    (false = false ->
       In n (notifications (w_db (snd out))) /\
       In (pending_row (reminder 1) worker1 (task1 New None))
          (get_pending_notifications 60 (w_db (snd out)))).
Proof.
  apply (drain_isolates_failures env_first_fails 50 60
           (world_of (db_of [task1 New None] [reminder 1; reminder 2])) 0
           (pending_row (reminder 1) worker1 (task1 New None))).
  - reflexivity.
  - reflexivity.
  - reflexivity.
  - lia.
Defined.

(** ** The deadline sweep *)

Lemma deadline_type_str (ty : NotifType) :
  String.eqb (notif_type_str ty) "deadline" = notif_type_eqb ty Deadline.
Proof. destruct ty; reflexivity. Qed.

Lemma exists_deadline_count d tid :
  exists_notification_by_task_type d tid "deadline"
  = negb (Nat.eqb (deadline_count d tid) 0).
Proof.
  unfold exists_notification_by_task_type, deadline_count.
  induction (notifications d) as [|n ns IH]; simpl; [reflexivity|].
  rewrite deadline_type_str.
  destruct ((n_task_id n =? tid) && notif_type_eqb (n_type n) Deadline); simpl;
    [reflexivity | exact IH].
Qed.

Lemma deadline_count_mark now id d tid :
  deadline_count (mark_notification_sent now id d) tid = deadline_count d tid.
Proof.
  unfold deadline_count, mark_notification_sent. simpl.
  induction (notifications d) as [|n ns IH]; simpl; [reflexivity|].
  assert (E : n_task_id (if n_id n =? id then mark_sent now n else n) = n_task_id n
              /\ n_type (if n_id n =? id then mark_sent now n else n) = n_type n).
  { destruct (n_id n =? id); split; reflexivity. }
  destruct E as [-> ->].
  destruct ((n_task_id n =? tid) && notif_type_eqb (n_type n) Deadline); simpl;
    now rewrite IH.
Qed.

Lemma deadline_count_create now uid task_id message at_ d tid :
  deadline_count (snd (create_notification now uid task_id "deadline" message at_ d)) tid
  = (deadline_count d tid + if (task_id =? tid)%Z then 1 else 0)%nat.
Proof.
  unfold deadline_count. simpl. rewrite filter_app, length_app. simpl.
  destruct (task_id =? tid); reflexivity.
Qed.

Lemma truthy_telegram_id d a :
  truthy (opt_int (option_map u_telegram_id (joined_user d a))) = true <->
  exists u, joined_user d a = Some u /\ u_telegram_id u <> 0.
Proof.
  destruct (joined_user d a) as [u|]; simpl.
  - rewrite negb_true_iff, Z.eqb_neq. split.
    + intros H. now exists u.
    + intros [u' [[= <-] H]]. exact H.
  - split; [discriminate | intros [u [H _]]; discriminate].
Qed.

Lemma joined_user_found d a u :
  joined_user d a = Some u ->
  exists u', get_user_by_telegram_id d (VInt (u_telegram_id u)) = Some (user_row u').
Proof.
  intros H. unfold get_user_by_telegram_id.
  destruct (find (fun x => value_eqb (VInt (u_telegram_id x)) (VInt (u_telegram_id u)))
                 (users d)) as [u'|] eqn:E.
  - now exists u'.
  - exfalso. destruct a as [i|]; [|discriminate]. simpl in H. unfold user_by_id in H.
    apply find_some in H. destruct H as [Hin _].
    apply (find_none _ _ E) in Hin. simpl in Hin. now rewrite Z.eqb_refl in Hin.
Qed.

Lemma alert_overdue_round env now d1 t w :
  let out := Notifications.alert_overdue env now (task_row_tg d1 t) w in
  users (w_db (snd out)) = users (w_db w) /\
  tasks (w_db (snd out)) = tasks (w_db w) /\
  round_effect d1 t w (snd out) /\
  (fst out = Ok tt -> users (w_db w) = users d1 ->
   (exists u, joined_user d1 (t_assignee_id t) = Some u /\ u_telegram_id u <> 0) ->
   (1 <= deadline_count (w_db (snd out)) (t_id t))%nat).
Proof.
  cbv zeta. unfold Notifications.alert_overdue.
  cbv [bind lift query ret write write_ret].
  change (get "id" (task_row_tg d1 t)) with (Ok (VInt (t_id t))).
  change (get "assignee_telegram_id" (task_row_tg d1 t))
    with (Ok (opt_int (option_map u_telegram_id (joined_user d1 (t_assignee_id t))))).
  cbn [rbind as_int]. rewrite exists_deadline_count.
  destruct (Nat.eqb (deadline_count (w_db w) (t_id t)) 0) eqn:Ec; cbn [negb].
  2:{ apply Nat.eqb_neq in Ec. cbn [fst snd]. repeat split; try (left; reflexivity).
      intros _ _ _. lia. }
  apply Nat.eqb_eq in Ec.
  destruct (truthy (opt_int (option_map u_telegram_id (joined_user d1 (t_assignee_id t)))))
    eqn:Et.
  2:{ cbn [fst snd]. repeat split; try (left; reflexivity).
      intros _ _ Hu. apply truthy_telegram_id in Hu. congruence. }
  pose proof (proj1 (truthy_telegram_id _ _) Et) as [u [Hj Hu]].
  rewrite Hj. cbn [option_map opt_int].
  destruct (get_user_by_telegram_id (w_db w) (VInt (u_telegram_id u))) as [assignee|] eqn:Eg.
  2:{ cbn [fst snd]. repeat split; try (left; reflexivity).
      intros _ Husers _. exfalso.
      destruct (joined_user_found d1 _ u Hj) as [u' Hf].
      unfold get_user_by_telegram_id in *. rewrite Husers in Eg. congruence. }
  assert (Ha : exists u', assignee = user_row u').
  { unfold get_user_by_telegram_id in Eg.
    destruct (find _ (users (w_db w))) as [u'|]; [|discriminate].
    injection Eg as <-. now exists u'. }
  destruct Ha as [u' ->].
  change (get "id" (user_row u')) with (Ok (VInt (u_id u'))).
  cbn [rbind as_int].
  set (message := Notifications.deadline_message env (task_row_tg d1 t)).
  set (at_ := get_current_tashkent_time (config env) now).
  pose proof (deadline_count_create now (u_id u') (t_id t) message at_ (w_db w)) as Hc.
  destruct (create_notification now (u_id u') (t_id t) "deadline" message at_ (w_db w))
    as [created d2] eqn:Ecr.
  assert (Hcreated : created = Ok (next_id n_id (notifications (w_db w)))
                     /\ users d2 = users (w_db w) /\ tasks d2 = tasks (w_db w)).
  { unfold create_notification in Ecr. simpl in Ecr. injection Ecr as <- <-. auto. }
  destruct Hcreated as [-> [Hu2 Ht2]]. cbn [snd] in Hc.
  unfold Notifications.send_notification. cbn [w_bot w_db w_log].
  assert (Hgrow : forall tid, deadline_count d2 tid
                  = (deadline_count (w_db w) tid + if (t_id t =? tid)%Z then 1 else 0)%nat)
    by exact Hc.
  assert (Hone : (1 <= deadline_count d2 (t_id t))%nat).
  { rewrite Hgrow, Z.eqb_refl. lia. }
  destruct (negb (w_bot w)); [|destruct (telegram env (List.length (w_log w)))];
    cbn [fst snd w_db];
    (split; [try exact Hu2 | split; [try exact Ht2 | split]]).
  all: try (right; split; [exact Ec | split; [now exists u |]]; intros tid;
            cbn [w_db]; rewrite ?deadline_count_mark; apply Hgrow).
  all: try (intros _ _ _; cbn [w_db]; rewrite ?deadline_count_mark; exact Hone).
  all: try discriminate.
Qed.

Lemma at_most_one_more_trans (P1 P2 P : Prop) c c1 c2 :
  (P1 -> P) -> (P2 -> P) ->
  at_most_one_more P1 c c1 -> at_most_one_more P2 c1 c2 ->
  at_most_one_more P c c2.
Proof.
  unfold at_most_one_more.
  intros H1 H2 [->|[-> [-> Hp1]]] [->|[E [-> Hp2]]]; auto; discriminate.
Qed.

Lemma round_effect_at_most d1 t w w' tid :
  round_effect d1 t w w' ->
  at_most_one_more (t_id t = tid /\ resolvable d1 t)
    (deadline_count (w_db w) tid) (deadline_count (w_db w') tid).
Proof.
  intros [H|[Hc [Hr H]]]; [left; apply H|].
  rewrite H. destruct (t_id t =? tid) eqn:E.
  - apply Z.eqb_eq in E. subst tid. right. rewrite Hc. auto.
  - left. lia.
Qed.

Lemma sweep_loop env now d1 L : forall w,
  let out := for_each (Notifications.alert_overdue env now) (map (task_row_tg d1) L) w in
  users (w_db (snd out)) = users (w_db w) /\
  tasks (w_db (snd out)) = tasks (w_db w) /\
  (forall tid,
     at_most_one_more (exists t, In t L /\ t_id t = tid /\ resolvable d1 t)
       (deadline_count (w_db w) tid) (deadline_count (w_db (snd out)) tid)) /\
  (fst out = Ok tt -> users (w_db w) = users d1 ->
   forall t, In t L -> resolvable d1 t ->
             (1 <= deadline_count (w_db (snd out)) (t_id t))%nat).
Proof.
  induction L as [|x L IH]; intros w; cbv zeta.
  - simpl. repeat split; try (intros; left; reflexivity). intros _ _ t [].
  - cbn [map for_each]. unfold bind.
    pose proof (alert_overdue_round env now d1 x w) as Hx. cbv zeta in Hx.
    destruct (Notifications.alert_overdue env now (task_row_tg d1 x) w) as [[[]|e] w1].
    + cbn [fst snd] in Hx. destruct Hx as [Hu [Ht [Hr Hp]]].
      specialize (IH w1). cbv zeta in IH. destruct IH as [Hu' [Ht' [Hr' Hp']]].
      split; [congruence|]. split; [congruence|]. split.
      * intros tid.
        eapply at_most_one_more_trans;
          [| |apply (round_effect_at_most d1 x w w1 tid Hr)|apply Hr'].
        -- intros [E R]. exists x. split; [now left | auto].
        -- intros [t [Hin R]]. exists t. split; [now right | auto].
      * intros Hok Husers t [<-|Hin] Hres.
        -- specialize (Hp eq_refl Husers Hres).
           destruct (Hr' (t_id x)) as [E|[E _]]; lia.
        -- apply Hp'; try assumption. congruence.
    + cbn [fst snd] in *. destruct Hx as [Hu [Ht [Hr _]]].
      repeat split; try assumption; [|discriminate].
      intros tid. destruct (round_effect_at_most d1 x w w1 tid Hr) as [E|[E1 [E2 [E3 R]]]].
      * now left.
      * right. repeat split; try assumption. exists x. split; [now left | auto].
Qed.

Lemma flip_overdue_key now t : task_key (flip_overdue now t) = task_key t.
Proof. unfold flip_overdue. destruct (becomes_overdue now t); reflexivity. Qed.

Lemma flip_overdue_is_overdue now t :
  is_overdue now (flip_overdue now t) = is_overdue now t.
Proof.
  unfold flip_overdue, becomes_overdue.
  destruct (is_overdue now t && negb (status_eqb (t_status t) Overdue)) eqn:B;
    [|reflexivity].
  apply andb_true_iff in B. destruct B as [B1 _]. rewrite B1.
  unfold is_overdue, past_deadline in *. simpl.
  apply andb_true_iff in B1. destruct B1 as [B1 _]. rewrite B1. reflexivity.
Qed.

Lemma update_overdue_tasks_tasks now d :
  tasks (update_overdue_tasks now d) = map (flip_overdue now) (tasks d).
Proof. reflexivity. Qed.

Lemma resolvable_same d d' t t' :
  users d' = users d -> t_assignee_id t' = t_assignee_id t ->
  resolvable d' t' -> resolvable d t.
Proof.
  intros Hu Ha [u [Hj Ht]]. exists u. split; [|exact Ht].
  rewrite <- Ha. destruct (t_assignee_id t'); [|discriminate].
  simpl in *. unfold user_by_id in *. now rewrite <- Hu.
Qed.

(** One sweep: the users stay, the tasks are those [update_overdue_tasks]
    leaves, and a task gains at most its first deadline notification, which
    takes an overdue task whose assignee resolves. *)
Lemma sweep_once env now w :
  let out := Notifications.check_overdue_tasks env now w in
  users (w_db (snd out)) = users (w_db w) /\
  tasks (w_db (snd out)) = map (flip_overdue now) (tasks (w_db w)) /\
  (forall tid,
     at_most_one_more
       (exists t, In t (tasks (w_db w)) /\ t_id t = tid /\
                  is_overdue now t = true /\ resolvable (w_db w) t)
       (deadline_count (w_db w) tid) (deadline_count (w_db (snd out)) tid)) /\
  (fst out = Ok tt ->
   forall t, In t (tasks (w_db w)) -> is_overdue now t = true ->
             resolvable (w_db w) t ->
             (1 <= deadline_count (w_db (snd out)) (t_id t))%nat).
Proof.
  cbv zeta. unfold Notifications.check_overdue_tasks.
  cbv [bind write query]. cbn [w_db].
  set (d1 := update_overdue_tasks now (w_db w)).
  set (w0 := {| w_db := d1; w_bot := w_bot w; w_log := w_log w |}).
  unfold get_overdue_tasks.
  pose proof (sweep_loop env now d1 (filter (is_overdue now) (tasks d1)) w0) as H.
  cbv zeta in H. destruct H as [Hu [Ht [Hr Hp]]].
  assert (Husers : users d1 = users (w_db w)) by reflexivity.
  split; [exact Hu|]. split; [exact Ht|]. split.
  - intros tid. specialize (Hr tid).
    eapply (at_most_one_more_trans _ False); [| |exact Hr|left; reflexivity];
      [|intros []].
    intros [t' [Hin [Hid Hres]]]. apply filter_In in Hin. destruct Hin as [Hin Ho].
    unfold d1 in Hin. rewrite update_overdue_tasks_tasks in Hin.
    apply in_map_iff in Hin. destruct Hin as [t [<- Hin]].
    pose proof (flip_overdue_key now t) as Hk. injection Hk as Hk1 Hk2.
    exists t. repeat split; try assumption; try congruence.
    + now rewrite flip_overdue_is_overdue in Ho.
    + eapply resolvable_same; eauto.
  - intros Hok t Hin Ho Hres.
    pose proof (flip_overdue_key now t) as Hk. injection Hk as Hk1 Hk2.
    rewrite <- Hk1. apply Hp; try assumption; try reflexivity.
    + apply filter_In. split.
      * unfold d1. rewrite update_overdue_tasks_tasks. now apply in_map.
      * now rewrite flip_overdue_is_overdue.
    + destruct Hres as [u [Hj Hne]]. exists u. split; [|exact Hne].
      rewrite Hk2. destruct (t_assignee_id t); [|discriminate]. exact Hj.
Qed.

Lemma run_sweeps_invariant env nows : forall w,
  users (w_db (run_sweeps env nows w)) = users (w_db w) /\
  map task_key (tasks (w_db (run_sweeps env nows w))) = map task_key (tasks (w_db w)) /\
  forall tid,
    at_most_one_more
      (exists t, In t (tasks (w_db w)) /\ t_id t = tid /\ resolvable (w_db w) t)
      (deadline_count (w_db w) tid)
      (deadline_count (w_db (run_sweeps env nows w)) tid).
Proof.
  induction nows as [|now nows IH]; intros w.
  - simpl. repeat split. intros tid. now left.
  - cbn [run_sweeps fold_left].
    fold (run_sweeps env nows (snd (Notifications.check_overdue_tasks env now w))).
    destruct (sweep_once env now w) as [Hu [Ht [Hr _]]].
    destruct (IH (snd (Notifications.check_overdue_tasks env now w))) as [Hu' [Ht' Hr']].
    split; [congruence|]. split.
    + rewrite Ht', Ht, map_map. apply map_ext. intros t. apply flip_overdue_key.
    + intros tid.
      eapply at_most_one_more_trans; [| |apply Hr|apply Hr'].
      * intros [t [Hin [Hid [_ Hres]]]]. exists t. auto.
      * intros [t' [Hin [Hid Hres]]]. rewrite Ht in Hin.
        apply in_map_iff in Hin. destruct Hin as [t [<- Hin]].
        pose proof (flip_overdue_key now t) as Hk. injection Hk as Hk1 Hk2.
        exists t. repeat split; try assumption; try congruence.
        eapply resolvable_same; eauto.
Qed.

(** C2, as claimed, fails on a task nobody is assigned to: it is overdue,
    two sweeps in a row create no deadline notification for it, and the
    second sweep still finds the existence check false. *)
Lemma unassigned_task_gets_no_deadline_alert :
  let w := world_of (db_of [task2] []) in
  let w1 := run_sweeps env_ok [200000] w in
  let w2 := run_sweeps env_ok [200000; 200300] w in
  is_overdue 200000 task2 = true /\
  status_of (w_db w1) 2 = Some Overdue /\
  exists_notification_by_task_type (w_db w1) 2 "deadline" = false /\
  deadline_count (w_db w2) 2 = 0%nat /\
  ~ (deadline_count (w_db w2) 2 = 1%nat).
Proof. cbv zeta. repeat split; try reflexivity. vm_compute. discriminate. Qed.

(** C2, amended.  Whatever the clock and whatever Telegram answers, any
    number of sweeps in a row leaves the deadline notifications of a task,
    overdue or not, as they were or creates the first one: never a second.
    For an overdue task whose assignee resolves to a user with a Telegram
    id and which has no deadline notification yet, a first sweep that runs
    to its end creates the notification, the existence check is true from
    then on, and the sweeps after it leave exactly one.  A task whose
    assignee does not resolve gets none, however many sweeps run. *)
Theorem deadline_alert_at_most_once env now nows w :
  (forall tid,
     let before := deadline_count (w_db w) tid in
     let after := deadline_count (w_db (run_sweeps env nows w)) tid in
     after = before \/ (before = 0%nat /\ after = 1%nat)) /\
  (forall t,
     In t (tasks (w_db w)) ->
     is_overdue now t = true ->
     resolvable (w_db w) t ->
     deadline_count (w_db w) (t_id t) = 0%nat ->
     fst (Notifications.check_overdue_tasks env now w) = Ok tt ->
     exists_notification_by_task_type
       (w_db (snd (Notifications.check_overdue_tasks env now w))) (t_id t) "deadline"
     = true /\
     deadline_count (w_db (run_sweeps env (now :: nows) w)) (t_id t) = 1%nat) /\
  (forall tid,
     (forall t, In t (tasks (w_db w)) -> t_id t = tid -> ~ resolvable (w_db w) t) ->
     deadline_count (w_db (run_sweeps env nows w)) tid = deadline_count (w_db w) tid).
Proof.
  split; [|split].
  - intros tid. cbv zeta.
    destruct (run_sweeps_invariant env nows w) as [_ [_ Hr]].
    destruct (Hr tid) as [E|[E1 [E2 _]]]; auto.
  - intros t Hin Ho Hres H0 Hok.
    destruct (sweep_once env now w) as [_ [_ [Hr Hp]]].
    specialize (Hp Hok t Hin Ho Hres).
    assert (H1 : deadline_count
                   (w_db (snd (Notifications.check_overdue_tasks env now w))) (t_id t)
                 = 1%nat).
    { destruct (Hr (t_id t)) as [E|[_ [E _]]]; [lia | exact E]. }
    split.
    + rewrite exists_deadline_count, H1. reflexivity.
    + cbn [run_sweeps fold_left].
      fold (run_sweeps env nows (snd (Notifications.check_overdue_tasks env now w))).
      destruct (run_sweeps_invariant env nows
                  (snd (Notifications.check_overdue_tasks env now w))) as [_ [_ Hr']].
      destruct (Hr' (t_id t)) as [E|[E _]]; lia.
  - intros tid Hnone.
    destruct (run_sweeps_invariant env nows w) as [_ [_ Hr]].
    destruct (Hr tid) as [E|[_ [_ [t [Hin [Hid Hres]]]]]]; [exact E|].
    now elim (Hnone t Hin Hid).
Qed.

Lemma deadline_alert_at_most_once_witness :
  let w := world_of (db_of [task1 New None; task2] []) in
  exists_notification_by_task_type
    (w_db (snd (Notifications.check_overdue_tasks env_ok 200000 w))) 1 "deadline" = true /\
  deadline_count (w_db (run_sweeps env_ok [200000; 200300; 200600] w)) 1 = 1%nat.
Proof.
  apply (proj1 (proj2 (deadline_alert_at_most_once env_ok 200000 [200300; 200600]
                         (world_of (db_of [task1 New None; task2] []))))
           (task1 New None)).
  - simpl. left. reflexivity.
  - reflexivity.
  - exists worker1. split; [reflexivity | simpl; lia].
  - reflexivity.
  - reflexivity.
Defined.

Lemma joined_user_some d a u :
  joined_user d a = Some u -> a = Some (u_id u) /\ In u (users d).
Proof.
  destruct a as [i|]; [|discriminate]. simpl. unfold user_by_id. intros H.
  apply find_some in H. destruct H as [Hin E]. apply Z.eqb_eq in E. subst i. auto.
Qed.

(** What one round of the sweep's loop sends: nothing, or one message, to
    the Telegram id of the round's assignee, for a task that had no
    deadline notification and has one now. *)
Lemma alert_overdue_log env now d1 t w :
  let out := Notifications.alert_overdue env now (task_row_tg d1 t) w in
  w_log (snd out) = w_log w \/
  (exists u,
     joined_user d1 (t_assignee_id t) = Some u /\ u_telegram_id u <> 0 /\
     deadline_count (w_db w) (t_id t) = 0%nat /\
     (1 <= deadline_count (w_db (snd out)) (t_id t))%nat /\
     w_log (snd out)
     = w_log w ++
       [ {| d_chat := u_telegram_id u;
            d_text := Notifications.deadline_message env (task_row_tg d1 t);
            d_ok := telegram env (List.length (w_log w)) |} ]).
Proof.
  cbv zeta. unfold Notifications.alert_overdue.
  cbv [bind lift query ret write write_ret].
  change (get "id" (task_row_tg d1 t)) with (Ok (VInt (t_id t))).
  change (get "assignee_telegram_id" (task_row_tg d1 t))
    with (Ok (opt_int (option_map u_telegram_id (joined_user d1 (t_assignee_id t))))).
  cbn [rbind as_int]. rewrite exists_deadline_count.
  destruct (Nat.eqb (deadline_count (w_db w) (t_id t)) 0) eqn:Ec; cbn [negb];
    [|left; reflexivity].
  apply Nat.eqb_eq in Ec.
  destruct (truthy (opt_int (option_map u_telegram_id (joined_user d1 (t_assignee_id t)))))
    eqn:Et; [|left; reflexivity].
  pose proof (proj1 (truthy_telegram_id _ _) Et) as [u [Hj Hu]].
  rewrite Hj. cbn [option_map opt_int].
  destruct (get_user_by_telegram_id (w_db w) (VInt (u_telegram_id u))) as [assignee|] eqn:Eg;
    [|left; reflexivity].
  assert (Ha : exists u', assignee = user_row u').
  { unfold get_user_by_telegram_id in Eg.
    destruct (find _ (users (w_db w))) as [u'|]; [|discriminate].
    injection Eg as <-. now exists u'. }
  destruct Ha as [u' ->].
  change (get "id" (user_row u')) with (Ok (VInt (u_id u'))).
  cbn [rbind as_int].
  set (message := Notifications.deadline_message env (task_row_tg d1 t)).
  set (at_ := get_current_tashkent_time (config env) now).
  pose proof (deadline_count_create now (u_id u') (t_id t) message at_ (w_db w) (t_id t)) as Hc.
  rewrite Z.eqb_refl in Hc.
  destruct (create_notification now (u_id u') (t_id t) "deadline" message at_ (w_db w))
    as [created d2] eqn:Ecr.
  assert (Hcreated : created = Ok (next_id n_id (notifications (w_db w)))).
  { unfold create_notification in Ecr. cbn in Ecr. now injection Ecr as <- _. }
  subst created. cbn [snd] in Hc.
  unfold Notifications.send_notification. cbn [w_bot w_db w_log].
  destruct (negb (w_bot w)); [left; reflexivity|].
  right. exists u. split; [reflexivity|]. split; [exact Hu|]. split; [exact Ec|].
  destruct (telegram env (List.length (w_log w))); cbn [fst snd w_db w_log];
    rewrite ?deadline_count_mark; (split; [lia | reflexivity]).
Qed.

Lemma sweep_loop_log env now d1 L : forall w,
  let out := for_each (Notifications.alert_overdue env now) (map (task_row_tg d1) L) w in
  exists tail,
    w_log (snd out) = w_log w ++ tail /\
    forall e, In e tail ->
      exists t u,
        In t L /\ joined_user d1 (t_assignee_id t) = Some u /\ u_telegram_id u <> 0 /\
        deadline_count (w_db w) (t_id t) = 0%nat /\
        (1 <= deadline_count (w_db (snd out)) (t_id t))%nat /\
        d_chat e = u_telegram_id u /\
        d_text e = Notifications.deadline_message env (task_row_tg d1 t).
Proof.
  induction L as [|x L IH]; intros w; cbv zeta.
  - exists []. cbn. rewrite app_nil_r. split; [reflexivity | intros e []].
  - cbn [map for_each]. unfold bind.
    pose proof (alert_overdue_log env now d1 x w) as Hl. cbv zeta in Hl.
    pose proof (alert_overdue_round env now d1 x w) as Hx. cbv zeta in Hx.
    destruct Hx as [_ [_ [Hr _]]].
    destruct (Notifications.alert_overdue env now (task_row_tg d1 x) w) as [[[]|e0] w1];
      cbn [fst snd] in *.
    + destruct (IH w1) as [tail [Ht He]]. cbv zeta in Ht, He.
      assert (Hmono : forall tid, deadline_count (w_db w1) tid = 0%nat ->
                                  deadline_count (w_db w) tid = 0%nat).
      { intros tid H0. destruct Hr as [H|[_ [_ H]]]; rewrite H in H0; lia. }
      assert (Hup : forall tid,
                (1 <= deadline_count (w_db w1) tid)%nat ->
                (1 <= deadline_count
                        (w_db (snd (for_each (Notifications.alert_overdue env now)
                                      (map (task_row_tg d1) L) w1))) tid)%nat).
      { intros tid H1.
        destruct (sweep_loop env now d1 L w1) as [_ [_ [Hr' _]]]. cbv zeta in Hr'.
        destruct (Hr' tid) as [E|[E _]]; lia. }
      destruct Hl as [Hl|[u [Hj [Hu [Hc [H1 Hl]]]]]].
      * exists tail. rewrite Ht, Hl. split; [reflexivity|].
        intros e Hin. destruct (He e Hin) as [t [u [H2 [H3 [H4 [H5 H6]]]]]].
        exists t, u. split; [now right|]. split; [exact H3|]. split; [exact H4|].
        split; [now apply Hmono | exact H6].
      * eexists. rewrite Ht, Hl, <- app_assoc. split; [reflexivity|].
        intros e [<-|Hin].
        -- exists x, u. split; [now left|]. split; [exact Hj|]. split; [exact Hu|].
           split; [exact Hc|]. split; [now apply Hup | split; reflexivity].
        -- destruct (He e Hin) as [t [u' [H2 [H3 [H4 [H5 H6]]]]]].
           exists t, u'. split; [now right|]. split; [exact H3|]. split; [exact H4|].
           split; [now apply Hmono | exact H6].
    + destruct Hl as [Hl|[u [Hj [Hu [Hc [H1 Hl]]]]]].
      * exists []. rewrite Hl, app_nil_r. split; [reflexivity | intros e []].
      * eexists. split; [exact Hl|]. intros e [<-|[]].
        exists x, u. split; [now left|]. auto 8.
Qed.

(** The messages of one sweep: each goes to the Telegram id of the
    assignee of a task that is past its deadline and open, for which the
    sweep stored the first deadline notification. *)
Lemma sweep_once_log env now w :
  let out := Notifications.check_overdue_tasks env now w in
  exists tail,
    w_log (snd out) = w_log w ++ tail /\
    forall e, In e tail ->
      exists t u,
        In t (tasks (w_db w)) /\ is_overdue now t = true /\
        t_assignee_id t = Some (u_id u) /\ In u (users (w_db w)) /\
        u_telegram_id u <> 0 /\
        deadline_count (w_db w) (t_id t) = 0%nat /\
        deadline_count (w_db (snd out)) (t_id t) = 1%nat /\
        d_chat e = u_telegram_id u /\
        d_text e = Notifications.deadline_message env
                     (task_row_tg (update_overdue_tasks now (w_db w))
                        (flip_overdue now t)).
Proof.
  cbv zeta.
  pose proof (sweep_once env now w) as Hs. cbv zeta in Hs. destruct Hs as [_ [_ [Hr _]]].
  revert Hr.
  unfold Notifications.check_overdue_tasks. cbv [bind write query]. cbn [w_db].
  set (d1 := update_overdue_tasks now (w_db w)).
  set (w0 := {| w_db := d1; w_bot := w_bot w; w_log := w_log w |}).
  unfold get_overdue_tasks. intros Hr.
  destruct (sweep_loop_log env now d1 (filter (is_overdue now) (tasks d1)) w0)
    as [tail [Ht He]]. cbv zeta in Ht, He.
  exists tail. split; [exact Ht|].
  intros e Hin. destruct (He e Hin) as [t' [u [H1 [H2 [H3 [H4 [H5 [H6 H7]]]]]]]].
  apply filter_In in H1. destruct H1 as [H1 Ho].
  unfold d1 in H1. rewrite update_overdue_tasks_tasks in H1.
  apply in_map_iff in H1. destruct H1 as [t [<- H1]].
  rewrite flip_overdue_is_overdue in Ho.
  pose proof (flip_overdue_key now t) as Hk. injection Hk as Hk1 Hk2.
  rewrite Hk1 in H4, H5. rewrite Hk2 in H2.
  destruct (joined_user_some d1 _ u H2) as [Ha Hu].
  exists t, u. repeat split; try assumption.
  - change (deadline_count (w_db w0) (t_id t)) with (deadline_count (w_db w) (t_id t)) in H4.
    destruct (Hr (t_id t)) as [E|[_ [E _]]]; [|exact E].
    rewrite E in H5. change (deadline_count (w_db w0) (t_id t))
      with (deadline_count (w_db w) (t_id t)) in H4. lia.
Qed.

(** C9.  The sweep turns every task past its deadline that is new or in
    progress into an overdue one, assigned or not.  A deadline notification
    appears only for an overdue task whose assignee is set and is the id of
    a user (with a Telegram id), and a message goes out only for such a
    task: every message of the sweep is addressed to the Telegram id of the
    assignee of an overdue task for which this sweep stored the first
    deadline notification, and carries the text of that task.  For a task id
    whose tasks have no assignee, or one that is no user's id, no number of
    sweeps creates any. *)
Theorem deadline_alert_only_with_assignee env now nows w tid :
  let w1 := snd (Notifications.check_overdue_tasks env now w) in
  (forall t, In t (tasks (w_db w)) -> becomes_overdue now t = true ->
     exists t', In t' (tasks (w_db w1)) /\ t_id t' = t_id t /\
                t_assignee_id t' = t_assignee_id t /\ t_status t' = Overdue) /\
  (deadline_count (w_db w1) tid <> deadline_count (w_db w) tid ->
     exists t u, In t (tasks (w_db w)) /\ t_id t = tid /\ is_overdue now t = true /\
                 t_assignee_id t = Some (u_id u) /\ In u (users (w_db w)) /\
                 u_telegram_id u <> 0) /\
  (exists tail,
     w_log w1 = w_log w ++ tail /\
     forall e, In e tail ->
       exists t u,
         In t (tasks (w_db w)) /\ is_overdue now t = true /\
         t_assignee_id t = Some (u_id u) /\ In u (users (w_db w)) /\
         u_telegram_id u <> 0 /\
         deadline_count (w_db w) (t_id t) = 0%nat /\
         deadline_count (w_db w1) (t_id t) = 1%nat /\
         d_chat e = u_telegram_id u /\
         d_text e = Notifications.deadline_message env
                      (task_row_tg (update_overdue_tasks now (w_db w))
                         (flip_overdue now t))) /\
  ((forall t, In t (tasks (w_db w)) -> t_id t = tid ->
              joined_user (w_db w) (t_assignee_id t) = None) ->
     deadline_count (w_db (run_sweeps env nows w)) tid = deadline_count (w_db w) tid).
Proof.
  cbv zeta. destruct (sweep_once env now w) as [Hu [Ht [Hr _]]].
  split; [|split; [|split]].
  - intros t Hin Hb. exists (flip_overdue now t). split.
    + rewrite Ht. now apply in_map.
    + unfold flip_overdue. rewrite Hb. simpl. auto.
  - intros Hne. destruct (Hr tid) as [E|[_ [_ [t [Hin [Hid [Ho [u [Hj Hg]]]]]]]]];
      [contradiction|].
    destruct (joined_user_some _ _ _ Hj) as [Ha Hin'].
    exists t, u. repeat split; assumption.
  - exact (sweep_once_log env now w).
  - intros Hnone.
    destruct (run_sweeps_invariant env nows w) as [_ [_ Hr']].
    destruct (Hr' tid) as [E|[_ [_ [t [Hin [Hid [u [Hj _]]]]]]]]; [exact E|].
    rewrite (Hnone t Hin Hid) in Hj. discriminate.
Qed.

Lemma deadline_alert_only_with_assignee_witness :
  deadline_count
    (w_db (run_sweeps env_ok [200000; 200300]
             (world_of (db_of [task1 New None; task2] [])))) 2
  = deadline_count (w_db (world_of (db_of [task1 New None; task2] []))) 2.
Proof.
  apply (deadline_alert_only_with_assignee env_ok 200000 [200000; 200300]
           (world_of (db_of [task1 New None; task2] [])) 2).
  intros t [<-|[<-|[]]]; simpl; [discriminate | reflexivity].
Defined.

(** One sweep over an assigned and an unassigned overdue task: both become
    overdue, and the only message goes to the assignee of the first. *)
Example sweep_messages_the_assignee_only :
  let w1 := snd (Notifications.check_overdue_tasks env_ok 200000
                   (world_of (db_of [task1 New None; task2] []))) in
  map t_status (tasks (w_db w1)) = [Overdue; Overdue] /\
  map d_chat (w_log w1) = [u_telegram_id worker1] /\
  map n_task_id (notifications (w_db w1)) = [1].
Proof. cbv zeta. repeat split; reflexivity. Qed.

(** ** Reminder scheduling *)

(** The rows of [get_all_tasks] have no [assignee_telegram_id] column, so
    the first line of [create_deadline_reminder] raises. *)
Lemma create_deadline_reminder_key_error env now d t hours_before reminder_time w :
  Notifications.create_deadline_reminder env now (task_row d t) hours_before
    reminder_time w
  = (Raise (KeyError "assignee_telegram_id"), w).
Proof. reflexivity. Qed.

Lemma for_each_fixed {A} (body : A -> M unit) (xs : list A) :
  (forall x w, In x xs -> snd (body x w) = w) ->
  forall w, snd (for_each body xs w) = w.
Proof.
  induction xs as [|x xs IH]; intros H w; [reflexivity|].
  cbn [for_each]. unfold bind.
  pose proof (H x w (or_introl eq_refl)) as Hx.
  destruct (body x w) as [[[]|e] w1]; cbn [snd] in Hx; subst w1.
  - apply IH. intros y w' Hy. apply H. now right.
  - reflexivity.
Qed.

Lemma remind_task_fixed env now d t w :
  snd (Notifications.remind_task env now (task_row d t) w) = w.
Proof.
  unfold Notifications.remind_task. cbv [bind lift ret].
  change (get "deadline" (task_row d t)) with (Ok (opt_time (t_deadline t))).
  change (get "assignee_id" (task_row d t)) with (Ok (opt_int (t_assignee_id t))).
  cbv beta iota.
  destruct (t_deadline t) as [dl|]; cbn [opt_time truthy negb]; [|reflexivity].
  destruct (negb (truthy (opt_int (t_assignee_id t)))); [reflexivity|].
  cbn [as_time].
  apply for_each_fixed. intros h w' _.
  destruct ((now <? dl - h * 3600) && (dl - h * 3600 <=? now + 3600)); reflexivity.
Qed.

Lemma schedule_deadline_reminders_fixed env now w :
  snd (Notifications.schedule_deadline_reminders env now w) = w.
Proof.
  unfold Notifications.schedule_deadline_reminders. cbv [bind query].
  unfold get_all_tasks. rewrite <- map_app.
  apply for_each_fixed. intros row w' Hin.
  apply in_map_iff in Hin. destruct Hin as [t [<- _]].
  apply remind_task_fixed.
Qed.

(** C6 (code defect).  The reminder phase never creates a notification: it
    leaves every world as it found it.  On a new task of [worker1] whose
    24-hour reminder falls into the coming hour the phase stops with
    [KeyError('assignee_telegram_id')], on the first run and on the second,
    and no reminder exists afterwards.  On the row [get_task_by_id] returns
    for the same task, which has the column, two calls of
    [create_deadline_reminder] create one reminder and the second call
    finds it. *)
Theorem reminders_are_never_created :
  (forall env now w, snd (Notifications.schedule_deadline_reminders env now w) = w) /\
  let d := db_of [task1 New None] [] in
  let w := world_of d in
  let now := 11800 in
  let reminder_time := 100000 - 24 * 3600 in
  (now < reminder_time <= now + 3600) /\
  Notifications.schedule_deadline_reminders env_ok now w
  = (Raise (KeyError "assignee_telegram_id"), w) /\
  reminder_count
    (w_db (snd (Notifications.schedule_deadline_reminders env_ok (now + 300)
                  (snd (Notifications.schedule_deadline_reminders env_ok now w))))) 1
  = 0%nat /\
  let row := task_row_tg d (task1 New None) in
  let w1 := snd (Notifications.create_deadline_reminder env_ok now row 24 reminder_time w) in
  let w2 := snd (Notifications.create_deadline_reminder env_ok (now + 300) row 24
                   reminder_time w1) in
  reminder_count (w_db w1) 1 = 1%nat /\ reminder_count (w_db w2) 1 = 1%nat.
Proof.
  split; [exact schedule_deadline_reminders_fixed|].
  cbv zeta. split; [lia|]. split; [reflexivity|]. split; [reflexivity|].
  split; vm_compute; reflexivity.
Qed.

(* ===================================================================== *)
(** * Further properties *)

(** ** Printing and reading task ids *)

Lemma digits_value_uint (d : Decimal.uint) : forall acc,
  digits_value acc (DecimalString.NilEmpty.string_of_uint d) = Some (uint_value acc d).
Proof.
  induction d; intros acc; simpl; try reflexivity; rewrite <- IHd; reflexivity.
Qed.

Lemma of_uint_acc_value (d : Decimal.uint) : forall acc,
  Z.pos (Pos.of_uint_acc d acc) = uint_value (Z.pos acc) d.
Proof.
  induction d; intros acc; cbn [Pos.of_uint_acc uint_value]; try reflexivity;
    rewrite IHd; f_equal; lia.
Qed.

Lemma of_uint_value (d : Decimal.uint) : Z.of_uint d = uint_value 0 d.
Proof.
  unfold Z.of_uint.
  induction d; cbn [Pos.of_uint uint_value]; try reflexivity; try exact IHd;
    cbn [Z.of_N]; rewrite of_uint_acc_value; reflexivity.
Qed.

(** The digits of a positive number: a non-empty string that starts with a
    digit. *)
Lemma string_of_pos_digits (p : positive) :
  exists a rest,
    DecimalString.NilZero.string_of_uint (Pos.to_uint p) = String a rest /\
    DecimalString.NilEmpty.string_of_uint (Pos.to_uint p) = String a rest /\
    a <> "-"%char /\ a <> "+"%char.
Proof.
  pose proof (DecimalPos.Unsigned.to_uint_nonnil p) as Hn.
  destruct (Pos.to_uint p); [now elim Hn| ..]; simpl;
    eexists; eexists; (split; [reflexivity|]); (split; [reflexivity|]);
    split; discriminate.
Qed.

(** [int(str(n)) == n]. *)
Lemma int_of_str_of_int (z : Z) : int_of_str (str_of_int z) = Ok z.
Proof.
  unfold str_of_int.
  destruct z as [|p|p]; [reflexivity| |].
  - simpl Z.to_int. cbn [DecimalString.NilZero.string_of_int].
    destruct (string_of_pos_digits p) as [a [rest [E1 [E2 [Hm Hp]]]]].
    rewrite E1. unfold int_of_str.
    assert (Ed : digits_value 0 (String a rest) = Some (Z.pos p)).
    { rewrite <- E2, digits_value_uint, <- of_uint_value.
      change (Z.of_uint (Pos.to_uint p)) with (Z.of_int (Z.to_int (Z.pos p))).
      now rewrite DecimalZ.of_to. }
    destruct (Ascii.ascii_dec a "-"%char) as [->|_]; [now elim Hm|].
    destruct (Ascii.ascii_dec a "+"%char) as [->|_]; [now elim Hp|].
    assert (Em : forall (A : Type) (x y z0 : A),
               match String a rest with
               | String "-"%char _ => x
               | String "+"%char _ => y
               | _ => z0
               end = z0).
    { intros A x y z0.
      destruct a as [[] [] [] [] [] [] [] []]; try reflexivity;
        [now elim Hm | now elim Hp]. }
    rewrite Em, Ed. reflexivity.
  - simpl Z.to_int. cbn [DecimalString.NilZero.string_of_int].
    destruct (string_of_pos_digits p) as [a [rest [E1 [E2 _]]]].
    rewrite E1. unfold int_of_str. cbn [option_map].
    assert (Ed : digits_value 0 (String a rest) = Some (Z.pos p)).
    { rewrite <- E2, digits_value_uint, <- of_uint_value.
      change (Z.of_uint (Pos.to_uint p)) with (Z.of_int (Z.to_int (Z.pos p))).
      now rewrite DecimalZ.of_to. }
    rewrite Ed. reflexivity.
Qed.

Lemma uint_chars (d : Decimal.uint) (c : ascii) :
  occurs c (DecimalString.NilEmpty.string_of_uint d) = true ->
  occurs c "0123456789" = true.
Proof.
  induction d; cbn [DecimalString.NilEmpty.string_of_uint occurs];
    [discriminate|..]; intros H;
    (apply orb_true_iff in H; destruct H as [H|H];
     [apply Ascii.eqb_eq in H; subst c; reflexivity | apply IHd in H; exact H]).
Qed.

(** [str(n)] is made of digits and, for a negative [n], a leading minus. *)
Lemma str_of_int_chars (z : Z) (c : ascii) :
  occurs c (str_of_int z) = true -> occurs c "-0123456789" = true.
Proof.
  unfold str_of_int. destruct z as [|p|p].
  - change (DecimalString.NilZero.string_of_int (Z.to_int 0)) with "0".
    cbn [occurs]. intros H. rewrite orb_false_r in H. apply Ascii.eqb_eq in H.
    subst c. reflexivity.
  - simpl Z.to_int. cbn [DecimalString.NilZero.string_of_int].
    destruct (string_of_pos_digits p) as [a [rest [E1 [E2 _]]]].
    rewrite E1, <- E2. intros H. apply uint_chars in H.
    change (occurs c "-0123456789") with (Ascii.eqb "-" c || occurs c "0123456789").
    rewrite H. apply orb_true_r.
  - simpl Z.to_int. cbn [DecimalString.NilZero.string_of_int].
    destruct (string_of_pos_digits p) as [a [rest [E1 [E2 _]]]].
    rewrite E1, <- E2. intros H. cbn [occurs] in H.
    change (occurs c "-0123456789") with (Ascii.eqb "-" c || occurs c "0123456789").
    apply orb_true_iff in H. destruct H as [H|H]; [now rewrite H|].
    apply uint_chars in H. rewrite H. apply orb_true_r.
Qed.

Lemma str_of_int_no_underscore (z : Z) : occurs "_" (str_of_int z) = false.
Proof.
  destruct (occurs "_" (str_of_int z)) eqn:E; [|reflexivity].
  apply str_of_int_chars in E. discriminate.
Qed.

(** [(s + c + rest).split(c)] when [c] is not in [s]. *)
Lemma split_app (c : ascii) (s rest : string) :
  occurs c s = false ->
  split c (s ++ String c rest)%string = s :: split c rest.
Proof.
  induction s as [|a s IH]; simpl; intros H.
  - now rewrite Ascii.eqb_refl.
  - apply orb_false_iff in H. destruct H as [Ha Hs].
    rewrite Ha, (IH Hs). reflexivity.
Qed.

Lemma split_none (c : ascii) (s : string) :
  occurs c s = false -> split c s = [s].
Proof.
  induction s as [|a s IH]; simpl; intros H; [reflexivity|].
  apply orb_false_iff in H. destruct H as [Ha Hs].
  rewrite Ha, (IH Hs). reflexivity.
Qed.

Lemma split_nonempty (c : ascii) (s : string) : split c s <> [].
Proof.
  destruct s as [|a s]; simpl; [discriminate|].
  destruct (Ascii.eqb a c); [discriminate|].
  destruct (split c s); discriminate.
Qed.

Lemma task_status_button_parts (task_id : Z) (status : string) :
  split "_" (Bot.task_status_button task_id status)
  = "task" :: "status" :: str_of_int task_id :: split "_" status.
Proof.
  unfold Bot.task_status_button.
  change ("task_status_" ++ str_of_int task_id ++ "_" ++ status)%string
    with ("task" ++ String "_" ("status" ++ String "_"
            (str_of_int task_id ++ String "_" status)))%string.
  rewrite split_app by reflexivity. rewrite split_app by reflexivity.
  rewrite split_app by apply str_of_int_no_underscore. reflexivity.
Qed.

Lemma parse_task_status_plain (task_id : Z) (status : string) :
  occurs "_" status = false ->
  Bot.parse_task_status (Bot.task_status_button task_id status) = Ok (task_id, status).
Proof.
  intros H. unfold Bot.parse_task_status. rewrite !task_status_button_parts.
  cbn [index nth_error rbind]. rewrite int_of_str_of_int. cbn [rbind].
  rewrite (split_none _ _ H). reflexivity.
Qed.

Lemma parse_task_status_in_progress (task_id : Z) :
  Bot.parse_task_status (Bot.task_status_button task_id "in_progress")
  = Ok (task_id, "in").
Proof.
  unfold Bot.parse_task_status. rewrite !task_status_button_parts.
  cbn [index nth_error rbind]. rewrite int_of_str_of_int. reflexivity.
Qed.

(** X1.  The callback data of a status button is read back as the task id
    it was made from and the part of the status before its first
    underscore: the whole status for [new], [completed] and [cancelled],
    but [in] for [in_progress]. *)
Theorem parse_task_status_button (task_id : Z) (status : string) :
  (occurs "_" status = false ->
   Bot.parse_task_status (Bot.task_status_button task_id status) = Ok (task_id, status)) /\
  Bot.parse_task_status (Bot.task_status_button task_id "in_progress")
  = Ok (task_id, "in").
Proof.
  split; [apply parse_task_status_plain | apply parse_task_status_in_progress].
Qed.

Lemma parse_task_status_button_witness :
  Bot.parse_task_status (Bot.task_status_button 17 "completed") = Ok (17, "completed").
Proof.
  apply (parse_task_status_button 17 "completed"). reflexivity.
Defined.

(** ** The status handler, on any callback data *)

Lemma world_eta (w : World) :
  {| w_db := w_db w; w_bot := w_bot w; w_log := w_log w |} = w.
Proof. destruct w; reflexivity. Qed.

Lemma update_task_status_refused now tid ns uid d :
  fst (update_task_status now tid ns uid d) = false ->
  update_task_status now tid ns uid d = (false, d).
Proof.
  unfold update_task_status.
  destruct (find _ (tasks d)); [|reflexivity].
  destruct (status_of_str ns); [discriminate | reflexivity].
Qed.

Lemma update_task_status_accepted now tid ns uid d :
  fst (update_task_status now tid ns uid d) = true ->
  exists t s, task_of d tid = Some t /\ status_of_str ns = Some s.
Proof.
  unfold update_task_status, task_of.
  destruct (find _ (tasks d)) as [t|]; [|discriminate].
  destruct (status_of_str ns) as [s|]; [|discriminate].
  intros _. now exists t, s.
Qed.

Lemma change_task_status_cases env now data (db_user : Row) w :
  let out := Bot.change_task_status env now data db_user w in
  (fst out = Ok Bot.StatusChanged /\
   exists tid ns t s,
     Bot.parse_task_status data = Ok (tid, ns) /\
     task_of (w_db w) tid = Some t /\ status_of_str ns = Some s) \/
  (fst out <> Ok Bot.StatusChanged /\ snd out = w).
Proof.
  cbv zeta. unfold Bot.change_task_status.
  cbv [bind lift query ret write_ret].
  destruct (Bot.parse_task_status data) as [[tid ns]|e] eqn:Ep;
    [|right; split; [discriminate | reflexivity]].
  cbv beta iota. unfold get_task_by_id.
  destruct (find (fun t => t_id t =? tid) (tasks (w_db w))) as [t|] eqn:Et;
    cbn [option_map]; [|right; split; [discriminate | reflexivity]].
  change (get "assignee_id" (task_row_tg (w_db w) t)) with (Ok (opt_int (t_assignee_id t))).
  change (get "status" (task_row_tg (w_db w) t)) with (Ok (VStr (status_str (t_status t)))).
  change (get "creator_id" (task_row_tg (w_db w) t)) with (Ok (VInt (t_creator_id t))).
  cbv beta iota.
  destruct (get "id" db_user) as [user_id|e];
    [|right; split; [discriminate | reflexivity]].
  destruct (if negb (value_eqb (opt_int (t_assignee_id t)) user_id)
            then get "role" db_user else Ok VNone) as [role|e];
    [|right; split; [discriminate | reflexivity]].
  destruct (negb (value_eqb (opt_int (t_assignee_id t)) user_id)
            && negb (value_eqb role (VStr "admin")));
    [right; split; [discriminate | reflexivity]|].
  destruct (as_int user_id) as [actor|e];
    [|right; split; [discriminate | reflexivity]].
  destruct (update_task_status now tid ns actor (w_db w)) as [[|] d1] eqn:Eu.
  - left.
    destruct (update_task_status_accepted now tid ns actor (w_db w)) as [t' [s [Ht' Hs]]].
    { now rewrite Eu. }
    split; [|exists tid, ns, t, s; auto].
    destruct (negb (value_eqb (VInt (t_creator_id t)) user_id)); [|reflexivity].
    match goal with |- context [try_except ?c ?w0] =>
      pose proof (try_except_ok c w0) as Hok;
      destruct (try_except c w0) as [[[]|e] w1] end; [reflexivity | discriminate].
  - right. split; [discriminate|].
    pose proof (update_task_status_refused now tid ns actor (w_db w)) as Hr.
    rewrite Eu in Hr. injection (Hr eq_refl) as ->. apply world_eta.
Qed.

(** X2.  On any callback data of printable ASCII characters without
    blanks (the data of every button is such, and there [int_of_str] is
    Python's [int]) and for any user of the table, the status handler
    either answers that the status was changed, and then the data named an
    existing task and one of the five statuses, or leaves the world exactly
    as it was (also when it raises on data it cannot read). *)
Theorem change_task_status_all_or_nothing env now data (u : User) w :
  graphic data = true ->
  let out := Bot.change_task_status env now data (user_row u) w in
  (fst out = Ok Bot.StatusChanged /\
   exists tid ns t s,
     Bot.parse_task_status data = Ok (tid, ns) /\
     task_of (w_db w) tid = Some t /\ status_of_str ns = Some s) \/
  (fst out <> Ok Bot.StatusChanged /\ snd out = w).
Proof.
  intros _. apply change_task_status_cases.
Qed.

Lemma change_task_status_all_or_nothing_witness :
  let w := world_of (db_of [task1 New None] []) in
  let out := Bot.change_task_status env_ok 500 "task_status_1_completed"
               (user_row worker1) w in
  (fst out = Ok Bot.StatusChanged /\
   exists tid ns t s,
     Bot.parse_task_status "task_status_1_completed" = Ok (tid, ns) /\
     task_of (w_db w) tid = Some t /\ status_of_str ns = Some s) \/
  (fst out <> Ok Bot.StatusChanged /\ snd out = w).
Proof.
  apply (change_task_status_all_or_nothing env_ok 500 "task_status_1_completed"
           worker1 (world_of (db_of [task1 New None] []))).
  reflexivity.
Defined.

(** X3.  The "take to work" button of any task does nothing: whoever
    presses it, the handler does not report a change and the world stays
    as it was. *)
Theorem take_to_work_button_never_works env now task_id (db_user : Row) w :
  let out := Bot.change_task_status env now
               (Bot.task_status_button task_id "in_progress") db_user w in
  fst out <> Ok Bot.StatusChanged /\ snd out = w.
Proof.
  cbv zeta.
  destruct (change_task_status_cases env now
              (Bot.task_status_button task_id "in_progress") db_user w)
    as [[_ [tid [ns [t [s [Hp [_ Hs]]]]]]]|H]; [|exact H].
  rewrite parse_task_status_in_progress in Hp.
  injection Hp as <- <-. discriminate.
Qed.

Lemma task_of_update_task_status now tid ns uid d t s :
  task_of d tid = Some t ->
  status_of_str ns = Some s ->
  exists t',
    task_of (snd (update_task_status now tid ns uid d)) tid = Some t' /\
    t_status t' = s /\
    t_completed_at t' = (if String.eqb ns "completed" then Some now else None) /\
    t_assignee_id t' = t_assignee_id t.
Proof.
  intros Ht Hs. unfold update_task_status. unfold task_of in Ht. rewrite Ht, Hs.
  cbn [snd]. rewrite task_of_add_task_history, task_of_update_task by reflexivity.
  unfold task_of. rewrite Ht. cbn [option_map]. eexists. repeat split.
Qed.

(** X4.  The card of a new or in-progress task shows its assignee a "done"
    button; when the assignee presses it the handler reports the change
    and the task is completed, with [completed_at] the instant of the
    press. *)
Theorem done_button_completes_task env now w (u : User) (t : Task) :
  task_of (w_db w) (t_id t) = Some t ->
  t_assignee_id t = Some (u_id u) ->
  t_status t = New \/ t_status t = InProgress ->
  let data := Bot.task_status_button (t_id t) "completed" in
  let out := Bot.change_task_status env now data (user_row u) w in
  (exists keyboard,
     Bot.create_task_detail_keyboard (task_row_tg (w_db w) t) (role_str (u_role u))
       (VInt (u_id u)) = Ok keyboard /\ In [data] keyboard) /\
  fst out = Ok Bot.StatusChanged /\
  exists t', task_of (w_db (snd out)) (t_id t) = Some t' /\
             t_status t' = Completed /\ t_completed_at t' = Some now.
Proof.
  intros Ht Ha Hst. cbv zeta. split.
  - unfold Bot.create_task_detail_keyboard.
    change (get "assignee_id" (task_row_tg (w_db w) t)) with (Ok (opt_int (t_assignee_id t))).
    change (get "id" (task_row_tg (w_db w) t)) with (Ok (VInt (t_id t))).
    change (get "status" (task_row_tg (w_db w) t)) with (Ok (VStr (status_str (t_status t)))).
    cbn [rbind as_int]. rewrite (proj2 (assignee_eqb _ _) Ha).
    eexists. split; [reflexivity|].
    apply in_or_app. left.
    destruct Hst as [-> | ->]; cbn; auto.
  - assert (Hm : may_change u t = true).
    { unfold may_change. rewrite (proj2 (assignee_eqb _ _) Ha). reflexivity. }
    pose proof (parse_task_status_plain (t_id t) "completed" eq_refl) as Hp.
    destruct (change_task_status_db env now _ u w (t_id t) "completed" t Completed
                Hp Ht Hm eq_refl) as [H1 H2].
    split; [exact H1|]. rewrite H2.
    destruct (task_of_update_task_status now (t_id t) "completed" (u_id u) (w_db w) t
                Completed Ht eq_refl) as [t' [E1 [E2 [E3 _]]]].
    exists t'. auto.
Qed.

Lemma done_button_completes_task_witness :
  let w := world_of (db_of [task1 InProgress None] []) in
  let out := Bot.change_task_status env_ok 700 (Bot.task_status_button 1 "completed")
               (user_row worker1) w in
  fst out = Ok Bot.StatusChanged /\
  exists t', task_of (w_db (snd out)) 1 = Some t' /\
             t_status t' = Completed /\ t_completed_at t' = Some 700.
Proof.
  apply (done_button_completes_task env_ok 700
           (world_of (db_of [task1 InProgress None] [])) worker1
           (task1 InProgress None)).
  - reflexivity.
  - reflexivity.
  - right. reflexivity.
Defined.

(** ** Cancelling and reassigning from the keyboard *)

Lemma confirm_cancel_parts (task_id : Z) :
  split "_" ("confirm_cancel_yes_" ++ str_of_int task_id)%string
  = ["confirm"; "cancel"; "yes"; str_of_int task_id].
Proof.
  change ("confirm_cancel_yes_" ++ str_of_int task_id)%string
    with ("confirm" ++ String "_" ("cancel" ++ String "_"
            ("yes" ++ String "_" (str_of_int task_id))))%string.
  rewrite !split_app by reflexivity.
  rewrite split_none by apply str_of_int_no_underscore. reflexivity.
Qed.

Lemma cancel_task_found now tid uid d t :
  task_of d tid = Some t ->
  fst (cancel_task now tid uid d) = true /\
  status_of (snd (cancel_task now tid uid d)) tid = Some Cancelled.
Proof.
  intros Ht. unfold cancel_task, status_of. unfold task_of in Ht. rewrite Ht.
  cbn [fst snd]. split; [reflexivity|].
  rewrite task_of_add_task_history, task_of_update_task by reflexivity.
  unfold task_of. rewrite Ht. reflexivity.
Qed.

(** X5.  [confirm_cancel_task] does not look at the role: on the data of
    the "yes" button of an existing task it cancels the task for any user,
    a worker included, and logs the change under that user's id. *)
Theorem confirm_cancel_task_any_role now (u : User) w (t : Task) task_id :
  task_of (w_db w) task_id = Some t ->
  let data := ("confirm_cancel_yes_" ++ str_of_int task_id)%string in
  let out := Bot.confirm_cancel_task now data (user_row u) w in
  Bot.button_callback_route data = Bot.ConfirmCancelTask /\
  fst out = Ok true /\
  w_db (snd out) = snd (cancel_task now task_id (u_id u) (w_db w)) /\
  status_of (w_db (snd out)) task_id = Some Cancelled.
Proof.
  intros Ht. cbv zeta. split; [reflexivity|].
  unfold Bot.confirm_cancel_task. rewrite confirm_cancel_parts.
  cbv [bind lift ret write_ret]. cbn [index nth_error rbind].
  cbn [String.eqb Ascii.eqb Bool.eqb negb].
  rewrite int_of_str_of_int.
  change (get "id" (user_row u)) with (Ok (VInt (u_id u))). cbn [rbind as_int].
  destruct (cancel_task_found now task_id (u_id u) (w_db w) t Ht) as [H1 H2].
  destruct (cancel_task now task_id (u_id u) (w_db w)) as [b d1].
  cbn [fst snd] in *. subst b. auto.
Qed.

Lemma confirm_cancel_task_any_role_witness :
  let data := ("confirm_cancel_yes_" ++ str_of_int 1)%string in
  let out := Bot.confirm_cancel_task 500 data (user_row worker2)
               (world_of (db_of [task1 New None] [])) in
  Bot.button_callback_route data = Bot.ConfirmCancelTask /\
  fst out = Ok true /\
  w_db (snd out)
  = snd (cancel_task 500 1 (u_id worker2) (w_db (world_of (db_of [task1 New None] [])))) /\
  status_of (w_db (snd out)) 1 = Some Cancelled.
Proof.
  apply (confirm_cancel_task_any_role 500 worker2
           (world_of (db_of [task1 New None] [])) (task1 New None) 1).
  reflexivity.
Defined.

Lemma prefix_empty (s : string) : String.prefix "" s = true.
Proof. destruct s; reflexivity. Qed.

Lemma assign_to_parts (new_assignee_id task_id : Z) :
  split "_" ("assign_to_" ++ str_of_int new_assignee_id ++ "_" ++ str_of_int task_id)%string
  = ["assign"; "to"; str_of_int new_assignee_id; str_of_int task_id].
Proof.
  change ("assign_to_" ++ str_of_int new_assignee_id ++ "_" ++ str_of_int task_id)%string
    with ("assign" ++ String "_" ("to" ++ String "_"
            (str_of_int new_assignee_id ++ String "_" (str_of_int task_id))))%string.
  rewrite !split_app by (reflexivity || apply str_of_int_no_underscore).
  rewrite split_none by apply str_of_int_no_underscore. reflexivity.
Qed.

Lemma task_of_assign_task now tid new uid d t :
  task_of d tid = Some t ->
  fst (assign_task now tid new uid d) = true /\
  exists t', task_of (snd (assign_task now tid new uid d)) tid = Some t' /\
             t_assignee_id t' = Some new /\ t_status t' = t_status t /\
             t_completed_at t' = t_completed_at t /\ t_deadline t' = t_deadline t /\
             t_id t' = t_id t.
Proof.
  intros Ht. unfold assign_task. unfold task_of in Ht. rewrite Ht.
  cbn [fst snd]. split; [reflexivity|].
  rewrite task_of_add_task_history, task_of_update_task by reflexivity.
  unfold task_of. rewrite Ht. cbn [option_map]. eexists. repeat split.
Qed.

(** X6.  Reassigning from the keyboard: a user who is no admin is refused
    and nothing changes.  For an admin and an existing task the new
    assignee is written before the new assignee is told, and the notice is
    not guarded: the handler ends with the answer or with the
    [TelegramError] of the notice, and in both cases the task stays
    reassigned. *)
Theorem handle_assign_to_user_outcome env now (u : User) w (t : Task)
    new_assignee_id task_id :
  task_of (w_db w) task_id = Some t ->
  let data := ("assign_to_" ++ str_of_int new_assignee_id ++ "_"
               ++ str_of_int task_id)%string in
  let out := Bot.handle_assign_to_user env now data (user_row u) w in
  Bot.button_callback_route data = Bot.HandleAssignToUser /\
  (u_role u <> Admin -> out = (Ok Bot.AssignForbidden, w)) /\
  (u_role u = Admin ->
   (fst out = Ok Bot.Assigned \/ fst out = Raise TelegramError) /\
   w_db (snd out) = snd (assign_task now task_id new_assignee_id (u_id u) (w_db w)) /\
   exists t', task_of (w_db (snd out)) task_id = Some t' /\
              t_assignee_id t' = Some new_assignee_id).
Proof.
  intros Ht. cbv zeta. split.
  { unfold Bot.button_callback_route. cbn. now rewrite prefix_empty. }
  unfold Bot.handle_assign_to_user. rewrite assign_to_parts.
  cbv [bind lift ret write_ret query].
  change (get "role" (user_row u)) with (Ok (VStr (role_str (u_role u)))).
  change (get "id" (user_row u)) with (Ok (VInt (u_id u))).
  cbn [index nth_error rbind as_int]. rewrite !int_of_str_of_int. cbn [rbind].
  split.
  - intros Hr. rewrite (worker_not_admin u Hr). reflexivity.
  - intros Hr. rewrite Hr. cbn [role_str value_eqb String.eqb Ascii.eqb Bool.eqb negb].
    destruct (task_of_assign_task now task_id new_assignee_id (u_id u) (w_db w) t Ht)
      as [Hs [t' [Ht' [Ha _]]]].
    destruct (assign_task now task_id new_assignee_id (u_id u) (w_db w)) as [b d1].
    cbn [fst snd] in *. subst b. cbn [w_db].
    unfold get_task_by_id. unfold task_of in Ht'. rewrite Ht'. cbn [option_map].
    change (get "assignee_telegram_id" (task_row_tg d1 t'))
      with (Ok (opt_int (option_map u_telegram_id (joined_user d1 (t_assignee_id t'))))).
    cbv beta iota.
    destruct (truthy (opt_int (option_map u_telegram_id
                                 (joined_user d1 (t_assignee_id t'))))) eqn:Etr.
    + destruct (joined_user d1 (t_assignee_id t')) as [a|]; [|discriminate].
      cbn [option_map opt_int as_int]. unfold Bot.notify_task_assigned.
      cbv [bind lift]. change (get "id" (task_row_tg d1 t')) with (Ok (VInt (t_id t'))).
      cbv beta iota. unfold Notifications.send_notification. cbn [w_bot w_log w_db].
      destruct (negb (w_bot w)); [|destruct (telegram env (List.length (w_log w)))];
        cbn [fst snd w_db]; (split; [auto|]); (split; [reflexivity|]);
        exists t'; auto.
    + cbn [fst snd w_db]. split; [auto|]. split; [reflexivity|]. exists t'; auto.
Qed.

Lemma handle_assign_to_user_outcome_witness :
  let data := ("assign_to_" ++ str_of_int 3 ++ "_" ++ str_of_int 1)%string in
  let w := world_of (db_of [task1 New None] []) in
  let out := Bot.handle_assign_to_user env_first_fails 500 data (user_row admin1) w in
  Bot.button_callback_route data = Bot.HandleAssignToUser /\
  (u_role admin1 <> Admin -> out = (Ok Bot.AssignForbidden, w)) /\
  (u_role admin1 = Admin ->
   (fst out = Ok Bot.Assigned \/ fst out = Raise TelegramError) /\
   w_db (snd out) = snd (assign_task 500 1 3 (u_id admin1) (w_db w)) /\
   exists t', task_of (w_db (snd out)) 1 = Some t' /\ t_assignee_id t' = Some 3).
Proof.
  apply (handle_assign_to_user_outcome env_first_fails 500 admin1
           (world_of (db_of [task1 New None] [])) (task1 New None) 3 1).
  reflexivity.
Defined.

(** ** Which handler a button reaches *)

Lemma prefix_app (a b s : string) :
  String.prefix (a ++ b) s = true -> String.prefix a s = true.
Proof.
  revert s. induction a as [|c a IH]; intros s; [intros _; apply prefix_empty|].
  destruct s as [|c' s]; simpl; [discriminate|].
  destruct (Ascii.ascii_dec c c'); [apply IH | discriminate].
Qed.

Lemma prefix_first_char (c : ascii) (p s : string) :
  String.prefix (String c p) s = true -> occurs c s = true.
Proof.
  destruct s as [|c' s]; simpl; [discriminate|].
  destruct (Ascii.ascii_dec c c') as [->|]; [|discriminate].
  intros _. now rewrite Ascii.eqb_refl.
Qed.

Lemma str_of_int_not_prefix (c : ascii) (p : string) (z : Z) :
  occurs c "-0123456789" = false ->
  String.prefix (String c p) (str_of_int z) = false.
Proof.
  intros H. destruct (String.prefix (String c p) (str_of_int z)) eqn:E; [|reflexivity].
  apply prefix_first_char, str_of_int_chars in E. congruence.
Qed.

(** X7.  The order of the tests in [button_callback] decides where a
    button leads.  No callback data reaches [show_task_history]: the
    history button of a card and the page buttons of the list of all tasks
    open a task card, because the test for [task_] comes first.  A task
    button of the lists "my", "active" and "completed", and the four field
    buttons of the edit menu, match no test and open the main menu.  The
    page buttons of those three lists do reach the page handler. *)
Theorem button_callback_route_order :
  (forall data, Bot.button_callback_route data <> Bot.ShowTaskHistory) /\
  (forall task_id,
     Bot.button_callback_route ("task_history_" ++ str_of_int task_id)%string
     = Bot.ShowTaskDetail) /\
  (forall page,
     Bot.button_callback_route ("task_page_" ++ str_of_int page)%string
     = Bot.ShowTaskDetail) /\
  (forall task_id,
     Bot.button_callback_route ("task_" ++ str_of_int task_id)%string = Bot.ShowTaskDetail /\
     Bot.button_callback_route ("my_task_" ++ str_of_int task_id)%string = Bot.ShowMainMenu /\
     Bot.button_callback_route ("active_task_" ++ str_of_int task_id)%string
     = Bot.ShowMainMenu /\
     Bot.button_callback_route ("completed_task_" ++ str_of_int task_id)%string
     = Bot.ShowMainMenu) /\
  (forall page,
     Bot.button_callback_route ("my_task_page_" ++ str_of_int page)%string
     = Bot.HandleTaskPageNavigation /\
     Bot.button_callback_route ("active_task_page_" ++ str_of_int page)%string
     = Bot.HandleTaskPageNavigation /\
     Bot.button_callback_route ("completed_task_page_" ++ str_of_int page)%string
     = Bot.HandleTaskPageNavigation) /\
  (forall task_id,
     map Bot.button_callback_route (Bot.edit_task_buttons task_id)
     = [Bot.ShowMainMenu; Bot.ShowMainMenu; Bot.ShowMainMenu; Bot.ShowMainMenu;
        Bot.ShowTaskDetail]).
Proof.
  split; [|split; [|split; [|split; [|split]]]].
  - intros data. unfold Bot.button_callback_route.
    destruct (String.prefix "task_" data) eqn:Et.
    + repeat match goal with
             | |- context [if ?b then _ else _] => destruct b
             end; discriminate.
    + destruct (String.prefix "task_history_" data) eqn:Eh.
      * apply (prefix_app "task_" "history_") in Eh. congruence.
      * repeat match goal with
               | |- context [if ?b then _ else _] => destruct b
               end; discriminate.
  - intros task_id. reflexivity.
  - intros page. reflexivity.
  - intros task_id. unfold Bot.button_callback_route. cbn.
    rewrite prefix_empty, !str_of_int_not_prefix by reflexivity. auto.
  - intros page. unfold Bot.button_callback_route. cbn.
    rewrite !prefix_empty. auto.
  - intros task_id. unfold Bot.edit_task_buttons, Bot.button_callback_route. cbn.
    rewrite ?prefix_empty, !str_of_int_not_prefix by reflexivity. reflexivity.
Qed.

(** ** Inserting and looking up *)

Lemma next_id_above {A} (id : A -> Z) (table : list A) (x : A) :
  In x table -> id x < next_id id table.
Proof.
  unfold next_id. induction table as [|y table IH]; cbn [fold_right In]; [contradiction|].
  intros [->|H]; [lia|]. specialize (IH H). lia.
Qed.

Lemma next_id_positive {A} (id : A -> Z) (table : list A) : 0 < next_id id table.
Proof.
  unfold next_id. induction table as [|y table IH]; cbn [fold_right]; lia.
Qed.

Lemma find_app_fresh {A} (p : A -> bool) (l : list A) (x : A) :
  (forall y, In y l -> p y = false) -> p x = true -> find p (l ++ [x]) = Some x.
Proof.
  induction l as [|y l IH]; simpl; intros H Hx; [now rewrite Hx|].
  rewrite (H y) by now left. apply IH; [|exact Hx]. intros z Hz. apply H. now right.
Qed.

Lemma find_app_other {A} (p : A -> bool) (l : list A) (x : A) :
  p x = false -> find p (l ++ [x]) = find p l.
Proof.
  intros Hx. induction l as [|y l IH]; simpl; [now rewrite Hx|].
  destruct (p y); [reflexivity | exact IH].
Qed.

(** X8.  [create_task] returns an id that no task had; the task found
    under it afterwards is the one created: new, not completed, with the
    title, assignee and deadline given; every other lookup answers as
    before, and the history gets the one entry [created]. *)
Theorem create_task_then_lookup now title description creator_id assignee_id
    priority deadline (d : DB) :
  let task_id := fst (create_task now title description creator_id assignee_id
                        priority deadline d) in
  let d' := snd (create_task now title description creator_id assignee_id
                   priority deadline d) in
  (forall t, In t (tasks d) -> t_id t < task_id) /\
  (exists t, task_of d' task_id = Some t /\ t_id t = task_id /\
             t_status t = New /\ t_completed_at t = None /\ t_title t = title /\
             t_creator_id t = creator_id /\ t_assignee_id t = assignee_id /\
             t_deadline t = deadline /\ completed_iff t) /\
  (forall k, k <> task_id -> task_of d' k = task_of d k) /\
  (exists h, task_history d' = task_history d ++ [h] /\ h_task_id h = task_id /\
             h_user_id h = creator_id /\ h_action h = "created").
Proof.
  cbv zeta. unfold create_task. cbn [fst snd].
  split; [intros t Hin; now apply next_id_above|]. split; [|split].
  - eexists. split.
    + unfold task_of. cbn [tasks add_task_history set_tasks].
      apply find_app_fresh.
      * intros t Hin. apply Z.eqb_neq.
        pose proof (next_id_above t_id (tasks d) t Hin). lia.
      * apply Z.eqb_refl.
    + cbn. repeat split; try reflexivity; [discriminate | intros H; now elim H].
  - intros k Hk. unfold task_of. cbn [tasks add_task_history set_tasks].
    apply find_app_other. cbn [t_id]. apply Z.eqb_neq.
    intros E. apply Hk. symmetry. exact E.
  - eexists. split; [reflexivity|]. cbn. auto.
Qed.

Lemma find_update_other (task_id k : Z) (f : Task -> Task) (ts : list Task) :
  (forall t, t_id (f t) = t_id t) -> k <> task_id ->
  find (fun t => t_id t =? k)
       (map (fun t => if t_id t =? task_id then f t else t) ts)
  = find (fun t => t_id t =? k) ts.
Proof.
  intros Hf Hk. induction ts as [|t ts IH]; simpl; [reflexivity|].
  destruct (t_id t =? task_id) eqn:E.
  - rewrite Hf. apply Z.eqb_eq in E.
    assert (En : (t_id t =? k) = false) by (apply Z.eqb_neq; congruence).
    rewrite En. exact IH.
  - destruct (t_id t =? k); [reflexivity | exact IH].
Qed.

(** X9.  [update_task_status] returns [True] exactly when the task exists
    and the status is one of the five of the schema; when it returns
    [False] the database is as it was.  When it returns [True], the history
    gets one entry with the old and the new status under the actor's id,
    and the tasks under every other id are found as before. *)
Theorem update_task_status_result now task_id status user_id (d : DB) :
  let r := update_task_status now task_id status user_id d in
  (fst r = true <->
   (exists t, task_of d task_id = Some t) /\ (exists s, status_of_str status = Some s)) /\
  (fst r = false -> snd r = d) /\
  (forall t, task_of d task_id = Some t -> fst r = true ->
     task_history (snd r)
     = task_history d ++
       [ {| h_id := next_id h_id (task_history d);
            h_task_id := task_id;
            h_user_id := user_id;
            h_action := "status_changed";
            h_old_value := Some (status_str (t_status t));
            h_new_value := Some status;
            h_created_at := now |} ] /\
     forall k, k <> task_id -> task_of (snd r) k = task_of d k).
Proof.
  cbv zeta. unfold update_task_status, task_of.
  destruct (find (fun t => t_id t =? task_id) (tasks d)) as [t|] eqn:Et.
  - destruct (status_of_str status) as [s|] eqn:Es; cbn [fst snd].
    + split; [|split].
      * split; [intros _; split; eauto | reflexivity].
      * discriminate.
      * intros t0 [= <-] _. split; [reflexivity|].
        intros k Hk. cbn [tasks add_task_history update_task set_tasks].
        apply find_update_other; [reflexivity | exact Hk].
    + split; [|split].
      * split; [discriminate | intros [_ [s H]]; discriminate].
      * reflexivity.
      * discriminate.
  - cbn [fst snd]. split; [|split].
    + split; [discriminate | intros [[t H] _]; discriminate].
    + reflexivity.
    + discriminate.
Qed.

(** X10.  [create_user] registers a user whose Telegram id is new and whose
    role is [admin] or [user]: the lookup by Telegram id then finds the
    row, active and with that role.  A second registration under the same
    Telegram id is refused and changes nothing, so the role of the first
    one stays; a role outside the schema is refused as well, whatever the
    Telegram id. *)
Theorem create_user_then_lookup now now' telegram_id username first_name last_name
    role role' bad (r : Role) (d : DB) :
  role_of_str role = Some r ->
  (forall u, In u (users d) -> u_telegram_id u <> telegram_id) ->
  let c := create_user now telegram_id username first_name last_name role d in
  fst c = true /\
  (exists u, get_user_by_telegram_id (snd c) (VInt telegram_id) = Some (user_row u) /\
             u_telegram_id u = telegram_id /\ u_role u = r /\ u_is_active u = true /\
             forall v, In v (users d) -> u_id v < u_id u) /\
  create_user now' telegram_id username first_name last_name role' (snd c)
  = (false, snd c) /\
  (role_of_str bad = None ->
   forall tg, create_user now' tg username first_name last_name bad d = (false, d)).
Proof.
  intros Hr Hnew. cbv zeta.
  assert (Hex : existsb (fun u => u_telegram_id u =? telegram_id) (users d) = false).
  { destruct (existsb _ (users d)) eqn:E; [|reflexivity].
    apply existsb_exists in E. destruct E as [u [Hin E]].
    apply Z.eqb_eq in E. now elim (Hnew u Hin). }
  assert (Ec : create_user now telegram_id username first_name last_name role d
               = (true,
                  {| users := users d ++
                       [ {| u_id := next_id u_id (users d);
                            u_telegram_id := telegram_id;
                            u_username := username;
                            u_first_name := first_name;
                            u_last_name := last_name;
                            u_role := r;
                            u_is_active := true;
                            u_registered_at := now;
                            u_last_activity := now |} ];
                     tasks := tasks d;
                     notifications := notifications d;
                     task_history := task_history d |})).
  { unfold create_user. now rewrite Hr, Hex. }
  rewrite Ec. cbn [fst snd].
  split; [reflexivity|]. split; [|split].
  - eexists. split.
    + unfold get_user_by_telegram_id. cbn [users].
      rewrite find_app_fresh; [reflexivity| |].
      * intros u Hin. cbn. apply Z.eqb_neq. now apply Hnew.
      * cbn. apply Z.eqb_refl.
    + cbn. repeat split. intros v Hv. now apply next_id_above.
  - unfold create_user. cbn [users].
    destruct (role_of_str role'); [|reflexivity].
    rewrite existsb_app. cbn. rewrite Z.eqb_refl, orb_true_r. reflexivity.
  - intros Hbad tg. unfold create_user. now rewrite Hbad.
Qed.

Lemma create_user_then_lookup_witness :
  let c := create_user 5 1004 None (Some "Zoe") None "user" (db_of [] []) in
  fst c = true /\
  (exists u, get_user_by_telegram_id (snd c) (VInt 1004) = Some (user_row u) /\
             u_telegram_id u = 1004 /\ u_role u = Worker /\ u_is_active u = true /\
             forall v, In v (users (db_of [] [])) -> u_id v < u_id u) /\
  create_user 6 1004 None (Some "Zoe") None "admin" (snd c) = (false, snd c) /\
  (role_of_str "owner" = None ->
   forall tg, create_user 6 tg None (Some "Zoe") None "owner" (db_of [] [])
              = (false, db_of [] [])).
Proof.
  apply (create_user_then_lookup 5 6 1004 None (Some "Zoe") None "user" "admin" "owner" Worker
           (db_of [] [])).
  - reflexivity.
  - intros u [<-|[<-|[<-|[]]]]; simpl; lia.
Defined.

(** ** The overdue sweep of the table *)

Lemma flip_overdue_idem now t :
  flip_overdue now (flip_overdue now t) = flip_overdue now t.
Proof.
  unfold flip_overdue at 1.
  destruct (becomes_overdue now (flip_overdue now t)) eqn:B; [|reflexivity].
  exfalso. unfold becomes_overdue in B. apply andb_true_iff in B. destruct B as [B1 B2].
  rewrite flip_overdue_is_overdue in B1.
  unfold flip_overdue, becomes_overdue in B2. rewrite B1 in B2. cbn [andb] in B2.
  destruct (status_eqb (t_status t) Overdue) eqn:E; cbn [negb] in B2; [|discriminate].
  now rewrite E in B2.
Qed.

Lemma status_eqb_eq (a b : Status) : status_eqb a b = true <-> a = b.
Proof. destruct a, b; split; intros H; try reflexivity; discriminate. Qed.

Lemma flip_overdue_status now t :
  is_overdue now t = true -> t_status (flip_overdue now t) = Overdue.
Proof.
  intros H. unfold flip_overdue, becomes_overdue. rewrite H. cbn [andb].
  destruct (status_eqb (t_status t) Overdue) eqn:E; cbn [negb]; [|reflexivity].
  now apply status_eqb_eq.
Qed.

(** X11.  [update_overdue_tasks] writes no history and touches neither
    users nor notifications.  A task that is not past its deadline, or is
    completed or cancelled, keeps its row; afterwards every row that
    [get_overdue_tasks] returns at the same instant has the status
    [overdue], there are as many of them as before, and a second call at
    that instant changes nothing. *)
Theorem update_overdue_tasks_settles now (d : DB) :
  let d' := update_overdue_tasks now d in
  task_history d' = task_history d /\ users d' = users d /\
  notifications d' = notifications d /\
  map t_id (tasks d') = map t_id (tasks d) /\
  (forall t, In t (tasks d) -> is_overdue now t = false -> In t (tasks d')) /\
  (forall row, In row (get_overdue_tasks now d') ->
               get "status" row = Ok (VStr "overdue")) /\
  List.length (get_overdue_tasks now d') = List.length (get_overdue_tasks now d) /\
  update_overdue_tasks now d' = d'.
Proof.
  cbv zeta. repeat split.
  - rewrite update_overdue_tasks_tasks, map_map. apply map_ext. intros t.
    pose proof (flip_overdue_key now t) as H. now injection H.
  - intros t Hin Ho. rewrite update_overdue_tasks_tasks. apply in_map_iff.
    exists t. split; [|exact Hin].
    unfold flip_overdue, becomes_overdue. now rewrite Ho.
  - intros row Hin. unfold get_overdue_tasks in Hin.
    apply in_map_iff in Hin. destruct Hin as [t' [<- Hin]].
    apply filter_In in Hin. destruct Hin as [Hin Ho].
    rewrite update_overdue_tasks_tasks in Hin. apply in_map_iff in Hin.
    destruct Hin as [t [<- Hin]]. rewrite flip_overdue_is_overdue in Ho.
    change (get "status" (task_row_tg (update_overdue_tasks now d) (flip_overdue now t)))
      with (Ok (VStr (status_str (t_status (flip_overdue now t))))).
    now rewrite (flip_overdue_status now t Ho).
  - unfold get_overdue_tasks. rewrite !length_map, update_overdue_tasks_tasks.
    induction (tasks d) as [|t ts IH]; [reflexivity|].
    cbn [map filter]. rewrite flip_overdue_is_overdue.
    destruct (is_overdue now t); cbn [List.length]; now rewrite IH.
  - unfold update_overdue_tasks at 1. unfold set_tasks.
    change (map _ (tasks (update_overdue_tasks now d)))
      with (map (flip_overdue now) (tasks (update_overdue_tasks now d))).
    rewrite update_overdue_tasks_tasks, map_map.
    rewrite (map_ext _ _ (flip_overdue_idem now)). reflexivity.
Qed.

(** ** Listing tasks *)

Lemma deadline_created_le_total (a b : Task) :
  deadline_created_le a b = false -> deadline_created_le b a = true.
Proof.
  unfold deadline_created_le.
  destruct (t_deadline a) as [x|], (t_deadline b) as [y|]; try (intros; reflexivity);
    try discriminate.
  - intros H. apply orb_false_iff in H. destruct H as [H1 H2].
    apply Z.ltb_ge in H1. destruct (Z.eq_dec x y) as [->|Hn].
    + rewrite Z.eqb_refl in H2. cbn [andb] in H2. apply Z.leb_gt in H2.
      rewrite Z.eqb_refl. cbn [andb]. apply orb_true_iff. right. apply Z.leb_le. lia.
    + apply orb_true_iff. left. apply Z.ltb_lt. lia.
  - intros H. apply Z.leb_gt in H. apply Z.leb_le. lia.
Qed.

Lemma insert_by_sorted {A} (le : A -> A -> bool) (x : A) (l : list A) :
  (forall a b, le a b = false -> le b a = true) ->
  Sorted (fun a b => le a b = true) l ->
  Sorted (fun a b => le a b = true) (insert_by le x l).
Proof.
  intros Htot. induction l as [|y l IH]; intros Hs; cbn [insert_by].
  - constructor; constructor.
  - destruct (le x y) eqn:E.
    + constructor; [exact Hs | constructor; exact E].
    + inversion Hs as [|? ? Hs' Hhd]; subst.
      constructor; [now apply IH|].
      destruct l as [|z l]; cbn [insert_by].
      * constructor. now apply Htot.
      * destruct (le x z); constructor; [now apply Htot|].
        now inversion Hhd.
Qed.

Lemma order_by_sorted {A} (le : A -> A -> bool) (l : list A) :
  (forall a b, le a b = false -> le b a = true) ->
  Sorted (fun a b => le a b = true) (order_by le l).
Proof.
  intros Htot. induction l as [|x l IH]; [constructor|].
  unfold order_by in *. cbn [fold_right]. now apply insert_by_sorted.
Qed.

Lemma limit_offset_incl {A} (l o : Z) (rows : list A) (x : A) :
  In x (limit_offset l o rows) -> In x rows.
Proof.
  unfold limit_offset. intros H.
  assert (Hs : In x (skipn (Z.to_nat o) rows)).
  { destruct (l <? 0); [exact H|].
    rewrite <- (firstn_skipn (Z.to_nat l) (skipn (Z.to_nat o) rows)).
    apply in_or_app. now left. }
  rewrite <- (firstn_skipn (Z.to_nat o) rows). apply in_or_app. now right.
Qed.

(** X12.  [get_all_tasks] without a limit returns one row per task that
    passes the status filter, each exactly once, ordered by deadline (no
    deadline first) and then by creation time, newest first.  With a
    non-empty status every returned row has that status, whatever the
    page; a positive limit bounds the number of rows; the limit [0] and the
    empty status are taken as no limit and no filter. *)
Theorem get_all_tasks_rows (d : DB) (status : option string) (offset : Z) :
  (exists ts, get_all_tasks d status None offset = map (task_row d) ts /\
              Permutation ts (filter (status_filter status) (tasks d)) /\
              Sorted (fun a b => deadline_created_le a b = true) ts) /\
  (forall s limit row,
     status = Some s -> s <> "" ->
     In row (get_all_tasks d status limit offset) ->
     get "status" row = Ok (VStr s)) /\
  (forall limit, 0 < limit ->
     Z.of_nat (List.length (get_all_tasks d status (Some limit) offset)) <= limit) /\
  get_all_tasks d status (Some 0) offset = get_all_tasks d status None offset /\
  get_all_tasks d (Some "") None offset = map (task_row d) (order_by deadline_created_le (tasks d)).
Proof.
  split; [|split; [|split; [|split]]].
  - eexists. split; [reflexivity|]. split.
    + apply order_by_perm.
    + apply order_by_sorted, deadline_created_le_total.
  - intros s limit row -> Hs Hin. unfold get_all_tasks in Hin.
    apply in_map_iff in Hin. destruct Hin as [t [<- Hin]].
    assert (Hin' : In t (order_by deadline_created_le
                           (filter (status_filter (Some s)) (tasks d)))).
    { destruct limit as [l|]; [|exact Hin].
      destruct (l =? 0); [exact Hin | now apply limit_offset_incl in Hin]. }
    apply (Permutation_in _ (order_by_perm _ _)) in Hin'.
    apply filter_In in Hin'. destruct Hin' as [_ Hf].
    unfold status_filter in Hf.
    destruct (String.eqb s "") eqn:E; [apply String.eqb_eq in E; contradiction|].
    apply String.eqb_eq in Hf.
    change (get "status" (task_row d t)) with (Ok (VStr (status_str (t_status t)))).
    now rewrite Hf.
  - intros limit Hl. unfold get_all_tasks. rewrite length_map.
    destruct (limit =? 0) eqn:E; [apply Z.eqb_eq in E; lia|].
    unfold limit_offset. destruct (limit <? 0) eqn:E2; [apply Z.ltb_lt in E2; lia|].
    pose proof (firstn_le_length (Z.to_nat limit)
                  (skipn (Z.to_nat offset)
                     (order_by deadline_created_le
                        (filter (status_filter status) (tasks d))))) as H.
    lia.
  - reflexivity.
  - unfold get_all_tasks. f_equal. f_equal.
    induction (tasks d) as [|t ts IH]; [reflexivity|].
    cbn [filter status_filter String.eqb]. now rewrite IH.
Qed.

(** ** Statistics of a user with tasks *)

Lemma status_partition (ts : list Task) :
  count_status Completed ts + count_status Overdue ts +
  Z.of_nat (List.length (filter (fun t => is_active_status (t_status t)) ts)) +
  count_status Cancelled ts
  = Z.of_nat (List.length ts).
Proof.
  unfold count_status. induction ts as [|t ts IH]; [reflexivity|].
  cbn [filter]. unfold is_active_status at 1.
  destruct (t_status t); cbn [status_eqb orb List.length]; lia.
Qed.

(** X13.  For a user with at least one assigned task the four columns of
    [get_user_stats] are integers: the number of the user's tasks and the
    numbers of completed, overdue and active (new or in progress) ones,
    which together with the cancelled ones make up the total. *)
Theorem get_user_stats_with_tasks (d : DB) (user_id : Z) :
  let ts := filter (assigned_to user_id) (tasks d) in
  ts <> [] ->
  exists total completed overdue active,
    get_user_stats d user_id
    = [ ("total_tasks", VInt total); ("completed_tasks", VInt completed);
        ("overdue_tasks", VInt overdue); ("active_tasks", VInt active) ] /\
    total = Z.of_nat (List.length ts) /\ 0 < total /\
    completed = count_status Completed ts /\
    overdue = count_status Overdue ts /\
    active = count_status New ts + count_status InProgress ts /\
    completed + overdue + active + count_status Cancelled ts = total.
Proof.
  cbv zeta. unfold get_user_stats.
  set (ts := filter (assigned_to user_id) (tasks d)). intros Hne.
  assert (Hact : Z.of_nat (List.length (filter (fun t => is_active_status (t_status t)) ts))
                 = count_status New ts + count_status InProgress ts).
  { unfold count_status. clear Hne. induction ts as [|t l IH]; [reflexivity|].
    cbn [filter]. unfold is_active_status at 1.
    destruct (t_status t); cbn [status_eqb orb List.length]; lia. }
  pose proof (status_partition ts) as Hpart.
  assert (Hpos : 0 < Z.of_nat (List.length ts)).
  { destruct ts; [now elim Hne | cbn [List.length]; lia]. }
  assert (Hcols : stats_columns ts
            = [ ("total_tasks", VInt (Z.of_nat (List.length ts)));
                ("completed_tasks", VInt (count_status Completed ts));
                ("overdue_tasks", VInt (count_status Overdue ts));
                ("active_tasks",
                 VInt (count_status New ts + count_status InProgress ts)) ]).
  { unfold stats_columns, sql_sum_case. rewrite <- Hact.
    destruct ts; [now elim Hne | reflexivity]. }
  rewrite Hcols.
  eexists _, _, _, _. split; [reflexivity|].
  repeat (split; [reflexivity || lia|]). lia.
Qed.

Lemma get_user_stats_with_tasks_witness :
  exists total completed overdue active,
    get_user_stats (db_of [task1 Completed (Some 400); task2] []) 2
    = [ ("total_tasks", VInt total); ("completed_tasks", VInt completed);
        ("overdue_tasks", VInt overdue); ("active_tasks", VInt active) ] /\
    total = Z.of_nat (List.length (filter (assigned_to 2)
                        (tasks (db_of [task1 Completed (Some 400); task2] [])))) /\
    0 < total /\
    completed = count_status Completed (filter (assigned_to 2)
                  (tasks (db_of [task1 Completed (Some 400); task2] []))) /\
    overdue = count_status Overdue (filter (assigned_to 2)
                (tasks (db_of [task1 Completed (Some 400); task2] []))) /\
    active = count_status New (filter (assigned_to 2)
               (tasks (db_of [task1 Completed (Some 400); task2] [])))
             + count_status InProgress (filter (assigned_to 2)
                 (tasks (db_of [task1 Completed (Some 400); task2] []))) /\
    completed + overdue + active
    + count_status Cancelled (filter (assigned_to 2)
        (tasks (db_of [task1 Completed (Some 400); task2] []))) = total.
Proof.
  apply (get_user_stats_with_tasks (db_of [task1 Completed (Some 400); task2] []) 2).
  discriminate.
Defined.

(** ** Storing a notification *)

Lemma notif_type_round_trip (s : string) (ty : NotifType) :
  notif_type_of_str s = Some ty -> notif_type_str ty = s.
Proof.
  unfold notif_type_of_str.
  destruct (String.eqb s "reminder") eqn:E1;
    [apply String.eqb_eq in E1; intros [= <-]; now subst|].
  destruct (String.eqb s "assignment") eqn:E2;
    [apply String.eqb_eq in E2; intros [= <-]; now subst|].
  destruct (String.eqb s "deadline") eqn:E3;
    [apply String.eqb_eq in E3; intros [= <-]; now subst|].
  destruct (String.eqb s "completed") eqn:E4;
    [apply String.eqb_eq in E4; intros [= <-]; now subst|].
  discriminate.
Qed.

Lemma NoDup_app_fresh (ids : list Z) (i : Z) :
  NoDup ids -> (forall j, In j ids -> j < i) -> NoDup (ids ++ [i]).
Proof.
  intros Hd Hlt. induction ids as [|j ids IH]; cbn [app].
  - constructor; [intros [] | constructor].
  - inversion Hd as [|? ? Hn Hd']; subst. constructor.
    + rewrite in_app_iff. intros [H|[H|[]]]; [contradiction|].
      specialize (Hlt j (or_introl eq_refl)). lia.
    + apply IH; [exact Hd'|]. intros k Hk. apply Hlt. now right.
Qed.

Lemma create_notification_distinct now uid tid ty msg at_ d :
  notification_ids_distinct d = true ->
  notification_ids_distinct (snd (create_notification now uid tid ty msg at_ d)) = true.
Proof.
  intros H. unfold create_notification.
  destruct (notif_type_of_str ty); [|exact H].
  cbn [snd]. unfold notification_ids_distinct in *. cbn [notifications set_notifications].
  apply distinct_NoDup. apply distinct_NoDup in H.
  rewrite map_app. cbn [map n_id]. apply NoDup_app_fresh; [exact H|].
  intros j Hj. apply in_map_iff in Hj. destruct Hj as [x [<- Hx]].
  now apply next_id_above.
Qed.

Lemma pending_rows_in now d row :
  In row (get_pending_notifications now d) <->
  exists n, In n (notifications d) /\ is_pending now n = true /\
            pending_join d n = Some row.
Proof.
  unfold get_pending_notifications. rewrite in_filter_map. split.
  - intros [n [Hin Hj]]. exists n.
    apply (Permutation_in _ (order_by_perm _ _)) in Hin.
    apply filter_In in Hin. tauto.
  - intros [n [Hin [Hp Hj]]]. exists n. split; [|exact Hj].
    apply (Permutation_in _ (Permutation_sym (order_by_perm _ _))).
    apply filter_In. auto.
Qed.

Lemma pending_join_id d n row :
  pending_join d n = Some row -> get "id" row = Ok (VInt (n_id n)).
Proof.
  unfold pending_join.
  destruct (user_by_id d (n_user_id n)); [|discriminate].
  destruct (find _ (tasks d)); [|discriminate].
  intros [= <-]. reflexivity.
Qed.

(** X14.  [create_notification] with a type outside the four of the schema
    raises and stores nothing.  With a type of the schema it returns an id
    above every id of the table, keeps distinct ids distinct, and stores an
    unsent row: the existence check by task and type then answers yes and
    the unsent rows of that task and type include the new one.
    [get_pending_notifications] returns a row with the new id exactly when
    the instant of the query has reached [scheduled_at] and both the user
    and the task of the notification exist; a notification for a missing
    user or task is stored but never selected. *)
Theorem create_notification_then_exists now user_id task_id notification_type message
    scheduled_at (d : DB) :
  let r := create_notification now user_id task_id notification_type message
             scheduled_at d in
  (notif_type_of_str notification_type = None -> r = (Raise IntegrityError, d)) /\
  (forall ty, notif_type_of_str notification_type = Some ty ->
     exists n,
       fst r = Ok (n_id n) /\
       notifications (snd r) = notifications d ++ [n] /\
       (forall m, In m (notifications d) -> n_id m < n_id n) /\
       (notification_ids_distinct d = true -> notification_ids_distinct (snd r) = true) /\
       exists_notification_by_task_type (snd r) task_id notification_type = true /\
       In (notification_columns n)
          (get_unsent_notifications_by_task_type (snd r) task_id notification_type) /\
       n_user_id n = user_id /\ n_message n = message /\
       forall now',
         (exists row, In row (get_pending_notifications now' (snd r)) /\
                      get "id" row = Ok (VInt (n_id n)))
         <-> (scheduled_at <= now' /\
              (exists u, user_by_id d user_id = Some u) /\
              (exists t, task_of d task_id = Some t))).
Proof.
  cbv zeta. split.
  - intros H. unfold create_notification. now rewrite H.
  - intros ty Hty.
    pose proof (create_notification_distinct now user_id task_id notification_type
                  message scheduled_at d) as Hd.
    pose proof (notif_type_round_trip _ _ Hty) as Hs.
    unfold create_notification in *. rewrite Hty in *. cbn [fst snd] in *.
    set (n := {| n_id := next_id n_id (notifications d);
                 n_user_id := user_id;
                 n_task_id := task_id;
                 n_type := ty;
                 n_message := message;
                 n_is_sent := false;
                 n_scheduled_at := scheduled_at;
                 n_sent_at := None;
                 n_created_at := now |}) in *.
    exists n.
    split; [reflexivity|]. split; [reflexivity|].
    split; [|split; [exact Hd|split; [|split]]].
    + intros m Hm. now apply next_id_above.
    + unfold exists_notification_by_task_type. cbn [notifications set_notifications].
      rewrite existsb_app. cbn [existsb n_task_id n_type n].
      rewrite Hs, Z.eqb_refl, String.eqb_refl. cbn [andb orb]. apply orb_true_r.
    + unfold get_unsent_notifications_by_task_type. apply in_map.
      cbn [notifications set_notifications]. apply filter_In. split.
      * apply in_or_app. right. now left.
      * cbn [n_is_sent n_task_id n_type negb n]. now rewrite Hs, Z.eqb_refl, String.eqb_refl.
    + split; [reflexivity|]. split; [reflexivity|].
      intros now'.
      set (d' := set_notifications (notifications d ++ [n]) d).
      assert (Hjoin : forall x, pending_join d' x = pending_join d x) by reflexivity.
      split.
      * intros [row [Hin Hid]]. apply pending_rows_in in Hin.
        destruct Hin as [x [Hx [Hp Hj]]].
        pose proof (pending_join_id _ _ _ Hj) as Hid'. rewrite Hid in Hid'.
        injection Hid' as Hid'.
        cbn [notifications set_notifications d'] in Hx. apply in_app_iff in Hx.
        destruct Hx as [Hx|[<-|[]]].
        { pose proof (next_id_above n_id (notifications d) x Hx) as Hlt.
          cbn [n_id n] in Hid'. lia. }
        split.
        { unfold is_pending in Hp. cbn [n_is_sent n_scheduled_at negb andb n] in Hp.
          now apply Z.leb_le. }
        rewrite Hjoin in Hj. unfold pending_join in Hj. cbn [n_user_id n_task_id n] in Hj.
        unfold task_of.
        destruct (user_by_id d user_id) as [u|]; [|discriminate].
        destruct (find _ (tasks d)) as [t|]; [|discriminate].
        split; eexists; reflexivity.
      * intros [Hle [[u Hu] [t Ht]]].
        exists (pending_row n u t). split; [|reflexivity].
        apply pending_rows_in. exists n. split; [|split].
        { cbn [notifications set_notifications d']. apply in_or_app. right. now left. }
        { unfold is_pending. cbn [n_is_sent n_scheduled_at negb andb n]. now apply Z.leb_le. }
        { rewrite Hjoin. unfold pending_join. cbn [n_user_id n_task_id n].
          unfold task_of in Ht. now rewrite Hu, Ht. }
Qed.

(** ** What the notification loop changes *)

Section Moves.

Context {R : World -> World -> Prop}.
Hypothesis R_refl : forall w, R w w.
Hypothesis R_trans : forall a b c, R a b -> R b c -> R a c.

Lemma moves_fixed {A} (c : M A) : (forall w, snd (c w) = w) -> moves R c.
Proof. intros H w. rewrite H. apply R_refl. Qed.

Lemma moves_ret {A} (a : A) : moves R (ret a).
Proof. now apply moves_fixed. Qed.

Lemma moves_lift {A} (r : result A) : moves R (lift r).
Proof. now apply moves_fixed. Qed.

Lemma moves_query {A} (q : DB -> A) : moves R (query q).
Proof. now apply moves_fixed. Qed.

Lemma moves_bind {A B} (c : M A) (k : A -> M B) :
  moves R c -> (forall a, moves R (k a)) -> moves R (bind c k).
Proof.
  intros Hc Hk w. unfold bind. specialize (Hc w).
  destruct (c w) as [[a|e] w1]; cbn [snd] in *; [|exact Hc].
  eapply R_trans; [exact Hc | apply Hk].
Qed.

Lemma moves_try (c : M unit) : moves R c -> moves R (try_except c).
Proof.
  intros Hc w. unfold try_except. specialize (Hc w).
  destruct (c w) as [[a|e] w1]; exact Hc.
Qed.

Lemma moves_for_each {A} (body : A -> M unit) (xs : list A) :
  (forall x, moves R (body x)) -> moves R (for_each body xs).
Proof.
  intros H. induction xs as [|x xs IH]; cbn [for_each]; [apply moves_ret|].
  apply moves_bind; [apply H | intros _; exact IH].
Qed.

End Moves.

Lemma Forall2_same {A} (P : A -> A -> Prop) (l : list A) :
  (forall x, P x x) -> Forall2 P l l.
Proof. intros H. induction l; constructor; auto. Qed.

Lemma Forall2_chain {A} (P : A -> A -> Prop) :
  (forall x y z, P x y -> P y z -> P x z) ->
  forall l1 l2 l3, Forall2 P l1 l2 -> Forall2 P l2 l3 -> Forall2 P l1 l3.
Proof.
  intros Ht l1 l2 l3 H12. revert l3.
  induction H12 as [|x y l1 l2 Hxy _ IH]; intros l3 H23; inversion H23; subst;
    constructor; eauto.
Qed.

Lemma same_task_or_overdue_refl t : same_task_or_overdue t t.
Proof. unfold same_task_or_overdue. repeat split; auto. Qed.

Lemma same_task_or_overdue_trans t1 t2 t3 :
  same_task_or_overdue t1 t2 -> same_task_or_overdue t2 t3 ->
  same_task_or_overdue t1 t3.
Proof.
  unfold same_task_or_overdue.
  intros [A1 [A2 [A3 [A4 [A5 [A6 [A7 [A8 [A9 A10]]]]]]]]]
         [B1 [B2 [B3 [B4 [B5 [B6 [B7 [B8 [B9 B10]]]]]]]]].
  repeat (split; [congruence|]).
  destruct A10 as [A|[A A']], B10 as [B|[B B']].
  - left. congruence.
  - right. split; [exact B|]. now rewrite <- A.
  - right. split; [congruence | exact A'].
  - right. split; [exact B | exact A'].
Qed.

Lemma same_notification_refl n : same_notification n n.
Proof. unfold same_notification. repeat split; auto. Qed.

Lemma same_notification_trans n1 n2 n3 :
  same_notification n1 n2 -> same_notification n2 n3 -> same_notification n1 n3.
Proof.
  unfold same_notification.
  intros [A1 [A2 [A3 [A4 [A5 [A6 [A7 A8]]]]]]] [B1 [B2 [B3 [B4 [B5 [B6 [B7 B8]]]]]]].
  repeat (split; [congruence|]). auto.
Qed.

Lemma alert_row_same cfg n n' :
  same_notification n n' -> alert_row cfg n -> alert_row cfg n'.
Proof.
  unfold same_notification, alert_row.
  intros [A1 [A2 [A3 [A4 [A5 [A6 [A7 A8]]]]]]] [B1 B2].
  split; congruence.
Qed.

Lemma pass_step_refl cfg w : pass_step cfg w w.
Proof.
  unfold pass_step. repeat split; auto.
  - apply Forall2_same, same_task_or_overdue_refl.
  - exists (notifications (w_db w)), []. rewrite app_nil_r. repeat split.
    + apply Forall2_same, same_notification_refl.
    + constructor.
  - exists []. now rewrite app_nil_r.
Qed.

Lemma pass_step_trans cfg w1 w2 w3 :
  pass_step cfg w1 w2 -> pass_step cfg w2 w3 -> pass_step cfg w1 w3.
Proof.
  unfold pass_step.
  intros [U1 [H1 [T1 [[k1 [a1 [N1 [K1 A1]]]] [D1 [B1 [l1 L1]]]]]]]
         [U2 [H2 [T2 [[k2 [a2 [N2 [K2 A2]]]] [D2 [B2 [l2 L2]]]]]]].
  split; [congruence|]. split; [congruence|]. split.
  { eapply Forall2_chain; eauto using same_task_or_overdue_trans. }
  split.
  { rewrite N1 in K2. apply Forall2_app_inv_l in K2.
    destruct K2 as [k2' [a1' [Hk [Ha ->]]]].
    exists k2', (a1' ++ a2). split; [now rewrite N2, app_assoc|]. split.
    - eapply Forall2_chain; eauto using same_notification_trans.
    - apply Forall_app. split; [|exact A2].
      clear - Ha A1. induction Ha as [|x y l l' Hxy _ IH]; [constructor|].
      inversion A1; subst. constructor; [eapply alert_row_same; eauto | auto]. }
  split; [auto|]. split; [congruence|].
  exists (l1 ++ l2). now rewrite L2, L1, app_assoc.
Qed.

Lemma pass_step_send cfg env chat message :
  moves (pass_step cfg) (Notifications.send_notification env chat message).
Proof.
  intros w. unfold Notifications.send_notification.
  destruct (negb (w_bot w)); cbn [snd]; [apply pass_step_refl|].
  destruct (pass_step_refl cfg w) as [U [H [T [N [D [B _]]]]]].
  unfold pass_step. cbn [w_db w_bot w_log]. repeat split; auto. eexists. reflexivity.
Qed.

Lemma pass_step_mark cfg now id :
  moves (pass_step cfg) (write (mark_notification_sent now id)).
Proof.
  intros w. unfold write, pass_step. cbn [snd w_db w_bot w_log].
  split; [reflexivity|]. split; [reflexivity|]. split.
  { apply Forall2_same, same_task_or_overdue_refl. }
  split.
  { eexists _, []. rewrite app_nil_r. split; [reflexivity|]. split; [|constructor].
    cbn [notifications mark_notification_sent set_notifications].
    induction (notifications (w_db w)) as [|n ns IH]; cbn [map]; constructor; [|exact IH].
    destruct (n_id n =? id); [|apply same_notification_refl].
    unfold same_notification, mark_sent. cbn. repeat split; auto. }
  split.
  { unfold notification_ids_distinct.
    cbn [notifications mark_notification_sent set_notifications].
    rewrite map_map.
    rewrite (map_ext (fun n => n_id (if n_id n =? id then mark_sent now n else n)) n_id);
      [auto|].
    intros n. destruct (n_id n =? id); reflexivity. }
  split; [reflexivity|]. exists []. now rewrite app_nil_r.
Qed.

Lemma pass_step_overdue cfg now :
  moves (pass_step cfg) (write (update_overdue_tasks now)).
Proof.
  intros w. unfold write, pass_step. cbn [snd w_db w_bot w_log].
  split; [reflexivity|]. split; [reflexivity|]. split.
  { rewrite update_overdue_tasks_tasks.
    induction (tasks (w_db w)) as [|t ts IH]; cbn [map]; constructor; [|exact IH].
    unfold flip_overdue. destruct (becomes_overdue now t) eqn:B;
      [|apply same_task_or_overdue_refl].
    unfold same_task_or_overdue. cbn. repeat (split; [reflexivity|]). right.
    split; [reflexivity|].
    unfold becomes_overdue, is_overdue in B.
    destruct (t_status t); cbn in B; auto;
      rewrite ?andb_false_r in B; discriminate. }
  split.
  { exists (notifications (w_db w)), []. rewrite app_nil_r. repeat split.
    - apply Forall2_same, same_notification_refl.
    - constructor. }
  split; [auto|]. split; [reflexivity|]. exists []. now rewrite app_nil_r.
Qed.

Lemma pass_step_alert cfg now user_id task_id message :
  moves (pass_step cfg)
    (write_ret (create_notification now user_id task_id "deadline" message
                  (get_current_tashkent_time cfg now))).
Proof.
  intros w. unfold write_ret.
  pose proof (create_notification_distinct now user_id task_id "deadline" message
                (get_current_tashkent_time cfg now) (w_db w)) as Hd.
  unfold create_notification in *.
  change (notif_type_of_str "deadline") with (Some Deadline) in *.
  cbn [snd] in *. unfold pass_step. cbn [w_db w_bot w_log].
  split; [reflexivity|]. split; [reflexivity|]. split.
  { apply Forall2_same, same_task_or_overdue_refl. }
  split.
  { eexists _, _. cbn [notifications set_notifications]. split; [reflexivity|]. split.
    - apply Forall2_same, same_notification_refl.
    - constructor; [|constructor]. split; reflexivity. }
  split; [exact Hd|]. split; [reflexivity|]. exists []. now rewrite app_nil_r.
Qed.

Ltac pass_step_go :=
  repeat first
    [ apply (moves_ret (pass_step_refl _))
    | apply (moves_lift (pass_step_refl _))
    | apply (moves_query (pass_step_refl _))
    | apply pass_step_send
    | apply pass_step_mark
    | apply pass_step_overdue
    | apply pass_step_alert
    | apply moves_try
    | apply (moves_for_each (pass_step_refl _) (pass_step_trans _)); intros ?
    | apply (moves_bind (pass_step_trans _)); [|intros ?]
    | match goal with
      | |- moves _ (if ?b then _ else _) => destruct b
      | |- moves _ (match ?x with _ => _ end) => destruct x
      end ].

Lemma pass_step_drain env now :
  moves (pass_step (config env)) (Notifications.check_and_send_notifications env now).
Proof.
  unfold Notifications.check_and_send_notifications, Notifications.send_pending.
  pass_step_go.
Qed.

Lemma pass_step_sweep env now :
  moves (pass_step (config env)) (Notifications.check_overdue_tasks env now).
Proof.
  unfold Notifications.check_overdue_tasks, Notifications.alert_overdue.
  cbv zeta. pass_step_go.
Qed.

Lemma pass_step_loop env now :
  moves (pass_step (config env)) (Notifications.loop_pass env now).
Proof.
  unfold Notifications.loop_pass. apply moves_try.
  apply (moves_bind (pass_step_trans _)); [apply pass_step_drain | intros _].
  apply (moves_bind (pass_step_trans _)); [apply pass_step_sweep | intros _].
  apply (moves_fixed (pass_step_refl _)). apply schedule_deadline_reminders_fixed.
Qed.

(** X15.  No pass of the notification loop raises, and any number of
    passes leaves the world as [pass_step] says: users and history as they
    were; every task in its place, changed at most from new or in progress
    to overdue; every notification in its place, changed at most by the
    sent mark, with only deadline alerts added behind them (each scheduled
    the display offset after its creation); distinct ids still distinct;
    the delivery log extended, never rewritten. *)
Theorem run_passes_step env (nows : list Z) w :
  (forall now w0, fst (Notifications.loop_pass env now w0) = Ok tt) /\
  pass_step (config env) w (run_passes env nows w).
Proof.
  split.
  - intros now w0. apply try_except_ok.
  - unfold run_passes. revert w.
    induction nows as [|now nows IH]; intros w; cbn [fold_left]; [apply pass_step_refl|].
    eapply pass_step_trans; [apply pass_step_loop | apply IH].
Qed.

(** ** A refused alert stops the sweep *)

Lemma alert_overdue_refused env now d1 t w :
  w_bot w = true ->
  telegram env (List.length (w_log w)) = false ->
  let out := Notifications.alert_overdue env now (task_row_tg d1 t) w in
  out = (Ok tt, w) \/
  (fst out = Raise TelegramError /\
   exists n chat,
     notifications (w_db (snd out)) = notifications (w_db w) ++ [n] /\
     n_task_id n = t_id t /\ n_type n = Deadline /\ n_is_sent n = false /\
     n_scheduled_at n = get_current_tashkent_time (config env) now /\
     w_log (snd out)
     = w_log w ++ [ {| d_chat := chat; d_text := n_message n; d_ok := false |} ]).
Proof.
  intros Hb Htele. cbv zeta. unfold Notifications.alert_overdue.
  cbv [bind lift query ret write write_ret].
  change (get "id" (task_row_tg d1 t)) with (Ok (VInt (t_id t))).
  change (get "assignee_telegram_id" (task_row_tg d1 t))
    with (Ok (opt_int (option_map u_telegram_id (joined_user d1 (t_assignee_id t))))).
  cbn [rbind as_int].
  destruct (exists_notification_by_task_type (w_db w) (t_id t) "deadline");
    [left; reflexivity|].
  destruct (truthy (opt_int (option_map u_telegram_id (joined_user d1 (t_assignee_id t)))))
    eqn:Et; [|left; reflexivity].
  pose proof (proj1 (truthy_telegram_id _ _) Et) as [u [Hj Hu]].
  rewrite Hj. cbn [option_map opt_int].
  destruct (get_user_by_telegram_id (w_db w) (VInt (u_telegram_id u))) as [assignee|] eqn:Eg;
    [|left; reflexivity].
  assert (Ha : exists u', assignee = user_row u').
  { unfold get_user_by_telegram_id in Eg.
    destruct (find _ (users (w_db w))) as [u'|]; [|discriminate].
    injection Eg as <-. now exists u'. }
  destruct Ha as [u' ->].
  change (get "id" (user_row u')) with (Ok (VInt (u_id u'))).
  cbn [rbind as_int]. unfold create_notification.
  change (notif_type_of_str "deadline") with (Some Deadline). cbv beta iota zeta.
  unfold Notifications.send_notification. cbn [w_bot w_log w_db].
  rewrite Hb, Htele. cbn [negb fst snd w_db w_log].
  right. split; [reflexivity|].
  eexists _, _. cbn [notifications set_notifications].
  split; [reflexivity|]. cbn [n_task_id n_type n_is_sent n_scheduled_at n_message].
  repeat split.
Qed.

Lemma sweep_loop_refused env now d1 L : forall w,
  w_bot w = true ->
  telegram env (List.length (w_log w)) = false ->
  let out := for_each (Notifications.alert_overdue env now) (map (task_row_tg d1) L) w in
  out = (Ok tt, w) \/
  (fst out = Raise TelegramError /\
   exists t n chat,
     In t L /\
     notifications (w_db (snd out)) = notifications (w_db w) ++ [n] /\
     n_task_id n = t_id t /\ n_type n = Deadline /\ n_is_sent n = false /\
     n_scheduled_at n = get_current_tashkent_time (config env) now /\
     w_log (snd out)
     = w_log w ++ [ {| d_chat := chat; d_text := n_message n; d_ok := false |} ]).
Proof.
  induction L as [|x L IH]; intros w Hb Htele; cbv zeta; [left; reflexivity|].
  cbn [map for_each]. unfold bind.
  destruct (alert_overdue_refused env now d1 x w Hb Htele) as [E|[E [n [chat H]]]].
  - cbv zeta in E. rewrite E.
    destruct (IH w Hb Htele) as [E'|[E' [t [n [chat [Hin H]]]]]]; [now left|].
    right. split; [exact E'|]. exists t, n, chat. split; [now right | exact H].
  - cbv zeta in E, H.
    destruct (Notifications.alert_overdue env now (task_row_tg d1 x) w) as [[[]|e] w1];
      cbn [fst snd] in *; [discriminate|].
    right. split; [exact E|]. exists x, n, chat. split; [now left | exact H].
Qed.

(** X16.  When Telegram refuses the next message, the deadline sweep sends
    at most that one: either no alert was due and the sweep ends normally
    with notifications and log as they were, or it ends with the
    [TelegramError] of the first alert it tried.  Then exactly one
    notification was added, a deadline alert of an overdue task, left
    unsent; the log has the one refused attempt; the overdue tasks after it
    were not looked at in this pass; and the drain picks the alert up only
    from the display offset after the sweep on. *)
Theorem sweep_stops_at_refused_alert env now w :
  w_bot w = true ->
  telegram env (List.length (w_log w)) = false ->
  let out := Notifications.check_overdue_tasks env now w in
  tasks (w_db (snd out)) = tasks (update_overdue_tasks now (w_db w)) /\
  ((fst out = Ok tt /\
    notifications (w_db (snd out)) = notifications (w_db w) /\
    w_log (snd out) = w_log w) \/
   (fst out = Raise TelegramError /\
    exists t n chat,
      In t (tasks (w_db w)) /\ is_overdue now t = true /\
      notifications (w_db (snd out)) = notifications (w_db w) ++ [n] /\
      n_task_id n = t_id t /\ n_type n = Deadline /\ n_is_sent n = false /\
      (forall now', is_pending now' n = true <->
                    get_current_tashkent_time (config env) now <= now') /\
      w_log (snd out)
      = w_log w ++ [ {| d_chat := chat; d_text := n_message n; d_ok := false |} ])).
Proof.
  intros Hb Htele. cbv zeta.
  destruct (sweep_once env now w) as [_ [Ht _]]. split; [exact Ht|]. clear Ht.
  unfold Notifications.check_overdue_tasks. cbv [bind write query]. cbn [w_db].
  set (d1 := update_overdue_tasks now (w_db w)).
  set (w0 := {| w_db := d1; w_bot := w_bot w; w_log := w_log w |}).
  unfold get_overdue_tasks.
  destruct (sweep_loop_refused env now d1 (filter (is_overdue now) (tasks d1)) w0 Hb Htele)
    as [E|[E [t' [n [chat [Hin [Hn [H1 [H2 [H3 [H4 H5]]]]]]]]]]]; cbv zeta in *.
  - rewrite E. left. auto.
  - right. split; [exact E|].
    apply filter_In in Hin. destruct Hin as [Hin Ho].
    unfold d1 in Hin. rewrite update_overdue_tasks_tasks in Hin.
    apply in_map_iff in Hin. destruct Hin as [t [<- Hin]].
    rewrite flip_overdue_is_overdue in Ho.
    pose proof (flip_overdue_key now t) as Hk. injection Hk as Hk1 _.
    exists t, n, chat. repeat split; try assumption; try congruence.
    + intros Hp. unfold is_pending in Hp. rewrite H3, H4 in Hp. now apply Z.leb_le.
    + intros Hle. unfold is_pending. rewrite H3, H4. now apply Z.leb_le.
Qed.

Lemma sweep_stops_at_refused_alert_witness :
  let w := world_of (db_of [task1 New None; task2] []) in
  let out := Notifications.check_overdue_tasks env_first_fails 200000 w in
  tasks (w_db (snd out)) = tasks (update_overdue_tasks 200000 (w_db w)) /\
  ((fst out = Ok tt /\
    notifications (w_db (snd out)) = notifications (w_db w) /\
    w_log (snd out) = w_log w) \/
   (fst out = Raise TelegramError /\
    exists t n chat,
      In t (tasks (w_db w)) /\ is_overdue 200000 t = true /\
      notifications (w_db (snd out)) = notifications (w_db w) ++ [n] /\
      n_task_id n = t_id t /\ n_type n = Deadline /\ n_is_sent n = false /\
      (forall now', is_pending now' n = true <->
                    get_current_tashkent_time (config env_first_fails) 200000 <= now') /\
      w_log (snd out)
      = w_log w ++ [ {| d_chat := chat; d_text := n_message n; d_ok := false |} ])).
Proof.
  apply (sweep_stops_at_refused_alert env_first_fails 200000
           (world_of (db_of [task1 New None; task2] []))).
  - reflexivity.
  - reflexivity.
Defined.

(** ** A pass in which Telegram accepts everything *)

Lemma delivered_all tele ps :
  (forall k, tele k = true) ->
  forall base, delivered_ids tele base ps = map (fun p => n_id (fst (fst p))) ps.
Proof.
  intros H. induction ps as [|[[n u] t] ps IH]; intros base; [reflexivity|].
  cbn [delivered_ids map fst]. now rewrite H, IH.
Qed.

Lemma drained_log_length tele now ps : forall w,
  List.length (w_log (drained tele now ps w))
  = (List.length (w_log w) + List.length ps)%nat.
Proof.
  induction ps as [|[[n u] t] ps IH]; intros w; cbn [drained List.length]; [lia|].
  rewrite IH. cbn [w_log]. rewrite length_app. cbn [List.length]. lia.
Qed.

Lemma pending_triple_complete now d n p :
  In n (notifications d) -> is_pending now n = true ->
  pending_triple d n = Some p -> In p (pending_triples now d).
Proof.
  intros Hin Hp Ht. unfold pending_triples. apply in_filter_map. exists n.
  split; [|exact Ht].
  apply (Permutation_in _ (Permutation_sym (order_by_perm _ _))).
  apply filter_In. auto.
Qed.

Lemma filter_map_none {A B} (f : A -> option B) (l : list A) :
  (forall x, In x l -> f x = None) -> filter_map f l = [].
Proof.
  induction l as [|a l IH]; intros H; cbn [filter_map]; [reflexivity|].
  rewrite (H a) by now left. apply IH. intros x Hx. apply H. now right.
Qed.

(** X17.  When Telegram accepts every message, one drain pass makes one
    attempt per pending notification and leaves nothing pending at that
    instant: the query that selected them now returns no row, and a second
    pass at the same instant does nothing. *)
Theorem drain_empties_queue env now w :
  w_bot w = true ->
  (forall k, telegram env k = true) ->
  let out := Notifications.check_and_send_notifications env now w in
  fst out = Ok tt /\
  get_pending_notifications now (w_db (snd out)) = [] /\
  List.length (w_log (snd out))
  = (List.length (w_log w) + List.length (get_pending_notifications now (w_db w)))%nat /\
  Notifications.check_and_send_notifications env now (snd out) = (Ok tt, snd out).
Proof.
  intros Hb Hall. cbv zeta.
  assert (Hrun : Notifications.check_and_send_notifications env now w
                 = (Ok tt, drained (telegram env) now (pending_triples now (w_db w)) w)).
  { unfold Notifications.check_and_send_notifications, bind, query.
    rewrite pending_rows_are_triples. apply (drain_loop env now _ w Hb). }
  rewrite Hrun. cbn [fst snd].
  set (ps := pending_triples now (w_db w)).
  destruct (drained_db (telegram env) now ps w) as [Hu [Ht Hn]].
  rewrite (delivered_all _ _ Hall) in Hn.
  assert (Hempty : get_pending_notifications now (w_db (drained (telegram env) now ps w)) = []).
  { rewrite pending_rows_are_triples. unfold pending_triples.
    rewrite filter_map_none; [reflexivity|].
    intros x Hx.
    apply (Permutation_in _ (order_by_perm _ _)) in Hx.
    apply filter_In in Hx. destruct Hx as [Hx Hp].
    rewrite Hn in Hx. unfold mark_all in Hx. apply in_map_iff in Hx.
    destruct Hx as [n [Hxn Hin]].
    destruct (existsb (Z.eqb (n_id n)) (map (fun p => n_id (fst (fst p))) ps)) eqn:Ex.
    - subst x. unfold is_pending, mark_sent in Hp. cbn in Hp. discriminate.
    - subst x. rewrite (pending_triple_same (w_db w)) by assumption.
      destruct (pending_triple (w_db w) n) as [p|] eqn:Ep; [|reflexivity].
      exfalso.
      pose proof (pending_triple_complete now (w_db w) n p Hin Hp Ep) as Hps.
      assert (Hid : n_id (fst (fst p)) = n_id n).
      { unfold pending_triple in Ep.
        destruct (user_by_id (w_db w) (n_user_id n)); [|discriminate].
        destruct (find _ (tasks (w_db w))); [|discriminate].
        now injection Ep as <-. }
      assert (existsb (Z.eqb (n_id n)) (map (fun p => n_id (fst (fst p))) ps) = true);
        [|congruence].
      apply existsb_exists. exists (n_id n). split; [|apply Z.eqb_refl].
      rewrite <- Hid.
      exact (in_map (fun q : Notification * User * Task => n_id (fst (fst q))) ps p Hps). }
  split; [reflexivity|]. split; [exact Hempty|]. split.
  - rewrite drained_log_length, pending_rows_are_triples, length_map. reflexivity.
  - unfold Notifications.check_and_send_notifications, bind, query.
    rewrite Hempty. reflexivity.
Qed.

Lemma drain_empties_queue_witness :
  let w := world_of (db_of [task1 New None] [reminder 1; reminder 2]) in
  let out := Notifications.check_and_send_notifications env_ok 50 w in
  fst out = Ok tt /\
  get_pending_notifications 50 (w_db (snd out)) = [] /\
  List.length (w_log (snd out))
  = (List.length (w_log w) + List.length (get_pending_notifications 50 (w_db w)))%nat /\
  Notifications.check_and_send_notifications env_ok 50 (snd out) = (Ok tt, snd out).
Proof.
  apply (drain_empties_queue env_ok 50
           (world_of (db_of [task1 New None] [reminder 1; reminder 2]))).
  - reflexivity.
  - intros k. reflexivity.
Defined.

(** ** Reassigning a task that was alerted *)

Lemma run_sweeps_step env nows : forall w,
  pass_step (config env) w (run_sweeps env nows w).
Proof.
  unfold run_sweeps.
  induction nows as [|now nows IH]; intros w; cbn [fold_left]; [apply pass_step_refl|].
  eapply pass_step_trans; [apply pass_step_sweep | apply IH].
Qed.

Lemma filter_kept (p : Notification -> bool) (l k : list Notification) :
  (forall n n', same_notification n n' -> p n' = p n) ->
  Forall2 same_notification l k ->
  map n_user_id (filter p k) = map n_user_id (filter p l).
Proof.
  intros Hp H. induction H as [|n n' l k Hn _ IH]; [reflexivity|].
  cbn [filter]. rewrite (Hp n n' Hn).
  destruct (p n); cbn [map]; [|exact IH].
  f_equal; [|exact IH]. unfold same_notification in Hn. tauto.
Qed.

Lemma assign_task_notifications now tid new uid d :
  notifications (snd (assign_task now tid new uid d)) = notifications d.
Proof.
  unfold assign_task. destruct (find _ (tasks d)); reflexivity.
Qed.

(** X18.  The existence check of the sweep looks at the task, not at the
    user: once a task has a deadline alert, reassigning it and running any
    number of sweeps adds none, and the task's alerts keep the recipients
    they had, so the new assignee is never told that the task is
    overdue. *)
Theorem reassigned_task_is_not_alerted_again env now nows w task_id new_assignee user_id :
  (1 <= deadline_count (w_db w) task_id)%nat ->
  let w1 := with_db (snd (assign_task now task_id new_assignee user_id (w_db w))) w in
  let w2 := run_sweeps env nows w1 in
  deadline_count (w_db w2) task_id = deadline_count (w_db w) task_id /\
  map n_user_id (deadline_alerts (w_db w2) task_id)
  = map n_user_id (deadline_alerts (w_db w) task_id).
Proof.
  intros Hc. cbv zeta.
  set (w1 := with_db (snd (assign_task now task_id new_assignee user_id (w_db w))) w).
  assert (Hn1 : notifications (w_db w1) = notifications (w_db w))
    by apply assign_task_notifications.
  assert (Hc1 : deadline_count (w_db w1) task_id = deadline_count (w_db w) task_id).
  { unfold deadline_count. now rewrite Hn1. }
  destruct (run_sweeps_invariant env nows w1) as [_ [_ Hr]].
  assert (Hsame : deadline_count (w_db (run_sweeps env nows w1)) task_id
                  = deadline_count (w_db w) task_id).
  { destruct (Hr task_id) as [E|[E _]]; lia. }
  split; [exact Hsame|].
  destruct (run_sweeps_step env nows w1) as [_ [_ [_ [[kept [added [Hn [Hk _]]]] _]]]].
  set (p := fun n => (n_task_id n =? task_id) && notif_type_eqb (n_type n) Deadline).
  assert (Hp : forall n n', same_notification n n' -> p n' = p n).
  { intros n n' [_ [_ [E1 [E2 _]]]]. unfold p. now rewrite E1, E2. }
  rewrite Hn1 in Hk.
  pose proof (filter_kept p _ _ Hp Hk) as Hmap.
  unfold deadline_count in Hsame. unfold deadline_alerts.
  fold p in Hsame |- *. rewrite Hn in Hsame |- *.
  rewrite filter_app in Hsame |- *. rewrite length_app in Hsame.
  assert (Hlen : List.length (filter p kept)
                 = List.length (filter p (notifications (w_db w)))).
  { rewrite <- (length_map n_user_id (filter p kept)), Hmap. apply length_map. }
  assert (Hnil : filter p added = []).
  { destruct (filter p added); [reflexivity | cbn [List.length] in Hsame; lia]. }
  rewrite Hnil, app_nil_r. exact Hmap.
Qed.

Lemma reassigned_task_is_not_alerted_again_witness :
  let w := snd (Notifications.check_overdue_tasks env_ok 200000
                  (world_of (db_of [task1 New None] []))) in
  let w1 := with_db (snd (assign_task 200100 1 3 1 (w_db w))) w in
  let w2 := run_sweeps env_ok [200300; 200600] w1 in
  deadline_count (w_db w2) 1 = deadline_count (w_db w) 1 /\
  map n_user_id (deadline_alerts (w_db w2) 1) = map n_user_id (deadline_alerts (w_db w) 1).
Proof.
  apply (reassigned_task_is_not_alerted_again env_ok 200100 [200300; 200600]
           (snd (Notifications.check_overdue_tasks env_ok 200000
                   (world_of (db_of [task1 New None] [])))) 1 3 1).
  vm_compute. lia.
Defined.

(** ** The statistics sheet *)

Lemma count_active_task_rows d ts :
  count_active (map (task_row d) ts)
  = Ok (Z.of_nat (List.length (filter (fun t => is_active_status (t_status t)) ts))).
Proof.
  induction ts as [|t ts IH]; [reflexivity|].
  cbn [map count_active]. rewrite IH.
  change (get "status" (task_row d t)) with (Ok (VStr (status_str (t_status t)))).
  cbn [rbind filter].
  assert (E : value_eqb (VStr (status_str (t_status t))) (VStr "new")
              || value_eqb (VStr (status_str (t_status t))) (VStr "in_progress")
              = is_active_status (t_status t))
    by (destruct (t_status t); reflexivity).
  rewrite E. destruct (is_active_status (t_status t)); [|reflexivity].
  cbn [List.length]. f_equal. lia.
Qed.

Lemma count_status_task_rows d s ts :
  count_eq "status" (VStr (status_str s)) (map (task_row d) ts) = Ok (count_status s ts).
Proof.
  rewrite count_eq_task_rows. unfold count_status. do 3 f_equal.
  apply filter_ext. intros t. destruct (t_status t), s; reflexivity.
Qed.

Lemma count_priority_task_rows d p ts :
  count_eq "priority" (VStr (priority_str p)) (map (task_row d) ts)
  = Ok (count_priority p ts).
Proof.
  unfold count_priority. induction ts as [|t ts IH]; [reflexivity|].
  cbn [map count_eq]. rewrite IH.
  change (get "priority" (task_row d t)) with (Ok (VStr (priority_str (t_priority t)))).
  cbn [rbind filter].
  destruct (t_priority t), p; cbn [value_eqb priority_str String.eqb Ascii.eqb Bool.eqb andb];
    cbn [List.length]; f_equal; lia.
Qed.

Lemma priority_partition (ts : list Task) :
  count_priority High ts + count_priority Medium ts + count_priority Low ts
  = Z.of_nat (List.length ts).
Proof.
  unfold count_priority. induction ts as [|t ts IH]; [reflexivity|].
  cbn [filter]. destruct (t_priority t); cbn [List.length]; lia.
Qed.

Lemma active_split (ts : list Task) :
  Z.of_nat (List.length (filter (fun t => is_active_status (t_status t)) ts))
  = count_status New ts + count_status InProgress ts.
Proof.
  unfold count_status. induction ts as [|t l IH]; [reflexivity|].
  cbn [filter]. unfold is_active_status at 1.
  destruct (t_status t); cbn [status_eqb orb List.length]; lia.
Qed.

Lemma percent_bounds (c n : Z) :
  0 <= c <= n ->
  (0 <= inject_Z c / inject_Z (Z.max n 1) * 100 <= 100)%Q.
Proof.
  intros H.
  assert (Hm : 0 < Z.max n 1) by lia.
  destruct (Z.max n 1) as [|q|q] eqn:E; try lia.
  unfold Qle, Qdiv, Qmult, Qinv, inject_Z. cbn [Qnum Qden].
  split; [lia | nia].
Qed.

(** X19.  On the task rows of any database the statistics sheet is
    computed, and its numbers are the counts by status and by priority:
    completed, overdue and active tasks together with the cancelled ones
    (which the sheet does not show) make up the total, the three priority
    counts make up the total as well, and the completion percentage lies
    between 0 and 100. *)
Theorem statistics_sheet_counts (d : DB) (ts : list Task) :
  exists rate,
    _create_statistics_sheet (map (task_row d) ts)
    = Ok [ ("Общая статистика", CText "");
           ("Всего задач", CInt (Z.of_nat (List.length ts)));
           ("Выполнено", CInt (count_status Completed ts));
           ("Просрочено", CInt (count_status Overdue ts));
           ("Активных", CInt (count_status New ts + count_status InProgress ts));
           ("Процент выполнения", CPercent rate);
           ("", CText "");
           ("Статистика по приоритетам", CText "");
           ("Высокий приоритет", CInt (count_priority High ts));
           ("Средний приоритет", CInt (count_priority Medium ts));
           ("Низкий приоритет", CInt (count_priority Low ts)) ] /\
    (0 <= rate <= 100)%Q /\
    count_status Completed ts + count_status Overdue ts
    + (count_status New ts + count_status InProgress ts) + count_status Cancelled ts
    = Z.of_nat (List.length ts) /\
    count_priority High ts + count_priority Medium ts + count_priority Low ts
    = Z.of_nat (List.length ts).
Proof.
  eexists. split; [|split; [|split]].
  - unfold _create_statistics_sheet. cbv zeta.
    rewrite (count_status_task_rows d Completed), (count_status_task_rows d Overdue).
    rewrite count_active_task_rows, active_split.
    rewrite (count_priority_task_rows d Low), (count_priority_task_rows d Medium),
            (count_priority_task_rows d High).
    cbn [rbind]. rewrite completion_rate_value. cbn [rbind].
    rewrite length_map. reflexivity.
  - apply percent_bounds. unfold count_status. split; [lia|].
    pose proof (filter_length_le (fun t => status_eqb (t_status t) Completed) ts). lia.
  - pose proof (status_partition ts) as H. rewrite active_split in H. lia.
  - apply priority_partition.
Qed.

(** ** The user sheet *)

Lemma value_eqb_eq (a b : value) : value_eqb a b = true <-> a = b.
Proof.
  destruct a, b; cbn [value_eqb]; split; intros H; try discriminate; try reflexivity.
  - apply Z.eqb_eq in H. now subst.
  - injection H as ->. apply Z.eqb_refl.
  - apply String.eqb_eq in H. now subst.
  - injection H as ->. apply String.eqb_refl.
  - apply Z.eqb_eq in H. now subst.
  - injection H as ->. apply Z.eqb_refl.
Qed.

Lemma value_eqb_neq (a b : value) : value_eqb a b = false <-> a <> b.
Proof.
  split.
  - intros H E. apply value_eqb_eq in E. congruence.
  - intros H. destruct (value_eqb a b) eqn:E; [|reflexivity].
    apply value_eqb_eq in E. contradiction.
Qed.

Lemma NoDup_snoc {A} (l : list A) (x : A) :
  NoDup l -> ~ In x l -> NoDup (l ++ [x]).
Proof.
  intros Hd Hx. induction l as [|a l IH]; cbn [app].
  - constructor; [intros [] | constructor].
  - inversion Hd as [|? ? Hn Hd']; subst. constructor.
    + rewrite in_app_iff. intros [H|[H|[]]]; [contradiction|].
      apply Hx. now left.
    + apply IH; [exact Hd'|]. intros H. apply Hx. now right.
Qed.

Lemma add_to_group_keys key task gs :
  map fst (add_to_group key task gs)
  = if existsb (fun k => value_eqb k key) (map fst gs) then map fst gs
    else map fst gs ++ [key].
Proof.
  induction gs as [|[k ts] gs IH]; [reflexivity|].
  cbn [add_to_group map fst existsb].
  destruct (value_eqb k key); cbn [orb map fst]; [reflexivity|].
  rewrite IH. destruct (existsb _ (map fst gs)); reflexivity.
Qed.

Lemma add_to_group_in key task gs k rs :
  NoDup (map fst gs) ->
  In (k, rs) (add_to_group key task gs) ->
  (k <> key /\ In (k, rs) gs) \/
  (k = key /\ ((exists rs0, In (k, rs0) gs /\ rs = rs0 ++ [task]) \/
               (~ In key (map fst gs) /\ rs = [task]))).
Proof.
  induction gs as [|[k0 ts] gs IH]; intros Hd Hin.
  - cbn [add_to_group] in Hin. destruct Hin as [[= <- <-]|[]].
    right. split; [reflexivity|]. right. split; [intros [] | reflexivity].
  - cbn [map fst] in Hd. inversion Hd as [|? ? Hn Hd']; subst.
    cbn [add_to_group] in Hin. destruct (value_eqb k0 key) eqn:E.
    + apply value_eqb_eq in E. subst k0. destruct Hin as [[= <- <-]|Hin].
      * right. split; [reflexivity|]. left. exists ts. split; [now left | reflexivity].
      * left. split; [|now right]. intros ->. apply Hn.
        apply in_map_iff. exists (key, rs). auto.
    + apply value_eqb_neq in E. destruct Hin as [[= <- <-]|Hin].
      * left. split; [exact E | now left].
      * destruct (IH Hd' Hin) as [[H1 H2]|[H1 [[rs0 [H2 H3]]|[H2 H3]]]].
        -- left. split; [exact H1 | now right].
        -- right. split; [exact H1|]. left. exists rs0. split; [now right | exact H3].
        -- right. split; [exact H1|]. right. split; [|exact H3].
           cbn [map fst]. intros [H|H]; [congruence | contradiction].
Qed.

Lemma add_to_group_grouped task gs P :
  grouped gs P ->
  grouped (add_to_group (assignee_key task) task gs) (P ++ [task]).
Proof.
  intros [Hd [Hg Hk]]. set (key := assignee_key task).
  assert (Hex : existsb (fun k => value_eqb k key) (map fst gs) = true
                <-> In key (map fst gs)).
  { rewrite existsb_exists. split.
    - intros [k [Hin E]]. apply value_eqb_eq in E. now subst.
    - intros Hin. exists key. split; [exact Hin | now apply value_eqb_eq]. }
  split; [|split].
  - rewrite add_to_group_keys.
    destruct (existsb _ (map fst gs)) eqn:E; [exact Hd|].
    apply NoDup_snoc; [exact Hd|]. intros H. apply Hex in H. congruence.
  - intros k rs Hin. rewrite filter_app. cbn [filter]. fold key.
    destruct (add_to_group_in key task gs k rs Hd Hin)
      as [[H1 H2]|[H1 [[rs0 [H2 H3]]|[H2 H3]]]].
    + destruct (Hg k rs H2) as [Hne Hrs]. split; [exact Hne|].
      assert (E : value_eqb key k = false) by (apply value_eqb_neq; congruence).
      rewrite E, app_nil_r. exact Hrs.
    + destruct (Hg k rs0 H2) as [Hne Hrs]. subst k rs.
      split; [now destruct rs0|].
      rewrite (proj2 (value_eqb_eq key key) eq_refl). now rewrite <- Hrs.
    + subst k rs. split; [discriminate|].
      rewrite (proj2 (value_eqb_eq key key) eq_refl).
      rewrite filter_none; [reflexivity|].
      intros r Hr. apply value_eqb_neq. intros E. apply H2. rewrite <- E. now apply Hk.
  - intros r Hr. rewrite add_to_group_keys. apply in_app_iff in Hr.
    destruct (existsb _ (map fst gs)) eqn:E.
    + destruct Hr as [Hr|[<-|[]]]; [now apply Hk | now apply Hex].
    + apply in_app_iff. destruct Hr as [Hr|[<-|[]]]; [left; now apply Hk | right; now left].
Qed.

Lemma group_by_assignee_grouped rows : forall gs P,
  (forall r, In r rows -> exists name, get "assignee_name" r = Ok name) ->
  grouped gs P ->
  exists gs', group_by_assignee rows gs = Ok gs' /\ grouped gs' (P ++ rows).
Proof.
  induction rows as [|task rows IH]; intros gs P Hrows Hg.
  - exists gs. rewrite app_nil_r. auto.
  - cbn [group_by_assignee].
    destruct (Hrows task (or_introl eq_refl)) as [name Hn]. rewrite Hn. cbn [rbind].
    assert (Ek : (if truthy name then name else VStr "Не назначен") = assignee_key task).
    { unfold assignee_key. now rewrite Hn. }
    cbv zeta. rewrite Ek.
    destruct (IH (add_to_group (assignee_key task) task gs) (P ++ [task])) as [gs' [H1 H2]].
    + intros r Hr. apply Hrows. now right.
    + now apply add_to_group_grouped.
    + exists gs'. split; [exact H1|]. now rewrite <- app_assoc in H2.
Qed.

Lemma filter_task_rows d (p : Row -> bool) ts :
  filter p (map (task_row d) ts) = map (task_row d) (filter (fun t => p (task_row d t)) ts).
Proof.
  induction ts as [|t ts IH]; [reflexivity|].
  cbn [map filter]. destruct (p (task_row d t)); cbn [map]; now rewrite IH.
Qed.

Lemma map_results_analytics_rows d ts gs :
  (forall k rs, In (k, rs) gs ->
     rs <> [] /\
     rs = filter (fun r => value_eqb (assignee_key r) k) (map (task_row d) ts)) ->
  exists analytics,
    map_results analytics_row gs = Ok analytics /\
    map a_user analytics = map fst gs /\
    forall r, In r analytics ->
      let mine := filter (fun t => value_eqb (assignee_key (task_row d t)) (a_user r)) ts in
      1 <= a_total r /\ a_total r = Z.of_nat (List.length mine) /\
      a_completed r = count_status Completed mine /\
      a_overdue r = count_status Overdue mine /\
      a_active r = count_status New mine + count_status InProgress mine.
Proof.
  induction gs as [|[k rs] gs IH]; intros Hg.
  - exists []. split; [reflexivity|]. split; [reflexivity|]. intros r [].
  - destruct IH as [analytics [H1 [H2 H3]]].
    { intros k' rs' Hin. apply Hg. now right. }
    destruct (Hg k rs (or_introl eq_refl)) as [Hne Hrs].
    rewrite filter_task_rows in Hrs.
    set (mine := filter (fun t => value_eqb (assignee_key (task_row d t)) k) ts) in *.
    cbn [map_results]. unfold analytics_row at 1. cbv zeta.
    rewrite Hrs, (count_status_task_rows d Completed), (count_status_task_rows d Overdue),
            count_active_task_rows, active_split.
    cbn [rbind]. rewrite completion_rate_value. cbn [rbind]. rewrite H1. cbn [rbind].
    eexists. split; [reflexivity|]. split; [cbn [map a_user fst]; now rewrite H2|].
    intros row [<-|Hin]; [|now apply H3].
    cbv zeta. cbn [a_user a_total a_completed a_overdue a_active]. fold mine.
    rewrite length_map. repeat split.
    assert (mine <> []) by (intros E; apply Hne; rewrite Hrs, E; reflexivity).
    destruct mine; [contradiction | cbn [List.length]; lia].
Qed.

(** X20.  The user sheet has one row per assignee name that occurs among
    the tasks, and no name twice.  Every task is counted in exactly the row
    of its name: the row's total is the number of the tasks of that name
    (at least one, so the floor of the rate is never used here), and its
    other counts are those tasks by status.  A task whose assignee is
    missing, is no user, or is a user without first or last name is counted
    under the name for unassigned tasks. *)
Theorem user_analytics_groups (d : DB) (ts : list Task) :
  exists analytics,
    _create_user_analytics_sheet (map (task_row d) ts) = Ok analytics /\
    NoDup (map a_user analytics) /\
    (forall t, In t ts -> In (assignee_key (task_row d t)) (map a_user analytics)) /\
    (forall r, In r analytics ->
       let mine := filter (fun t => value_eqb (assignee_key (task_row d t)) (a_user r)) ts in
       1 <= a_total r /\ a_total r = Z.of_nat (List.length mine) /\
       a_completed r = count_status Completed mine /\
       a_overdue r = count_status Overdue mine /\
       a_active r = count_status New mine + count_status InProgress mine) /\
    (forall t,
       (forall u, joined_user d (t_assignee_id t) = Some u ->
                  u_first_name u = None \/ u_last_name u = None) ->
       assignee_key (task_row d t) = VStr "Не назначен").
Proof.
  destruct (group_by_assignee_grouped (map (task_row d) ts) [] []) as [gs [Hgs [Hd [Hg Hk]]]].
  - intros r Hin. apply in_map_iff in Hin. destruct Hin as [t [<- _]].
    eexists. reflexivity.
  - split; [constructor|]. split; [intros k rs []| intros r []].
  - cbn [app] in Hg, Hk.
    destruct (map_results_analytics_rows d ts gs Hg) as [analytics [H1 [H2 H3]]].
    exists analytics. split; [|split; [|split; [|split]]].
    + unfold _create_user_analytics_sheet. rewrite Hgs. exact H1.
    + now rewrite H2.
    + intros t Hin. rewrite H2. apply Hk. now apply in_map.
    + exact H3.
    + intros t Hu. unfold assignee_key.
      change (get "assignee_name" (task_row d t))
        with (Ok (sql_full_name (joined_user d (t_assignee_id t)))).
      destruct (joined_user d (t_assignee_id t)) as [u|]; [|reflexivity].
      cbn [sql_full_name]. destruct (Hu u eq_refl) as [-> | ->]; [reflexivity|].
      destruct (u_first_name u); reflexivity.
Qed.

(** ** The menu of statuses *)

Lemma change_status_parts (task_id : Z) :
  split "_" ("change_status_" ++ str_of_int task_id)%string
  = ["change"; "status"; str_of_int task_id].
Proof.
  change ("change_status_" ++ str_of_int task_id)%string
    with ("change" ++ String "_" ("status" ++ String "_" (str_of_int task_id)))%string.
  rewrite !split_app by reflexivity.
  rewrite split_none by apply str_of_int_no_underscore. reflexivity.
Qed.

Lemma handle_change_status_menu_eq env (u : User) w (t : Task) task_id :
  task_of (w_db w) task_id = Some t ->
  Bot.handle_change_status_menu env ("change_status_" ++ str_of_int task_id)%string
    (user_row u) w
  = (Ok (if may_change u t
         then Bot.Menu [ [Bot.task_status_button task_id "new"];
                         [Bot.task_status_button task_id "in_progress"];
                         [Bot.task_status_button task_id "completed"];
                         [Bot.task_status_button task_id "cancelled"];
                         [("task_" ++ str_of_int task_id)%string] ]
         else Bot.MenuForbidden), w).
Proof.
  intros Ht. unfold Bot.handle_change_status_menu. rewrite change_status_parts.
  cbv [bind lift query ret]. cbn [Bot.last_of rev app rbind].
  rewrite int_of_str_of_int. cbv beta iota.
  unfold get_task_by_id. unfold task_of in Ht. rewrite Ht. cbn [option_map].
  change (get "role" (user_row u)) with (Ok (VStr (role_str (u_role u)))).
  change (get "id" (user_row u)) with (Ok (VInt (u_id u))).
  change (get "assignee_id" (task_row_tg (w_db w) t)) with (Ok (opt_int (t_assignee_id t))).
  change (get "title" (task_row_tg (w_db w) t)) with (Ok (VStr (t_title t))).
  change (get "status" (task_row_tg (w_db w) t)) with (Ok (VStr (status_str (t_status t)))).
  cbv beta iota. unfold may_change.
  assert (Hname : exists name, TASK_STATUS (status_str (t_status t)) = Ok name)
    by (destruct (t_status t); eexists; reflexivity).
  destruct Hname as [name Hname].
  destruct (value_eqb (VStr (role_str (u_role u))) (VStr "admin")); cbn [negb rbind].
  - rewrite orb_true_r, Hname. reflexivity.
  - rewrite orb_false_r.
    destruct (value_eqb (opt_int (t_assignee_id t)) (VInt (u_id u))); cbn [negb];
      [rewrite Hname|]; reflexivity.
Qed.

(** X21.  The status menu ([change_status_<id>]) of an existing task is
    shown to an admin and to the task's assignee and refused to anybody
    else.  It offers new, in progress, completed and cancelled, not
    overdue.  Pressed by the user the menu was shown to, the buttons for
    new, completed and cancelled set that status whatever the status was
    (a completed or cancelled task is reopened by "new"), while the button
    for in progress changes nothing. *)
Theorem change_status_menu_buttons env now (u : User) w (t : Task) task_id :
  task_of (w_db w) task_id = Some t ->
  let data := ("change_status_" ++ str_of_int task_id)%string in
  let shown := Bot.handle_change_status_menu env data (user_row u) w in
  let press status :=
    Bot.change_task_status env now (Bot.task_status_button task_id status) (user_row u) w in
  Bot.button_callback_route data = Bot.HandleChangeStatusMenu /\
  (may_change u t = false -> shown = (Ok Bot.MenuForbidden, w)) /\
  (may_change u t = true ->
   shown = (Ok (Bot.Menu [ [Bot.task_status_button task_id "new"];
                           [Bot.task_status_button task_id "in_progress"];
                           [Bot.task_status_button task_id "completed"];
                           [Bot.task_status_button task_id "cancelled"];
                           [("task_" ++ str_of_int task_id)%string] ]), w) /\
   (forall s, s = New \/ s = Completed \/ s = Cancelled ->
      fst (press (status_str s)) = Ok Bot.StatusChanged /\
      status_of (w_db (snd (press (status_str s)))) task_id = Some s) /\
   fst (press "in_progress") <> Ok Bot.StatusChanged /\
   snd (press "in_progress") = w).
Proof.
  intros Ht. cbv zeta. split.
  { unfold Bot.button_callback_route. cbn. now rewrite prefix_empty. }
  rewrite (handle_change_status_menu_eq env u w t task_id Ht).
  split; [intros ->; reflexivity|].
  intros Hm. rewrite Hm. split; [reflexivity|]. split.
  - intros s Hs.
    assert (Hp : Bot.parse_task_status (Bot.task_status_button task_id (status_str s))
                 = Ok (task_id, status_str s)).
    { apply parse_task_status_plain. destruct Hs as [->|[->| ->]]; reflexivity. }
    assert (Hv : status_of_str (status_str s) = Some s)
      by (destruct Hs as [->|[->| ->]]; reflexivity).
    destruct (change_task_status_db env now _ u w task_id (status_str s) t s Hp Ht Hm Hv)
      as [H1 H2].
    split; [exact H1|]. rewrite H2.
    apply (status_of_update_task_status now task_id (status_str s) (u_id u) (w_db w) t s Ht Hv).
  - destruct (change_task_status_cases env now
                (Bot.task_status_button task_id "in_progress") (user_row u) w)
      as [[_ [tid [ns [t' [s [Hp [_ Hs]]]]]]]|H]; [|exact H].
    rewrite parse_task_status_in_progress in Hp.
    injection Hp as <- <-. discriminate.
Qed.

Lemma change_status_menu_buttons_witness :
  let w := world_of (db_of [task1 Completed (Some 400)] []) in
  let data := ("change_status_" ++ str_of_int 1)%string in
  let shown := Bot.handle_change_status_menu env_ok data (user_row worker1) w in
  let press status :=
    Bot.change_task_status env_ok 500 (Bot.task_status_button 1 status)
      (user_row worker1) w in
  Bot.button_callback_route data = Bot.HandleChangeStatusMenu /\
  (may_change worker1 (task1 Completed (Some 400)) = false ->
   shown = (Ok Bot.MenuForbidden, w)) /\
  (may_change worker1 (task1 Completed (Some 400)) = true ->
   shown = (Ok (Bot.Menu [ [Bot.task_status_button 1 "new"];
                           [Bot.task_status_button 1 "in_progress"];
                           [Bot.task_status_button 1 "completed"];
                           [Bot.task_status_button 1 "cancelled"];
                           [("task_" ++ str_of_int 1)%string] ]), w) /\
   (forall s, s = New \/ s = Completed \/ s = Cancelled ->
      fst (press (status_str s)) = Ok Bot.StatusChanged /\
      status_of (w_db (snd (press (status_str s)))) 1 = Some s) /\
   fst (press "in_progress") <> Ok Bot.StatusChanged /\
   snd (press "in_progress") = w).
Proof.
  apply (change_status_menu_buttons env_ok 500 worker1
           (world_of (db_of [task1 Completed (Some 400)] []))
           (task1 Completed (Some 400)) 1).
  reflexivity.
Defined.

(** ** The pages of a task list *)

Lemma slice_map {A B} (f : A -> B) (l : list A) (start stop : Z) :
  Bot.slice (map f l) start stop = map f (Bot.slice l start stop).
Proof. unfold Bot.slice. now rewrite skipn_map, firstn_map. Qed.

Lemma task_list_rows_plain d prefix (l : list Task) :
  Bot.concat_results (map (Bot.task_list_rows prefix VNone) (map (task_row d) l))
  = Ok (map (fun t => [(prefix ++ "_" ++ str_of_int (t_id t))%string]) l).
Proof.
  induction l as [|t l IH]; [reflexivity|].
  cbn [map Bot.concat_results]. rewrite IH. unfold Bot.task_list_rows.
  change (get "id" (task_row d t)) with (Ok (VInt (t_id t))).
  reflexivity.
Qed.

Lemma next_page_iff (len size page : Z) :
  0 < size -> 0 <= page -> 0 <= len ->
  (page <? (len + size - 1) / size - 1) = ((page + 1) * size <? len).
Proof.
  intros Hs Hp Hl.
  pose proof (Z.div_mod (len + size - 1) size ltac:(lia)) as E.
  pose proof (Z.mod_pos_bound (len + size - 1) size Hs) as Hr.
  set (q := (len + size - 1) / size) in *.
  set (r := (len + size - 1) mod size) in *.
  destruct (page <? q - 1) eqn:A; destruct ((page + 1) * size <? len) eqn:B;
    try reflexivity; exfalso.
  - apply Z.ltb_lt in A. apply Z.ltb_ge in B. nia.
  - apply Z.ltb_ge in A. apply Z.ltb_lt in B. nia.
Qed.

Lemma firstn_plus {A} (a b : nat) (l : list A) :
  firstn (a + b) l = firstn a l ++ firstn b (skipn a l).
Proof.
  revert l. induction a as [|a IH]; intros l; [reflexivity|].
  destruct l as [|x l]; [cbn [skipn]; now rewrite !firstn_nil|].
  cbn [Nat.add firstn skipn app]. now rewrite IH.
Qed.

Lemma pages_cover {A} (s : nat) (l : list A) (n : nat) :
  List.concat (map (fun p => firstn s (skipn (p * s) l)) (seq 0 n)) = firstn (n * s) l.
Proof.
  induction n as [|n IH]; [reflexivity|].
  rewrite seq_S, map_app, concat_app, IH. cbn [map List.concat Nat.add].
  rewrite app_nil_r. replace (S n * s)%nat with (n * s + s)%nat by lia.
  now rewrite firstn_plus.
Qed.

(** X22.  The list of all tasks as an admin sees it, for a positive page
    size: page [p] shows one button per task of the [p]-th slice, in
    order, then the navigation row, then the main menu.  "Back" is there
    from the second page on and "next" exactly when tasks remain behind
    the page.  A page holds at most the page size, and the pages up to
    [total_pages] together show every task once, in the order of the
    list. *)
Theorem task_list_pages cfg (d : DB) (ts : list Task) prefix :
  0 < MAX_TASKS_PER_PAGE cfg ->
  (forall page, 0 <= page ->
     let back := if 0 <? page
                 then [ (prefix ++ "_page_" ++ str_of_int (page - 1))%string ] else [] in
     let next := if (page + 1) * MAX_TASKS_PER_PAGE cfg <? Z.of_nat (List.length ts)
                 then [ (prefix ++ "_page_" ++ str_of_int (page + 1))%string ] else [] in
     Bot.create_task_list_keyboard cfg (map (task_row d) ts) page prefix VNone
     = Ok (map (fun id => [(prefix ++ "_" ++ str_of_int id)%string]) (page_ids cfg ts page)
           ++ match back ++ next with [] => [] | nav => [nav] end
           ++ [ ["main_menu"] ]) /\
     Z.of_nat (List.length (page_ids cfg ts page)) <= MAX_TASKS_PER_PAGE cfg) /\
  List.concat (map (fun p => page_ids cfg ts (Z.of_nat p)) (seq 0 (Z.to_nat (total_pages cfg ts))))
  = map t_id ts.
Proof.
  intros Hs. set (size := MAX_TASKS_PER_PAGE cfg) in *. split.
  - intros page Hp. cbv zeta. split.
    + unfold Bot.create_task_list_keyboard. cbv zeta. fold size.
      rewrite slice_map, task_list_rows_plain. cbn [rbind].
      rewrite length_map, (next_page_iff _ size page Hs Hp) by lia.
      unfold page_ids. fold size. rewrite map_map.
      destruct (0 <? page), ((page + 1) * size <? Z.of_nat (List.length ts)); reflexivity.
    + unfold page_ids, Bot.slice. fold size. rewrite length_map.
      pose proof (firstn_le_length (Z.to_nat (page * size + size - page * size))
                    (skipn (Z.to_nat (page * size)) ts)) as H.
      lia.
  - unfold page_ids, total_pages, Bot.slice. fold size.
    set (s := Z.to_nat size).
    rewrite (map_ext _ (fun p => map t_id (firstn s (skipn (p * s) ts)))).
    + rewrite <- (map_map (fun p => firstn s (skipn (p * s) ts)) (map t_id)).
      rewrite <- concat_map, pages_cover. f_equal. apply firstn_all2.
      pose proof (Z.div_mod (Z.of_nat (List.length ts) + size - 1) size ltac:(lia)) as E.
      pose proof (Z.mod_pos_bound (Z.of_nat (List.length ts) + size - 1) size Hs) as Hr.
      set (q := (Z.of_nat (List.length ts) + size - 1) / size) in *.
      assert (0 <= q) by (apply Z.div_pos; lia).
      unfold s. nia.
    + intros p. do 2 f_equal.
      * unfold s. f_equal. lia.
      * f_equal. unfold s. rewrite Z2Nat.inj_mul by lia. now rewrite Nat2Z.id.
Qed.

Lemma task_list_pages_witness :
  (forall page, 0 <= page ->
     let back := if 0 <? page
                 then [ ("task" ++ "_page_" ++ str_of_int (page - 1))%string ] else [] in
     let next := if (page + 1) * MAX_TASKS_PER_PAGE default_config
                    <? Z.of_nat (List.length [task1 New None; task2])
                 then [ ("task" ++ "_page_" ++ str_of_int (page + 1))%string ] else [] in
     Bot.create_task_list_keyboard default_config
       (map (task_row (db_of [task1 New None; task2] [])) [task1 New None; task2])
       page "task" VNone
     = Ok (map (fun id => [("task" ++ "_" ++ str_of_int id)%string])
               (page_ids default_config [task1 New None; task2] page)
           ++ match back ++ next with [] => [] | nav => [nav] end
           ++ [ ["main_menu"] ]) /\
     Z.of_nat (List.length (page_ids default_config [task1 New None; task2] page))
     <= MAX_TASKS_PER_PAGE default_config) /\
  List.concat (map (fun p => page_ids default_config [task1 New None; task2] (Z.of_nat p))
              (seq 0 (Z.to_nat (total_pages default_config [task1 New None; task2]))))
  = map t_id [task1 New None; task2].
Proof.
  apply (task_list_pages default_config (db_of [task1 New None; task2] [])
           [task1 New None; task2] "task").
  reflexivity.
Defined.

(** ** An overdue task on the assignee's keyboards *)

Lemma task_of_flipped now d task_id :
  find (fun t => t_id t =? task_id) (map (flip_overdue now) (tasks d))
  = option_map (flip_overdue now) (task_of d task_id).
Proof.
  unfold task_of. induction (tasks d) as [|t ts IH]; [reflexivity|].
  cbn [map find].
  assert (E : t_id (flip_overdue now t) = t_id t).
  { pose proof (flip_overdue_key now t) as H. now injection H. }
  rewrite E. destruct (t_id t =? task_id); [reflexivity | exact IH].
Qed.

Lemma get_tasks_by_user_status d user_id s row :
  s <> "" ->
  In row (get_tasks_by_user d user_id (Some s)) ->
  get "status" row = Ok (VStr s).
Proof.
  intros Hs Hin. unfold get_tasks_by_user in Hin.
  apply in_map_iff in Hin. destruct Hin as [t [<- Hin]].
  apply (Permutation_in _ (order_by_perm _ _)) in Hin.
  apply filter_In in Hin. destruct Hin as [_ Hf].
  destruct (t_assignee_id t); [|discriminate].
  apply andb_true_iff in Hf. destruct Hf as [_ Hf]. unfold status_filter in Hf.
  destruct (String.eqb s "") eqn:E; [apply String.eqb_eq in E; contradiction|].
  apply String.eqb_eq in Hf.
  change (get "status" (task_row d t)) with (Ok (VStr (status_str (t_status t)))).
  now rewrite Hf.
Qed.

(** X23.  Once the sweep has found a worker's task past its deadline, the
    task is overdue, and the worker's keyboards offer no way to finish it:
    the card shows only the history and the way back, the row in the list
    of the worker's tasks has no action button, and the list of active
    tasks does not show it.  The handler itself still accepts the "done"
    data of a card drawn earlier. *)
Theorem overdue_task_loses_its_buttons env now now' w (u : User) (t : Task) :
  task_of (w_db w) (t_id t) = Some t ->
  is_overdue now t = true ->
  t_assignee_id t = Some (u_id u) ->
  u_role u = Worker ->
  let w1 := snd (Notifications.check_overdue_tasks env now w) in
  exists t',
    task_of (w_db w1) (t_id t) = Some t' /\ t_status t' = Overdue /\
    Bot.create_task_detail_keyboard (task_row_tg (w_db w1) t') (role_str (u_role u))
      (VInt (u_id u))
    = Ok [ [("task_history_" ++ str_of_int (t_id t))%string]; ["all_tasks"; "main_menu"] ] /\
    Bot.task_list_rows "my_task" (VInt (u_id u)) (task_row (w_db w1) t')
    = Ok [ [("my_task_" ++ str_of_int (t_id t))%string] ] /\
    (forall row,
       In row (get_tasks_by_user (w_db w1) (u_id u) (Some "in_progress")
               ++ get_tasks_by_user (w_db w1) (u_id u) (Some "new")) ->
       get "status" row <> Ok (VStr "overdue")) /\
    fst (Bot.change_task_status env now' (Bot.task_status_button (t_id t) "completed")
           (user_row u) w1) = Ok Bot.StatusChanged.
Proof.
  intros Ht Ho Ha Hr. cbv zeta.
  destruct (sweep_once env now w) as [_ [Hts _]].
  set (w1 := snd (Notifications.check_overdue_tasks env now w)) in *.
  assert (Ht' : task_of (w_db w1) (t_id t) = Some (flip_overdue now t)).
  { unfold task_of. rewrite Hts, task_of_flipped, Ht. reflexivity. }
  pose proof (flip_overdue_status now t Ho) as Hst.
  pose proof (flip_overdue_key now t) as Hk. injection Hk as Hid Has.
  exists (flip_overdue now t). split; [exact Ht'|]. split; [exact Hst|].
  split; [|split; [|split]].
  - unfold Bot.create_task_detail_keyboard.
    change (get "assignee_id" (task_row_tg (w_db w1) (flip_overdue now t)))
      with (Ok (opt_int (t_assignee_id (flip_overdue now t)))).
    change (get "id" (task_row_tg (w_db w1) (flip_overdue now t)))
      with (Ok (VInt (t_id (flip_overdue now t)))).
    change (get "status" (task_row_tg (w_db w1) (flip_overdue now t)))
      with (Ok (VStr (status_str (t_status (flip_overdue now t))))).
    rewrite Hid, Has, Ha, Hst, Hr. cbn [rbind as_int opt_int value_eqb].
    rewrite Z.eqb_refl. reflexivity.
  - unfold Bot.task_list_rows.
    change (get "id" (task_row (w_db w1) (flip_overdue now t)))
      with (Ok (VInt (t_id (flip_overdue now t)))).
    change (get "assignee_id" (task_row (w_db w1) (flip_overdue now t)))
      with (Ok (opt_int (t_assignee_id (flip_overdue now t)))).
    change (get "status" (task_row (w_db w1) (flip_overdue now t)))
      with (Ok (VStr (status_str (t_status (flip_overdue now t))))).
    rewrite Hid, Has, Ha, Hst. cbn [rbind as_int opt_int value_eqb].
    rewrite Z.eqb_refl. destruct (truthy (VInt (u_id u))); reflexivity.
  - intros row Hin. apply in_app_iff in Hin.
    destruct Hin as [Hin|Hin];
      apply get_tasks_by_user_status in Hin; try discriminate;
      rewrite Hin; discriminate.
  - assert (Hm : may_change u (flip_overdue now t) = true).
    { unfold may_change. rewrite Has, (proj2 (assignee_eqb _ _) Ha). reflexivity. }
    pose proof (parse_task_status_plain (t_id t) "completed" eq_refl) as Hp.
    apply (change_task_status_db env now' _ u w1 (t_id t) "completed"
             (flip_overdue now t) Completed Hp Ht' Hm eq_refl).
Qed.

Lemma overdue_task_loses_its_buttons_witness :
  let w1 := snd (Notifications.check_overdue_tasks env_ok 200000
                   (world_of (db_of [task1 New None] []))) in
  exists t',
    task_of (w_db w1) (t_id (task1 New None)) = Some t' /\ t_status t' = Overdue /\
    Bot.create_task_detail_keyboard (task_row_tg (w_db w1) t') (role_str (u_role worker1))
      (VInt (u_id worker1))
    = Ok [ [("task_history_" ++ str_of_int (t_id (task1 New None)))%string];
           ["all_tasks"; "main_menu"] ] /\
    Bot.task_list_rows "my_task" (VInt (u_id worker1)) (task_row (w_db w1) t')
    = Ok [ [("my_task_" ++ str_of_int (t_id (task1 New None)))%string] ] /\
    (forall row,
       In row (get_tasks_by_user (w_db w1) (u_id worker1) (Some "in_progress")
               ++ get_tasks_by_user (w_db w1) (u_id worker1) (Some "new")) ->
       get "status" row <> Ok (VStr "overdue")) /\
    fst (Bot.change_task_status env_ok 200100
           (Bot.task_status_button (t_id (task1 New None)) "completed")
           (user_row worker1) w1) = Ok Bot.StatusChanged.
Proof.
  apply (overdue_task_loses_its_buttons env_ok 200000 200100
           (world_of (db_of [task1 New None] [])) worker1 (task1 New None)).
  - reflexivity.
  - reflexivity.
  - reflexivity.
  - reflexivity.
Defined.
